(** * Hiraishin: route telemetry, ranking and connection lifecycle

  A shallow embedding of the Hiraishin sources:
  - [src/main.js]          the [HiraishinVPN] application object,
  - [src/probe.js]         the [NetworkProbe] singleton (route discovery, metrics cache),
  - [src/wg-controller.js] the [WireGuardController] singleton.

  Asynchronous functions are modelled as functions into [outcome]: the
  promise is either fulfilled with a value or rejected with an [Error]
  carrying a message.  Everything the program reads from outside (clock,
  ping, interface tables, child processes) is an explicit argument. *)

Set Warnings "-inexact-float".

From Stdlib Require Import ZArith QArith Qminmax Lqa Lia List Permutation Sorted.
From Stdlib Require Import Floats Uint63 Ascii String.
From stdpp Require Import gmap strings list.

Local Open Scope string_scope.
Local Open Scope list_scope.
Local Open Scope Z_scope.

(* ===================================================================== *)
(** * JavaScript values                                                   *)
(* ===================================================================== *)

Module JS.

(** ** Promises and exceptions *)

(** The result of awaiting a call: [Returned v], or [Raised msg] for a
    thrown [Error] whose [message] is [msg]. *)
Inductive outcome (A : Type) : Type :=
| Returned (a : A)
| Raised (message : string).
Arguments Returned {A} a.
Arguments Raised {A} message.

Definition bind {A B} (o : outcome A) (k : A -> outcome B) : outcome B :=
  match o with
  | Returned a => k a
  | Raised msg => Raised msg
  end.

(** [try { body } catch (error) { handler(error.message) }] *)
Definition try_catch {A} (body : outcome A) (handler : string -> outcome A)
  : outcome A :=
  match body with
  | Returned a => Returned a
  | Raised msg => handler msg
  end.

(** ** Numbers

    The program's arithmetic is written once, against the operations of
    the JavaScript Number type.  Two readings are provided: [binary64]
    is IEEE 754 double precision as the engine computes it, used to
    evaluate the program on concrete inputs; [num] keeps every finite
    number as an exact rational next to [NaN] and the two infinities,
    and is used for statements quantified over all numbers. *)
Class Number (N : Type) := {
  lit : Q -> N;               (* a decimal literal of the source text *)
  NaN : N;
  add : N -> N -> N;
  sub : N -> N -> N;
  mul : N -> N -> N;
  div : N -> N -> N;
  Math_max : N -> N -> N;
  Math_min : N -> N -> N;
  lt : N -> N -> bool;        (* [a < b]  *)
  le : N -> N -> bool         (* [a <= b] *)
}.

(** [ToNumber] of a property that may be absent: [undefined] gives [NaN]. *)
Definition ToNumber {N} `{Number N} (v : option N) : N :=
  match v with
  | Some n => n
  | None => NaN
  end.

(** [ToBoolean] of a property holding a string or [undefined]: the empty
    string and [undefined] are falsy. *)
Definition truthy (v : option string) : bool :=
  match v with
  | Some EmptyString => false
  | Some (String _ _) => true
  | None => false
  end.

(** *** Numbers with exact finite part *)
Inductive num : Type :=
| NaN_
| Inf (negative : bool)
| Fin (q : Q).
Arguments Fin q%_Q.

Definition num_add (a b : num) : num :=
  match a, b with
  | NaN_, _ | _, NaN_ => NaN_
  | Inf s, Inf s' => if Bool.eqb s s' then Inf s else NaN_
  | Inf s, Fin _ | Fin _, Inf s => Inf s
  | Fin p, Fin q => Fin (p + q)
  end.

Definition num_opp (a : num) : num :=
  match a with
  | NaN_ => NaN_
  | Inf s => Inf (negb s)
  | Fin q => Fin (- q)
  end.

Definition num_sub (a b : num) : num := num_add a (num_opp b).

Definition num_mul (a b : num) : num :=
  match a, b with
  | NaN_, _ | _, NaN_ => NaN_
  | Inf s, Inf s' => Inf (xorb s s')
  | Inf s, Fin q | Fin q, Inf s =>
      match (q ?= 0)%Q with
      | Eq => NaN_
      | Gt => Inf s
      | Lt => Inf (negb s)
      end
  | Fin p, Fin q => Fin (p * q)
  end.

(** Zero carries no sign here, so a division by zero takes the sign of
    the dividend. *)
Definition num_div (a b : num) : num :=
  match a, b with
  | NaN_, _ | _, NaN_ => NaN_
  | Inf _, Inf _ => NaN_
  | Inf s, Fin q =>
      match (q ?= 0)%Q with
      | Lt => Inf (negb s)
      | _ => Inf s
      end
  | Fin _, Inf _ => Fin 0
  | Fin p, Fin q =>
      match (q ?= 0)%Q with
      | Eq =>
          match (p ?= 0)%Q with
          | Eq => NaN_
          | Gt => Inf false
          | Lt => Inf true
          end
      | _ => Fin (p / q)
      end
  end.

Definition num_max (a b : num) : num :=
  match a, b with
  | NaN_, _ | _, NaN_ => NaN_
  | Inf false, _ | _, Inf false => Inf false
  | Inf true, x | x, Inf true => x
  | Fin p, Fin q => Fin (Qmax p q)
  end.

Definition num_min (a b : num) : num :=
  match a, b with
  | NaN_, _ | _, NaN_ => NaN_
  | Inf true, _ | _, Inf true => Inf true
  | Inf false, x | x, Inf false => x
  | Fin p, Fin q => Fin (Qmin p q)
  end.

Definition num_lt (a b : num) : bool :=
  match a, b with
  | NaN_, _ | _, NaN_ => false
  | Inf s, Inf s' => s && negb s'
  | Inf s, Fin _ => s
  | Fin _, Inf s' => negb s'
  | Fin p, Fin q => negb (Qle_bool q p)
  end.

Definition num_le (a b : num) : bool :=
  match a, b with
  | NaN_, _ | _, NaN_ => false
  | Inf s, Inf s' => s || negb s'
  | Inf s, Fin _ => s
  | Fin _, Inf s' => negb s'
  | Fin p, Fin q => Qle_bool p q
  end.

#[export] Instance num_Number : Number num := {|
  lit := Fin;
  NaN := NaN_;
  add := num_add;
  sub := num_sub;
  mul := num_mul;
  div := num_div;
  Math_max := num_max;
  Math_min := num_min;
  lt := num_lt;
  le := num_le
|}.

(** [x] is the finite number [q]. *)
Definition equals (x : num) (q : Q) : Prop :=
  match x with
  | Fin p => (p == q)%Q
  | _ => False
  end.

(** *** IEEE 754 binary64 *)

Definition float_of_Z (z : Z) : float :=
  if z <? 0
  then PrimFloat.opp (PrimFloat.of_uint63 (Uint63.of_Z (- z)))
  else PrimFloat.of_uint63 (Uint63.of_Z z).

(** A decimal literal [n/d] with [n] and [d] below [2^53] denotes the
    double nearest to it: the correctly rounded quotient of two exactly
    represented integers. *)
Definition float_lit (q : Q) : float :=
  PrimFloat.div (float_of_Z (Qnum q)) (float_of_Z (Z.pos (Qden q))).

Definition float_is_neg_zero (x : float) : bool :=
  match PrimFloat.classify x with
  | NZero => true
  | _ => false
  end.

(** [Math.max]: [NaN] if either argument is, and [+0] is larger than [-0]. *)
Definition float_max (a b : float) : float :=
  if PrimFloat.is_nan a || PrimFloat.is_nan b then PrimFloat.nan
  else if PrimFloat.ltb a b then b
  else if PrimFloat.ltb b a then a
  else if float_is_neg_zero a then b else a.

Definition float_min (a b : float) : float :=
  if PrimFloat.is_nan a || PrimFloat.is_nan b then PrimFloat.nan
  else if PrimFloat.ltb a b then a
  else if PrimFloat.ltb b a then b
  else if float_is_neg_zero a then a else b.

#[export] Instance binary64 : Number float := {|
  lit := float_lit;
  NaN := PrimFloat.nan;
  add := PrimFloat.add;
  sub := PrimFloat.sub;
  mul := PrimFloat.mul;
  div := PrimFloat.div;
  Math_max := float_max;
  Math_min := float_min;
  lt := PrimFloat.ltb;
  le := PrimFloat.leb
|}.

(** ** Arrays *)

(** [array[i]]: [undefined] past the end. *)
Definition at_index {A} (l : list A) (i : nat) : option A := nth_error l i.

(** [v || fallback] for a string-valued property. *)
Definition or_else (v : option string) (fallback : string) : string :=
  match v with
  | Some (String c s) => String c s
  | _ => fallback
  end.

(** [Array.prototype.sort(comparefn)].  The comparator's result [v]
    orders [x] after [y] exactly when [v > 0]; a [NaN] result counts as
    [+0].  The algorithm is the engine's; it is fixed here as the stable
    insertion sort, which every conforming engine agrees with whenever the
    comparator is a consistent ordering (the sort is required to be
    stable). *)
Section Sort.
Context {A N : Type} `{Number N}.
Variable comparefn : A -> A -> N.

Fixpoint sort_insert (x : A) (sorted : list A) : list A :=
  match sorted with
  | [] => [x]
  | y :: rest =>
      if lt (lit 0) (comparefn x y) then y :: sort_insert x rest
      else x :: y :: rest
  end.

Definition Array_sort (l : list A) : list A := fold_right sort_insert [] l.

End Sort.

(** ** Strings *)

(** [haystack.includes(needle)] *)
Fixpoint includes (needle haystack : string) : bool :=
  String.prefix needle haystack ||
  match haystack with
  | EmptyString => false
  | String _ rest => includes needle rest
  end.

(** [s.split('\n')]: the pieces between line feeds; the empty string
    splits into one empty piece. *)
Fixpoint split_lines (s : string) : list string :=
  match s with
  | EmptyString => [EmptyString]
  | String c rest =>
      if Ascii.eqb c "010"%char then EmptyString :: split_lines rest
      else
        match split_lines rest with
        | piece :: pieces => String c piece :: pieces
        | [] => [String c EmptyString]
        end
  end.

(** The white space of [\s] and [trim] in the ASCII range: tab, line
    feed, vertical tab, form feed, carriage return and space. *)
Definition is_white (c : ascii) : bool :=
  let n := nat_of_ascii c in
  ((9 <=? n)%nat && (n <=? 13)%nat) || (n =? 32)%nat.

Fixpoint trim_start (s : string) : string :=
  match s with
  | EmptyString => EmptyString
  | String c rest => if is_white c then trim_start rest else s
  end.

(** Drops trailing white space: a white character is kept only when
    something other than white space follows it. *)
Fixpoint trim_end (s : string) : string :=
  match s with
  | EmptyString => EmptyString
  | String c rest =>
      match trim_end rest with
      | EmptyString => if is_white c then EmptyString else String c EmptyString
      | kept => String c kept
      end
  end.

Definition trim (s : string) : string := trim_end (trim_start s).

(** [s.split(/\s+/)]: the pieces between maximal runs of white space.
    [in_run] tells that the previous character was white. *)
Fixpoint split_white_from (in_run : bool) (s : string) : list string :=
  match s with
  | EmptyString => [EmptyString]
  | String c rest =>
      if is_white c then
        if in_run then split_white_from true rest
        else EmptyString :: split_white_from true rest
      else
        match split_white_from false rest with
        | piece :: pieces => String c piece :: pieces
        | [] => [String c EmptyString]
        end
  end.

Definition split_white (s : string) : list string := split_white_from false s.

End JS.
Export JS.

(* ===================================================================== *)
(** * Data model                                                          *)
(* ===================================================================== *)

Section DataModel.
Context {N : Type}.

(** A metrics sample: the object built by [analyzeRoute], or the
    [{ error }] object built on failure.  A property that the object does
    not have reads as [undefined], here [None]. *)
Record Metrics : Type := {
  error : option string;
  latency : option N;
  throughput : option N;
  stability : option N;
  packetLoss : option N;
  jitter : option N;
  timestamp : option Z
}.

(** A candidate network path, as [discoverRoutes] builds it.  The three
    sources give objects of different shapes; a property an object lacks
    is [None]. *)
Record Route : Type := {
  id : string;
  name : string;
  type : string;
  ip : option string;
  mac : option string;
  speed : option N;
  iface : option string;
  ssid : option string;
  signal : option N;
  security : option string;
  destination : option string;
  gateway : option string;
  metrics : option Metrics;
  lastAnalyzed : option Z
}.

(** [route.metrics = m] *)
Definition set_metrics (m : Metrics) (route : Route) : Route :=
  {| id := id route; name := name route; type := type route; ip := ip route;
     mac := mac route; speed := speed route; iface := iface route;
     ssid := ssid route; signal := signal route; security := security route;
     destination := destination route; gateway := gateway route;
     metrics := Some m; lastAnalyzed := lastAnalyzed route |}.

(** [route.lastAnalyzed = date] *)
Definition set_lastAnalyzed (date : Z) (route : Route) : Route :=
  {| id := id route; name := name route; type := type route; ip := ip route;
     mac := mac route; speed := speed route; iface := iface route;
     ssid := ssid route; signal := signal route; security := security route;
     destination := destination route; gateway := gateway route;
     metrics := metrics route; lastAnalyzed := Some date |}.

(** The object literal [{ error: message }]. *)
Definition error_sample (message : string) (stamp : option Z) : Metrics :=
  {| error := Some message; latency := None; throughput := None;
     stability := None; packetLoss := None; jitter := None;
     timestamp := stamp |}.

End DataModel.
Arguments Metrics N : clear implicits.
Arguments Route N : clear implicits.

Section Scoring.
Context {N : Type} `{Number N}.

(** [calculateRouteScore(metrics)], main.js and renderer.js. *)
Definition calculateRouteScore (metrics : Metrics N) : N :=
  if truthy (error metrics) then lit 0
  else
    let latencyScore := Math_max (lit 0) (sub (lit 100) (ToNumber (latency metrics))) in
    let throughputScore := Math_min (lit 100) (div (ToNumber (throughput metrics)) (lit 10)) in
    let stabilityScore := mul (ToNumber (stability metrics)) (lit 100) in
    add (add (mul latencyScore (lit 0.4)) (mul throughputScore (lit 0.4)))
        (mul stabilityScore (lit 0.2)).

End Scoring.

(* ===================================================================== *)
(** * probe.js: the NetworkProbe singleton                                *)
(* ===================================================================== *)

(** An entry of [si.networkInterfaces()]. *)
Module NetIface.
Record t (N : Type) : Type := {
  iface : string;
  operstate : string;
  type : string;
  ip4 : option string;
  mac : option string;
  speed : option N
}.
Arguments iface {N} _.
Arguments operstate {N} _.
Arguments type {N} _.
Arguments ip4 {N} _.
Arguments mac {N} _.
Arguments speed {N} _.
End NetIface.

(** An entry of [wifi.scan()]. *)
Module WifiNetwork.
Record t (N : Type) : Type := {
  ssid : option string;
  signal : option N;
  security : option string
}.
Arguments ssid {N} _.
Arguments signal {N} _.
Arguments security {N} _.
End WifiNetwork.

(** An entry built by [parseLinuxRoutes] or [parseWindowsRoutes];
    [parts[i]] past the end of the line is [undefined]. *)
Module SystemRoute.
Record t : Type := {
  destination : string;
  gateway : option string;
  iface : option string
}.
End SystemRoute.

(** A value of the [cache] map: [{ data, timestamp }]. *)
Module CacheEntry.
Record t (N : Type) : Type := {
  data : Metrics N;
  timestamp : Z
}.
Arguments data {N} _.
Arguments timestamp {N} _.
End CacheEntry.

Module Probe.

(** [parseWindowsRoutes(output)] *)
Definition parseWindowsRoutes (output : string) : list SystemRoute.t :=
  flat_map
    (fun line =>
       if includes "0.0.0.0" line && includes "Gateway" line then
         let parts := split_white (trim line) in
         if (3 <=? length parts)%nat then
           [ {| SystemRoute.destination := "0.0.0.0/0";
                SystemRoute.gateway := at_index parts 2;
                SystemRoute.iface := Some (or_else (at_index parts 3) "Unknown") |} ]
         else []
       else [])
    (split_lines output).

(** [parseLinuxRoutes(output)] *)
Definition parseLinuxRoutes (output : string) : list SystemRoute.t :=
  flat_map
    (fun line =>
       if includes "default" line then
         let parts := split_white (trim line) in
         [ {| SystemRoute.destination := "0.0.0.0/0";
              SystemRoute.gateway := at_index parts 2;
              SystemRoute.iface := at_index parts 4 |} ]
       else [])
    (split_lines output).

Section WithNumbers.
Context {N : Type} `{Number N}.

(** What one call of [discoverRoutes] reads from the host:
    [si.networkInterfaces()], [wifi.init] followed by [wifi.scan()],
    [process.platform], and the standard output of the routing-table
    command. *)
Record Host : Type := {
  si_networkInterfaces : outcome (list (NetIface.t N));
  wifi_scan : outcome (list (WifiNetwork.t N));
  process_platform : string;
  exec_route_command : outcome string
}.

(** [getWifiNetworks()] *)
Definition getWifiNetworks (host : Host) : outcome (list (WifiNetwork.t N)) :=
  try_catch
    (bind (wifi_scan host) (fun networks =>
     Returned (List.filter (fun network => truthy (WifiNetwork.ssid network)) networks)))
    (fun _ => Returned []).

(** [getSystemRoutes()] *)
Definition getSystemRoutes (host : Host) : outcome (list SystemRoute.t) :=
  try_catch
    (let parseFunction :=
       if String.eqb (process_platform host) "win32" then parseWindowsRoutes
       else parseLinuxRoutes in
     bind (exec_route_command host) (fun stdout =>
     Returned (parseFunction stdout)))
    (fun _ => Returned []).

(** The three [routes.push] loops of [discoverRoutes]. *)
Definition routes_of_interfaces (networkInterfaces : list (NetIface.t N))
  : list (Route N) :=
  flat_map
    (fun i =>
       if String.eqb (NetIface.operstate i) "up"
          && negb (String.eqb (NetIface.type i) "loopback")
       then
         [ {| id := NetIface.iface i;
              name := NetIface.iface i +:+ " (" +:+ NetIface.type i +:+ ")";
              type := NetIface.type i;
              ip := NetIface.ip4 i;
              mac := NetIface.mac i;
              speed := NetIface.speed i;
              iface := Some (NetIface.iface i);
              ssid := None; signal := None; security := None;
              destination := None; gateway := None;
              metrics := None; lastAnalyzed := None |} ]
       else [])
    networkInterfaces.

(** A template literal prints [undefined] for an absent value. *)
Definition template (v : option string) : string :=
  match v with
  | Some s => s
  | None => "undefined"
  end.

Definition routes_of_wifi (wifiNetworks : list (WifiNetwork.t N)) : list (Route N) :=
  List.map
    (fun network =>
       {| id := "wifi-" +:+ template (WifiNetwork.ssid network);
          name := "WiFi: " +:+ template (WifiNetwork.ssid network);
          type := "wifi";
          ip := None; mac := None; speed := None;
          iface := Some "wlan0";
          ssid := WifiNetwork.ssid network;
          signal := WifiNetwork.signal network;
          security := WifiNetwork.security network;
          destination := None; gateway := None;
          metrics := None; lastAnalyzed := None |})
    wifiNetworks.

Definition routes_of_system (systemRoutes : list SystemRoute.t) : list (Route N) :=
  List.map
    (fun route =>
       {| id := "route-" +:+ SystemRoute.destination route;
          name := "Rota: " +:+ SystemRoute.destination route;
          type := "route";
          ip := None; mac := None; speed := None;
          iface := SystemRoute.iface route;
          ssid := None; signal := None; security := None;
          destination := Some (SystemRoute.destination route);
          gateway := SystemRoute.gateway route;
          metrics := None; lastAnalyzed := None |})
    systemRoutes.

(** [discoverRoutes()] *)
Definition discoverRoutes (host : Host) : outcome (list (Route N)) :=
  try_catch
    (bind (si_networkInterfaces host) (fun networkInterfaces =>
     bind (getWifiNetworks host) (fun wifiNetworks =>
     bind (getSystemRoutes host) (fun systemRoutes =>
     Returned (routes_of_interfaces networkInterfaces
               ++ routes_of_wifi wifiNetworks
               ++ routes_of_system systemRoutes)))))
    (fun _ => Returned []).

(** What a collector contributes when its failure is set aside: its
    list when it returned, nothing when it threw. *)
Definition collected {A} (o : outcome (list A)) : list A :=
  match o with
  | Returned l => l
  | Raised _ => []
  end.

(** The routes gathered from the collectors that succeeded, each
    collector taken on its own: the interfaces that are up and not
    loopback when the interface table was read, the wireless networks
    that have a name when the scan returned, the default routes of the
    routing table when the command ran. *)
Definition gathered_where_succeeded (host : Host) : list (Route N) :=
  routes_of_interfaces (collected (si_networkInterfaces host))
  ++ routes_of_wifi
       (List.filter (fun network => truthy (WifiNetwork.ssid network))
                    (collected (wifi_scan host)))
  ++ routes_of_system
       (match exec_route_command host with
        | Returned stdout =>
            if String.eqb (process_platform host) "win32"
            then parseWindowsRoutes stdout
            else parseLinuxRoutes stdout
        | Raised _ => []
        end).

(** The fields the constructor sets: [cache = new Map()] and
    [cacheTimeout = 30000]. *)
Record NetworkProbe : Type := {
  cache : gmap string (CacheEntry.t N);
  cacheTimeout : Z
}.

Definition new_NetworkProbe : NetworkProbe :=
  {| cache := ∅; cacheTimeout := 30000 |}.

(** What one call of [analyzeRoute] reads: the clock on entry, the
    results of the five [measure...] calls for the route, and the clock
    once they have settled.  The five methods are taken at their
    interface, as the [try] block of [analyzeRoute] treats them: each
    gives a number or throws.  (Their shipped bodies catch what the ping
    and interface libraries throw and answer a default number, which is
    one of the behaviours covered.) *)
Record Reading : Type := {
  Date_now : Z;
  measureLatency : outcome N;
  measureThroughput : outcome N;
  measureStability : outcome N;
  measurePacketLoss : outcome N;
  measureJitter : outcome N;
  Date_settled : Z
}.

(** The object literal [metrics] inside the [try] block: the awaits run
    in order and the first rejection leaves the block. *)
Definition measure (env : Reading) : outcome (Metrics N) :=
  bind (measureLatency env) (fun l =>
  bind (measureThroughput env) (fun t =>
  bind (measureStability env) (fun s =>
  bind (measurePacketLoss env) (fun p =>
  bind (measureJitter env) (fun j =>
  Returned {| error := None; latency := Some l; throughput := Some t;
              stability := Some s; packetLoss := Some p; jitter := Some j;
              timestamp := Some (Date_settled env) |}))))).

(** The cache check at the head of [analyzeRoute]: the entry's data when
    [this.cache.has(route.id)] and the entry is younger than
    [cacheTimeout]. *)
Definition cached_fresh (this : NetworkProbe) (route : Route N) (now : Z)
  : option (Metrics N) :=
  match cache this !! id route with
  | Some cached =>
      if now - CacheEntry.timestamp cached <? cacheTimeout this
      then Some (CacheEntry.data cached)
      else None
  | None => None
  end.

(** [analyzeRoute(route)] *)
Definition analyzeRoute (this : NetworkProbe) (route : Route N) (env : Reading)
  : NetworkProbe * outcome (Metrics N) :=
  match cached_fresh this route (Date_now env) with
  | Some data => (this, Returned data)
  | None =>
      match measure env with
      | Returned metrics =>
          ({| cache := <[ id route :=
                          {| CacheEntry.data := metrics;
                             CacheEntry.timestamp := Date_settled env |} ]>
                       (cache this);
              cacheTimeout := cacheTimeout this |},
           Returned metrics)
      | Raised message =>
          (this, Returned (error_sample message (Some (Date_settled env))))
      end
  end.

(** [clearCache()] *)
Definition clearCache (this : NetworkProbe) : NetworkProbe :=
  {| cache := ∅; cacheTimeout := cacheTimeout this |}.

End WithNumbers.
Arguments Host N : clear implicits.
Arguments NetworkProbe N : clear implicits.
Arguments Reading N : clear implicits.
End Probe.

(* ===================================================================== *)
(** * wg-controller.js: the WireGuardController singleton                 *)
(* ===================================================================== *)

Module WireGuard.

Section WithNumbers.
Context {N : Type}.

Record WireGuardController : Type := {
  isConnected : bool;
  currentConfig : option (Route N)
}.

Definition new_WireGuardController : WireGuardController :=
  {| isConnected := false; currentConfig := None |}.

(** What one call of [connect] meets on the host: the result of
    [fs.writeFileSync], of the [wg-quick up] command (its standard error
    when it exits normally), and whether [NODE_ENV] is [development].
    Key generation falls back to a random key and cannot fail; the text of
    the configuration file is not modelled. *)
Record Bringup : Type := {
  fs_writeFileSync : outcome unit;
  exec_up : outcome string;
  development : bool
}.

(** [startWireGuard(configFile)] *)
Definition startWireGuard (env : Bringup) : outcome bool :=
  try_catch
    (bind (exec_up env) (fun stderr =>
     if truthy (Some stderr) && negb (includes "Warning" stderr)
     then Raised ("Erro ao iniciar WireGuard: " +:+ stderr)
     else Returned true))
    (fun message =>
     if development env then Returned true else Raised message).

(** [connect(route)] *)
Definition connect (this : WireGuardController) (route : Route N) (env : Bringup)
  : WireGuardController * outcome bool :=
  match bind (fs_writeFileSync env) (fun _ => startWireGuard env) with
  | Returned _ =>
      ({| isConnected := true; currentConfig := Some route |}, Returned true)
  | Raised message => (this, Raised message)
  end.

(** [stopAllWireGuard()]: the command's failure is logged and dropped. *)
Definition stopAllWireGuard (exec_down : outcome string) : outcome bool :=
  try_catch (bind exec_down (fun _ => Returned true)) (fun _ => Returned true).

(** [disconnect()] *)
Definition disconnect (this : WireGuardController) (exec_down : outcome string)
  : WireGuardController * outcome bool :=
  if negb (isConnected this) then (this, Returned true)
  else
    match stopAllWireGuard exec_down with
    | Returned _ =>
        ({| isConnected := false; currentConfig := None |}, Returned true)
    | Raised message => (this, Raised message)
    end.

End WithNumbers.
Arguments WireGuardController N : clear implicits.
End WireGuard.

(* ===================================================================== *)
(** * main.js: the HiraishinVPN application object                        *)
(* ===================================================================== *)

Module Main.

Section WithCollaborators.
Context {N : Type} `{Number N}.

(** main.js reaches the route probe and the tunnel controller only
    through the methods of the two modules it requires.  The methods are
    taken as parameters: [P] and [W] are the states of the two singletons,
    and [D], [E], [X], [Y] what each call reads from the host. *)
Context {P D E W X Y : Type}.
Variable probe_discoverRoutes : D -> outcome (list (Route N)).
Variable probe_analyzeRoute : P -> Route N -> E -> P * outcome (Metrics N).
Variable wgController_connect : W -> Route N -> X -> W * outcome bool.
Variable wgController_disconnect : W -> Y -> W * outcome bool.

(** The fields the constructor sets ([mainWindow] belongs to the
    presentation layer and is left out).  [analysisInterval] holds the
    handle returned by [setInterval]. *)
Record HiraishinVPN : Type := {
  isConnected : bool;
  currentRoute : option (Route N);
  analysisInterval : option nat;
  routes : list (Route N)
}.

Definition new_HiraishinVPN : HiraishinVPN :=
  {| isConnected := false; currentRoute := None; analysisInterval := None;
     routes := [] |}.

(** The running process: the application object, the two singletons, and
    the runtime's table of armed interval timers (handle to period in
    milliseconds) with the next handle to hand out. *)
Record Process : Type := {
  app : HiraishinVPN;
  probe : P;
  wgController : W;
  timers : gmap nat Z;
  next_timer : nat
}.

Definition start_process (p : P) (w : W) : Process :=
  {| app := new_HiraishinVPN; probe := p; wgController := w;
     timers := ∅; next_timer := 0 |}.

Definition with_app (a : HiraishinVPN) (s : Process) : Process :=
  {| app := a; probe := probe s; wgController := wgController s;
     timers := timers s; next_timer := next_timer s |}.

(** [setInterval(callback, period)] *)
Definition setInterval (period : Z) (s : Process) : Process * nat :=
  ({| app := app s; probe := probe s; wgController := wgController s;
      timers := <[ next_timer s := period ]> (timers s);
      next_timer := S (next_timer s) |},
   next_timer s).

(** [clearInterval(handle)] *)
Definition clearInterval (handle : nat) (s : Process) : Process :=
  {| app := app s; probe := probe s; wgController := wgController s;
     timers := delete handle (timers s); next_timer := next_timer s |}.

(** [startNetworkAnalysis()] *)
Definition startNetworkAnalysis (s : Process) (d : D) : Process * outcome bool :=
  match probe_discoverRoutes d with
  | Raised message => (s, Raised message)
  | Returned found =>
      let s1 := with_app {| isConnected := isConnected (app s);
                            currentRoute := currentRoute (app s);
                            analysisInterval := analysisInterval (app s);
                            routes := found |} s in
      let '(s2, handle) := setInterval 5000 s1 in
      (with_app {| isConnected := isConnected (app s2);
                   currentRoute := currentRoute (app s2);
                   analysisInterval := Some handle;
                   routes := routes (app s2) |} s2,
       Returned true)
  end.

(** [stopNetworkAnalysis()] *)
Definition stopNetworkAnalysis (s : Process) : Process * outcome unit :=
  match analysisInterval (app s) with
  | Some handle =>
      let s1 := clearInterval handle s in
      (with_app {| isConnected := isConnected (app s1);
                   currentRoute := currentRoute (app s1);
                   analysisInterval := None;
                   routes := routes (app s1) |} s1,
       Returned tt)
  | None => (s, Returned tt)
  end.

(** What one analysis cycle reads: the host's answer to the probe call
    for the route at each position, and the clock read by [new Date()]
    after it. *)
Record Cycle : Type := {
  probe_reply : nat -> E;
  new_Date : nat -> Z
}.

(** The body of the [for (let route of this.routes)] loop once the probe
    call has settled: the [try] branch stores the sample and the date, the
    [catch] branch stores [{ error: error.message }]. *)
Definition assign (route : Route N) (date : Z) (result : outcome (Metrics N))
  : Route N :=
  match result with
  | Returned metrics => set_lastAnalyzed date (set_metrics metrics route)
  | Raised message => set_metrics (error_sample message None) route
  end.

(** The loop of [analyzeRoutes], from position [i] on. *)
Fixpoint analyze_each (p : P) (rs : list (Route N)) (env : Cycle) (i : nat)
  : P * list (Route N) :=
  match rs with
  | [] => (p, [])
  | route :: rest =>
      let '(p1, result) := probe_analyzeRoute p route (probe_reply env i) in
      let route1 := assign route (new_Date env i) result in
      let '(p2, rest1) := analyze_each p1 rest env (S i) in
      (p2, route1 :: rest1)
  end.

(** The comparator handed to [this.routes.sort]. *)
Definition compare_routes (a b : Route N) : N :=
  match metrics a, metrics b with
  | Some ma, Some mb =>
      let scoreA := calculateRouteScore ma in
      let scoreB := calculateRouteScore mb in
      sub scoreB scoreA
  | _, _ => lit 0
  end.

(** [analyzeRoutes()] *)
Definition analyzeRoutes (s : Process) (env : Cycle) : Process * outcome unit :=
  let '(p1, analyzed) := analyze_each (probe s) (routes (app s)) env 0 in
  ({| app := {| isConnected := isConnected (app s);
                currentRoute := currentRoute (app s);
                analysisInterval := analysisInterval (app s);
                routes := Array_sort compare_routes analyzed |};
      probe := p1; wgController := wgController s;
      timers := timers s; next_timer := next_timer s |},
   Returned tt).

(** The answers of the probe to the calls of one cycle, in catalog
    order; the probe's state passes from one call to the next. *)
Fixpoint probe_results (p : P) (rs : list (Route N)) (env : Cycle) (i : nat)
  : list (outcome (Metrics N)) :=
  match rs with
  | [] => []
  | route :: rest =>
      let '(p1, result) := probe_analyzeRoute p route (probe_reply env i) in
      result :: probe_results p1 rest env (S i)
  end.

(** Each route with the answer at its own position. *)
Fixpoint assign_each (rs : list (Route N)) (results : list (outcome (Metrics N)))
    (env : Cycle) (i : nat) : list (Route N) :=
  match rs, results with
  | route :: rest, result :: results1 =>
      assign route (new_Date env i) result :: assign_each rest results1 env (S i)
  | _, _ => []
  end.

(** The score a route is ranked by; a route without a sample has none. *)
Definition score_of (r : Route N) : N :=
  match metrics r with
  | Some m => calculateRouteScore m
  | None => NaN
  end.

(** The route's score is a number. *)
Definition scored (r : Route N) : Prop := score_of r <> NaN.

(** Every adjacent pair is in non-increasing order of score:
    [score(r[i]) >= score(r[i+1])]. *)
Fixpoint ranked (rs : list (Route N)) : bool :=
  match rs with
  | a :: (b :: _) as rest => le (score_of b) (score_of a) && ranked rest
  | _ => true
  end.

(** [findBestRoute()] *)
Definition findBestRoute (s : Process) : outcome (Route N) :=
  match routes (app s) with
  | [] => Raised "Nenhuma rota disponível"
  | first :: _ => Returned first
  end.

(** [connectToRoute(route)].  Reading [route.name] of [null] or
    [undefined] (here [None]) throws a [TypeError] inside the [try]. *)
Definition connectToRoute (s : Process) (route : option (Route N)) (x : X)
  : Process * outcome bool :=
  match route with
  | None => (s, Raised "Cannot read properties of null (reading 'name')")
  | Some r =>
      let '(w1, result) := wgController_connect (wgController s) r x in
      let s1 := {| app := app s; probe := probe s; wgController := w1;
                   timers := timers s; next_timer := next_timer s |} in
      match result with
      | Returned _ =>
          (with_app {| isConnected := true;
                       currentRoute := Some r;
                       analysisInterval := analysisInterval (app s1);
                       routes := routes (app s1) |} s1,
           Returned true)
      | Raised message => (s1, Raised message)
      end
  end.

(** [disconnect()] *)
Definition disconnect (s : Process) (y : Y) : Process * outcome unit :=
  let '(w1, result) := wgController_disconnect (wgController s) y in
  let s1 := {| app := app s; probe := probe s; wgController := w1;
               timers := timers s; next_timer := next_timer s |} in
  match result with
  | Returned _ =>
      (with_app {| isConnected := false;
                   currentRoute := None;
                   analysisInterval := analysisInterval (app s1);
                   routes := routes (app s1) |} s1,
       Returned tt)
  | Raised message => (s1, Raised message)
  end.

(** ** The IPC handlers of [setupIPC] *)

(** The object a handler answers with. *)
Record Reply : Type := {
  success : bool;
  message : option string;
  route : option (Route N)
}.

Definition succeeded (text : string) : Reply :=
  {| success := true; message := Some text; route := None |}.

Definition failed (text : string) : Reply :=
  {| success := false; message := Some text; route := None |}.

(** ['start-analysis'] *)
Definition on_start_analysis (s : Process) (d : D) : Process * Reply :=
  match startNetworkAnalysis s d with
  | (s1, Returned _) => (s1, succeeded "Análise iniciada com sucesso")
  | (s1, Raised text) => (s1, failed text)
  end.

(** ['stop-analysis'] *)
Definition on_stop_analysis (s : Process) : Process * Reply :=
  match stopNetworkAnalysis s with
  | (s1, Returned _) => (s1, succeeded "Análise parada com sucesso")
  | (s1, Raised text) => (s1, failed text)
  end.

(** ['connect-best-route'].  [bestRoute] is an object, hence truthy. *)
Definition on_connect_best_route (s : Process) (x : X) : Process * Reply :=
  match findBestRoute s with
  | Raised text => (s, failed text)
  | Returned bestRoute =>
      match connectToRoute s (Some bestRoute) x with
      | (s1, Returned _) =>
          (s1, {| success := true; message := None; route := Some bestRoute |})
      | (s1, Raised text) => (s1, failed text)
      end
  end.

(** ['disconnect'] *)
Definition on_disconnect (s : Process) (y : Y) : Process * Reply :=
  match disconnect s y with
  | (s1, Returned _) => (s1, succeeded "Desconectado com sucesso")
  | (s1, Raised text) => (s1, failed text)
  end.

(** The callback armed by [startNetworkAnalysis]: a failed cycle is
    logged and dropped. *)
Definition on_interval (s : Process) (env : Cycle) : Process :=
  fst (analyzeRoutes s env).

(** [isConnected] is true exactly when [currentRoute] is not null. *)
Definition consistent (s : Process) : Prop :=
  isConnected (app s) = true <-> currentRoute (app s) <> None.

(** ** Operations on the application object *)

Inductive operation : Type :=
| StartAnalysis (d : D)
| StopAnalysis
| AnalysisCycle (env : Cycle)
| ConnectToRoute (r : option (Route N)) (x : X)
| ConnectBestRoute (x : X)
| Disconnect (y : Y).

(** One operation run to completion: the state after it and whether it
    failed, with the error's message.  Operations are taken one after the
    other; two asynchronous operations in flight at once are not
    modelled. *)
Definition perform (s : Process) (o : operation) : Process * option string :=
  match o with
  | StartAnalysis d =>
      match startNetworkAnalysis s d with
      | (s1, Returned _) => (s1, None)
      | (s1, Raised text) => (s1, Some text)
      end
  | StopAnalysis =>
      match stopNetworkAnalysis s with
      | (s1, Returned _) => (s1, None)
      | (s1, Raised text) => (s1, Some text)
      end
  | AnalysisCycle env =>
      match analyzeRoutes s env with
      | (s1, Returned _) => (s1, None)
      | (s1, Raised text) => (s1, Some text)
      end
  | ConnectToRoute r x =>
      match connectToRoute s r x with
      | (s1, Returned _) => (s1, None)
      | (s1, Raised text) => (s1, Some text)
      end
  | ConnectBestRoute x =>
      match on_connect_best_route s x with
      | (s1, reply) => (s1, if success reply then None else message reply)
      end
  | Disconnect y =>
      match disconnect s y with
      | (s1, Returned _) => (s1, None)
      | (s1, Raised text) => (s1, Some text)
      end
  end.

Definition perform_all (s : Process) (os : list operation) : Process :=
  fold_left (fun s o => fst (perform s o)) os s.

End WithCollaborators.
Arguments HiraishinVPN N : clear implicits.
Arguments Process N P W : clear implicits.
Arguments Cycle E : clear implicits.
Arguments Reply N : clear implicits.
Arguments operation N D E X Y : clear implicits.
End Main.

(* ===================================================================== *)
(** * The program as shipped and the scenarios of the specification       *)
(* ===================================================================== *)

(** main.js wired to the two modules it requires. *)
Module App.
Section WithNumbers.
Context {N : Type} `{Number N}.

Definition Process : Type :=
  Main.Process N (Probe.NetworkProbe N) (WireGuard.WireGuardController N).

Definition start_process : Process :=
  Main.start_process Probe.new_NetworkProbe WireGuard.new_WireGuardController.

Definition operation : Type :=
  Main.operation N (Probe.Host N) (Probe.Reading N) WireGuard.Bringup (outcome string).

Definition analyzeRoutes (s : Process) (env : Main.Cycle (Probe.Reading N))
  : Process * outcome unit :=
  Main.analyzeRoutes Probe.analyzeRoute s env.

Definition startNetworkAnalysis (s : Process) (host : Probe.Host N)
  : Process * outcome bool :=
  Main.startNetworkAnalysis Probe.discoverRoutes s host.

Definition on_connect_best_route (s : Process) (x : WireGuard.Bringup)
  : Process * Main.Reply N :=
  Main.on_connect_best_route WireGuard.connect s x.

Definition perform (s : Process) (o : operation) : Process * option string :=
  Main.perform Probe.discoverRoutes Probe.analyzeRoute
               WireGuard.connect WireGuard.disconnect s o.

End WithNumbers.
End App.

Module Scenario.
Section WithNumbers.
Context {N : Type} `{Number N}.

(** A sample with the three scored fields, measured at time [0]. *)
Definition sample (latencyMs throughputMbps stable : Q) : Metrics N :=
  {| error := None;
     latency := Some (lit latencyMs);
     throughput := Some (lit throughputMbps);
     stability := Some (lit stable);
     packetLoss := Some (lit 0);
     jitter := Some (lit 0);
     timestamp := Some 0 |}.

(** RouteA and RouteB of the end-to-end scenario. *)
Definition metricsA : Metrics N := sample 10 500 0.95.
Definition metricsB : Metrics N := sample 200 5 0.2.

Definition eth0 : NetIface.t N :=
  {| NetIface.iface := "eth0"; NetIface.operstate := "up";
     NetIface.type := "wired"; NetIface.ip4 := Some "192.168.1.10";
     NetIface.mac := Some "00:11:22:33:44:55"; NetIface.speed := Some (lit 1000) |}.

Definition wlan0 : NetIface.t N :=
  {| NetIface.iface := "wlan0"; NetIface.operstate := "up";
     NetIface.type := "wireless"; NetIface.ip4 := Some "10.0.0.7";
     NetIface.mac := Some "66:77:88:99:aa:bb"; NetIface.speed := Some (lit 100) |}.

Definition home_wifi : WifiNetwork.t N :=
  {| WifiNetwork.ssid := Some "Home"; WifiNetwork.signal := Some (lit 70);
     WifiNetwork.security := Some "WPA2" |}.

Definition line_feed : string := String "010"%char EmptyString.

(** The output of [ip route show] on a host with two uplinks. *)
Definition two_default_routes : string :=
  "default via 192.168.1.1 dev eth0 proto dhcp metric 100" +:+ line_feed +:+
  "default via 10.0.0.1 dev wlan0 proto dhcp metric 600" +:+ line_feed +:+
  "192.168.1.0/24 dev eth0 proto kernel scope link src 192.168.1.10" +:+ line_feed.

(** A host whose three collectors all answer. *)
Definition host : Probe.Host N :=
  {| Probe.si_networkInterfaces := Returned [eth0; wlan0];
     Probe.wifi_scan := Returned [home_wifi];
     Probe.process_platform := "linux";
     Probe.exec_route_command := Returned two_default_routes |}.

(** The same host when [si.networkInterfaces()] throws. *)
Definition host_without_interfaces : Probe.Host N :=
  {| Probe.si_networkInterfaces := Raised "spawn ENOENT";
     Probe.wifi_scan := Returned [home_wifi];
     Probe.process_platform := "linux";
     Probe.exec_route_command := Returned two_default_routes |}.

(** The routes [discoverRoutes] builds for the two interfaces. *)
Definition routeA : Route N :=
  {| id := "eth0"; name := "eth0 (wired)"; type := "wired";
     ip := Some "192.168.1.10"; mac := Some "00:11:22:33:44:55";
     speed := Some (lit 1000); iface := Some "eth0";
     ssid := None; signal := None; security := None;
     destination := None; gateway := None;
     metrics := None; lastAnalyzed := None |}.

Definition routeB : Route N :=
  {| id := "wlan0"; name := "wlan0 (wireless)"; type := "wireless";
     ip := Some "10.0.0.7"; mac := Some "66:77:88:99:aa:bb";
     speed := Some (lit 100); iface := Some "wlan0";
     ssid := None; signal := None; security := None;
     destination := None; gateway := None;
     metrics := None; lastAnalyzed := None |}.

(** A call of [analyzeRoute] entered at [now] whose measurements all
    return, settling at [settled]. *)
Definition reading (now settled : Z) (latencyMs throughputMbps stable : Q)
  : Probe.Reading N :=
  {| Probe.Date_now := now;
     Probe.measureLatency := Returned (lit latencyMs);
     Probe.measureThroughput := Returned (lit throughputMbps);
     Probe.measureStability := Returned (lit stable);
     Probe.measurePacketLoss := Returned (lit 0);
     Probe.measureJitter := Returned (lit 0);
     Probe.Date_settled := settled |}.

(** A call whose first measurement throws an error with [message]. *)
Definition failed_reading (now settled : Z) (message : string) : Probe.Reading N :=
  {| Probe.Date_now := now;
     Probe.measureLatency := Raised message;
     Probe.measureThroughput := Returned (lit 0);
     Probe.measureStability := Returned (lit 0);
     Probe.measurePacketLoss := Returned (lit 0);
     Probe.measureJitter := Returned (lit 0);
     Probe.Date_settled := settled |}.

(** The process once the catalog holds RouteA and RouteB. *)
Definition with_catalog (rs : list (Route N)) : App.Process :=
  Main.with_app
    {| Main.isConnected := false; Main.currentRoute := None;
       Main.analysisInterval := None; Main.routes := rs |}
    App.start_process.

(** A cycle in which the probe of the route at position 0 throws an
    error with an empty message ([new Error()]) and the route at
    position 1 measures latency 10, throughput 500, stability 0.95. *)
Definition cycle_first_fails_silently : Main.Cycle (Probe.Reading N) :=
  {| Main.probe_reply := fun i =>
       match i with
       | O => failed_reading 1000 1500 ""
       | _ => reading 1500 2000 10 500 0.95
       end;
     Main.new_Date := fun i => 1500 + 500 * Z.of_nat i |}.

(** The route [discoverRoutes] builds for the wireless network. *)
Definition routeC : Route N :=
  {| id := "wifi-Home"; name := "WiFi: Home"; type := "wifi";
     ip := None; mac := None; speed := None; iface := Some "wlan0";
     ssid := Some "Home"; signal := Some (lit 70); security := Some "WPA2";
     destination := None; gateway := None;
     metrics := None; lastAnalyzed := None |}.

(** A cycle over three routes in which the measurements of the route at
    position 1 throw. *)
Definition cycle_second_fails : Main.Cycle (Probe.Reading N) :=
  {| Main.probe_reply := fun i =>
       match i with
       | 0%nat => reading 1000 2000 10 500 0.95
       | 1%nat => failed_reading 2000 2500 "Request timeout"
       | _ => reading 2500 3500 200 5 0.2
       end;
     Main.new_Date := fun i => 2000 + 1000 * Z.of_nat i |}.

(** A scripted probe, the test double of the probe module: it keeps no
    state and settles each call as the script says. *)
Definition scripted_probe (p : unit) (route : Route N)
    (script : outcome (Metrics N)) : unit * outcome (Metrics N) :=
  (p, script).

(** The script in which the call for the route at position 0 is rejected
    with an empty message and the call for the route at position 1
    returns the sample (10, 500, 0.95). *)
Definition script_first_fails_silently : Main.Cycle (outcome (Metrics N)) :=
  {| Main.probe_reply := fun i =>
       match i with
       | O => Raised ""
       | _ => Returned metricsA
       end;
     Main.new_Date := fun i => 1500 + 500 * Z.of_nat i |}.

(** The application object over the scripted probe, with a catalog. *)
Definition scripted_with_catalog (rs : list (Route N))
  : Main.Process N unit (WireGuard.WireGuardController N) :=
  Main.with_app
    {| Main.isConnected := false; Main.currentRoute := None;
       Main.analysisInterval := None; Main.routes := rs |}
    (Main.start_process tt WireGuard.new_WireGuardController).

(** The two default routes of [host], as [discoverRoutes] builds them. *)
Definition default_routes : list (Route N) :=
  Probe.routes_of_system (Probe.parseLinuxRoutes two_default_routes).

(** A cycle over two routes that measures (10, 500, 0.95) for the first
    and would measure (200, 5, 0.2) for the second. *)
Definition cycle_two_readings : Main.Cycle (Probe.Reading N) :=
  {| Main.probe_reply := fun i =>
       match i with
       | O => reading 1000 2000 10 500 0.95
       | _ => reading 2000 3000 200 5 0.2
       end;
     Main.new_Date := fun i => 2000 + 1000 * Z.of_nat i |}.

(** A host on which the configuration file is written and [wg-quick up]
    exits normally with nothing on its standard error. *)
Definition bringup_ok : WireGuard.Bringup :=
  {| WireGuard.fs_writeFileSync := Returned tt;
     WireGuard.exec_up := Returned "";
     WireGuard.development := false |}.

(** A host on which [wg-quick up] fails. *)
Definition bringup_fails : WireGuard.Bringup :=
  {| WireGuard.fs_writeFileSync := Returned tt;
     WireGuard.exec_up := Raised "Command failed: sudo wg-quick up";
     WireGuard.development := false |}.

(** The process connected to RouteA while RouteB heads the catalog. *)
Definition connected_to_A : App.Process :=
  fst (App.perform (with_catalog [routeB; routeA])
         (Main.ConnectToRoute (Some routeA) bringup_ok)).

(** The process after [start-analysis] on [host]. *)
Definition analysing : App.Process :=
  fst (App.perform App.start_process (Main.StartAnalysis host)).

End WithNumbers.
End Scenario.

(* ===================================================================== *)
(** * probe.js: the measuring methods                                     *)
(* ===================================================================== *)

(** What [ping.promise.probe] resolves to, as far as the program reads
    it: [alive], and [parseFloat(time)] ([NaN] when the library reports
    no time). *)
Module PingResult.
Record t (N : Type) : Type := {
  alive : bool;
  time : N
}.
Arguments alive {N} _.
Arguments time {N} _.
End PingResult.

(** What [si.networkInterfaceStats] resolves to when it is not null. *)
Module InterfaceStats.
Record t (N : Type) : Type := {
  rx_sec : option N
}.
Arguments rx_sec {N} _.
End InterfaceStats.

Module Measure.
Section WithNumbers.
Context {N : Type} `{Number N}.

(** The answers of [ping.promise.probe] to the calls of one method: the
    target and the position of the call among the method's calls. *)
Definition Ping : Type := string -> nat -> outcome (PingResult.t N).

(** [ToBoolean] of a number: [0] and [NaN] are falsy. *)
Definition number_truthy (x : N) : bool := lt x (lit 0) || lt (lit 0) x.

(** [array.length] as a number. *)
Definition length_of {A} (l : list A) : N := lit (inject_Z (Z.of_nat (length l))).

(** [Math.abs(x)]: the larger of [x] and [0 - x]. *)
Definition Math_abs (x : N) : N := Math_max x (sub (lit 0) x).

(** [Math.pow(x, 2)] *)
Definition Math_pow2 (x : N) : N := mul x x.

(** [array.reduce((a, b) => a + b, 0)] *)
Definition sum (l : list N) : N := fold_left add l (lit 0).

(** The target of [measureLatency]: the gateway, else the address, else
    Google's resolver. *)
Definition latency_target (route : Route N) : string :=
  or_else (gateway route) (or_else (ip route) "8.8.8.8").

(** The target of the other methods: [route.gateway || '8.8.8.8']. *)
Definition gateway_target (route : Route N) : string :=
  or_else (gateway route) "8.8.8.8".

(** [measureLatency(route)] *)
Definition measureLatency (route : Route N) (ping : Ping) : outcome N :=
  try_catch
    (bind (ping (latency_target route) 0%nat) (fun result =>
     Returned (if PingResult.alive result then PingResult.time result
               else lit 999)))
    (fun _ => Returned (lit 999)).

(** [measureThroughput(route)]; [stats] is what
    [si.networkInterfaceStats(route.iface)] settles to. *)
Definition measureThroughput (route : Route N)
    (stats : outcome (option (InterfaceStats.t N))) : outcome N :=
  try_catch
    (bind stats (fun interfaceInfo =>
     match interfaceInfo with
     | Some info =>
         let speed :=
           match speed route with
           | Some v => if number_truthy v then v else lit 100
           | None => lit 100
           end in
         let utilization :=
           div (ToNumber (InterfaceStats.rx_sec info))
               (div (mul (mul speed (lit 1024)) (lit 1024)) (lit 8)) in
         Returned (Math_max (lit 0) (mul speed (sub (lit 1) utilization)))
     | None => Returned (lit 0)
     end))
    (fun _ => Returned (lit 0)).

(** The loop of [measureStability]: [count] pings from call [i] on, a
    lost ping counting as 999. *)
Fixpoint stability_samples (ping : Ping) (target : string) (count i : nat)
  : outcome (list N) :=
  match count with
  | O => Returned []
  | S count' =>
      bind (ping target i) (fun result =>
      let sample := if PingResult.alive result then PingResult.time result
                    else lit 999 in
      bind (stability_samples ping target count' (S i)) (fun rest =>
      Returned (sample :: rest)))
  end.

(** The arithmetic of [measureStability] on the collected samples. *)
Definition stability_of (samples : list N) : N :=
  let avg := div (sum samples) (length_of samples) in
  let variance :=
    div (fold_left (fun total time => add total (Math_pow2 (sub time avg)))
                   samples (lit 0))
        (length_of samples) in
  let stability := Math_max (lit 0) (sub (lit 1) (div variance avg)) in
  Math_min (lit 1) stability.

(** [measureStability(route)] *)
Definition measureStability (route : Route N) (ping : Ping) : outcome N :=
  try_catch
    (bind (stability_samples ping (gateway_target route) 5 0) (fun samples =>
     Returned (stability_of samples)))
    (fun _ => Returned (lit 0)).

(** [measurePacketLoss(route)] *)
Definition measurePacketLoss (route : Route N) (ping : Ping) : outcome N :=
  try_catch
    (bind (ping (gateway_target route) 0%nat) (fun result =>
     Returned (if PingResult.alive result then lit 0 else lit 1)))
    (fun _ => Returned (lit 1)).

(** The loop of [measureJitter]: only the pings that were answered are
    kept. *)
Fixpoint jitter_samples (ping : Ping) (target : string) (count i : nat)
  : outcome (list N) :=
  match count with
  | O => Returned []
  | S count' =>
      bind (ping target i) (fun result =>
      bind (jitter_samples ping target count' (S i)) (fun rest =>
      Returned (if PingResult.alive result
                then PingResult.time result :: rest
                else rest)))
  end.

(** [Math.abs(samples[i] - samples[i-1])] for [i] from 1 on. *)
Fixpoint differences (samples : list N) : list N :=
  match samples with
  | previous :: (current :: _) as rest =>
      Math_abs (sub current previous) :: differences rest
  | _ => []
  end.

(** The arithmetic of [measureJitter] on the collected samples. *)
Definition jitter_of (samples : list N) : N :=
  if (length samples <? 2)%nat then lit 0
  else div (sum (differences samples))
           (sub (length_of samples) (lit 1)).

(** [measureJitter(route)] *)
Definition measureJitter (route : Route N) (ping : Ping) : outcome N :=
  try_catch
    (bind (jitter_samples ping (gateway_target route) 10 0) (fun samples =>
     Returned (jitter_of samples)))
    (fun _ => Returned (lit 0)).

(** What the five methods meet on the host during one call of
    [analyzeRoute]. *)
Record Host : Type := {
  latency_ping : Ping;
  interface_stats : outcome (option (InterfaceStats.t N));
  stability_ping : Ping;
  loss_ping : Ping;
  jitter_ping : Ping
}.

(** One call of [analyzeRoute] with the five methods as shipped. *)
Definition reading (route : Route N) (host : Host) (now settled : Z)
  : Probe.Reading N :=
  {| Probe.Date_now := now;
     Probe.measureLatency := measureLatency route (latency_ping host);
     Probe.measureThroughput := measureThroughput route (interface_stats host);
     Probe.measureStability := measureStability route (stability_ping host);
     Probe.measurePacketLoss := measurePacketLoss route (loss_ping host);
     Probe.measureJitter := measureJitter route (jitter_ping host);
     Probe.Date_settled := settled |}.

End WithNumbers.
Arguments Host N : clear implicits.
Arguments Ping N : clear implicits.
End Measure.

(** A session of the probe singleton: calls of [analyzeRoute] and of
    [clearCache], one after the other. *)
Module ProbeRun.
Section WithNumbers.
Context {N : Type} `{Number N}.

Inductive call : Type :=
| Analyze (route : Route N) (env : Probe.Reading N)
| ClearCache.

(** One call: the probe after it and what it answered, if anything. *)
Definition step (this : Probe.NetworkProbe N) (c : call)
  : Probe.NetworkProbe N * list (outcome (Metrics N)) :=
  match c with
  | Analyze route env =>
      let '(this1, result) := Probe.analyzeRoute this route env in
      (this1, [result])
  | ClearCache => (Probe.clearCache this, [])
  end.

(** The calls in order: the probe at the end and the answers. *)
Fixpoint run (this : Probe.NetworkProbe N) (calls : list call)
  : Probe.NetworkProbe N * list (outcome (Metrics N)) :=
  match calls with
  | [] => (this, [])
  | c :: rest =>
      let '(this1, answers1) := step this c in
      let '(this2, answers2) := run this1 rest in
      (this2, answers1 ++ answers2)
  end.

(** A call of [analyzeRoute] that runs the five methods as shipped. *)
Definition shipped (visit : Route N * Measure.Host N * Z * Z) : call :=
  let '(route, host, now, settled) := visit in
  Analyze route (Measure.reading route host now settled).

End WithNumbers.
Arguments call N : clear implicits.
End ProbeRun.

(* ===================================================================== *)
(** * renderer.js: how a route's score is shown                           *)
(* ===================================================================== *)

Module Renderer.
Section WithNumbers.
Context {N : Type} `{Number N}.

(** The score [createRouteElement] shows: 0 for a route without a
    sample. *)
Definition shown_score (route : Route N) : N :=
  match metrics route with
  | Some m => calculateRouteScore m
  | None => lit 0
  end.

(** [getScoreColor(score)] *)
Definition getScoreColor (score : N) : string :=
  if le (lit 80) score then "#4CAF50"
  else if le (lit 60) score then "#FF9800"
  else "#F44336".

End WithNumbers.
End Renderer.

(* ===================================================================== *)
(** * wg-controller.js: the tunnel's endpoint                             *)
(* ===================================================================== *)

Module Tunnel.
Section WithNumbers.
Context {N : Type}.

(** [generateEndpoint(route)] *)
Definition generateEndpoint (route : Route N) : string :=
  match gateway route with
  | Some (String c rest) => String c rest +:+ ":51820"
  | _ =>
      match ip route with
      | Some (String c rest) => String c rest +:+ ":51820"
      | _ => "127.0.0.1:51820"
      end
  end.

End WithNumbers.
End Tunnel.

(* ===================================================================== *)
(** * main.js: shutdown                                                   *)
(* ===================================================================== *)

Module Quit.
Section WithCollaborators.
Context {N : Type} {P W Y : Type}.
Variable wgController_disconnect : W -> Y -> W * outcome bool.

(** The [before-quit] handler: disconnect when connected, then clear the
    analysis timer.  A rejected [disconnect] leaves the handler before the
    timer is cleared. *)
Definition on_before_quit (s : Main.Process N P W) (y : Y)
  : Main.Process N P W * outcome unit :=
  let '(s1, result) :=
    if Main.isConnected (Main.app s)
    then Main.disconnect wgController_disconnect s y
    else (s, Returned tt) in
  match result with
  | Raised text => (s1, Raised text)
  | Returned _ =>
      match Main.analysisInterval (Main.app s1) with
      | Some handle => (Main.clearInterval handle s1, Returned tt)
      | None => (s1, Returned tt)
      end
  end.

End WithCollaborators.
End Quit.

(* ===================================================================== *)
(** * Further scenarios                                                   *)
(* ===================================================================== *)

Module Fixture.
Section WithNumbers.
Context {N : Type} `{Number N}.

(** A ping that is always answered in [ms] milliseconds. *)
Definition steady_ping (ms : Q) : Measure.Ping N :=
  fun _ _ => Returned {| PingResult.alive := true; PingResult.time := lit ms |}.

(** A ping that is never answered. *)
Definition lost_ping : Measure.Ping N :=
  fun _ _ => Returned {| PingResult.alive := false; PingResult.time := NaN |}.

(** A ping whose library call throws. *)
Definition broken_ping : Measure.Ping N :=
  fun _ _ => Raised "spawn ping ENOENT".

(** A host on which every ping behaves as [ping] and the interface is
    idle. *)
Definition host_with (ping : Measure.Ping N) : Measure.Host N :=
  {| Measure.latency_ping := ping;
     Measure.interface_stats :=
       Returned (Some {| InterfaceStats.rx_sec := Some (lit 0) |});
     Measure.stability_ping := ping;
     Measure.loss_ping := ping;
     Measure.jitter_ping := ping |}.

End WithNumbers.
End Fixture.

(** Lines of text as the routing-table parsers meet them. *)
Module Text.

Fixpoint all_chars (p : ascii -> bool) (s : string) : bool :=
  match s with
  | EmptyString => true
  | String c rest => p c && all_chars p rest
  end.

(** A character of the ASCII range that is not white space.  On text of
    the ASCII range the bytes of the string are its characters, and the
    white space of [\s] and of [trim] is [is_white]; beyond it JavaScript
    knows further white space (U+00A0, U+2003, U+FEFF, ...), which is left
    out here. *)
Definition ascii_black (c : ascii) : bool :=
  (nat_of_ascii c <? 128)%nat && negb (is_white c).

(** A word: at least one character, all of them of the ASCII range and
    none of them white space. *)
Definition word (w : string) : bool :=
  negb (String.eqb w "") && all_chars ascii_black w.

Definition line_feed : string := String "010"%char EmptyString.

End Text.

(* ===================================================================== *)
(** * Scoring                                                             *)
(* ===================================================================== *)

Section ScoringFacts.

Lemma Qle_bool_true (p q : Q) : Qle_bool p q = true -> (p <= q)%Q.
Proof. apply Qle_bool_iff. Qed.

Lemma score_of_finite_sample (m : Metrics num) (l t s : Q) :
  truthy (error m) = false ->
  latency m = Some (Fin l) ->
  throughput m = Some (Fin t) ->
  stability m = Some (Fin s) ->
  calculateRouteScore m
  = Fin (Qmax 0 (100 - l) * 0.4 + Qmin 100 (t / 10) * 0.4 + s * 100 * 0.2).
Proof.
  intros He Hl Ht Hs. unfold calculateRouteScore.
  rewrite He, Hl, Ht, Hs. reflexivity.
Qed.

Lemma Qmax_floor_bounds (x : Q) :
  (x <= 100 -> 0 <= Qmax 0 x <= 100)%Q.
Proof.
  intros Hx. destruct (Q.max_spec 0 x) as [[Hlt E] | [Hle E]]; rewrite E; lra.
Qed.

Lemma Qmin_cap_bounds (x : Q) :
  (0 <= x -> 0 <= Qmin 100 x <= 100)%Q.
Proof.
  intros Hx. destruct (Q.min_spec 100 x) as [[Hlt E] | [Hle E]]; rewrite E; lra.
Qed.

Lemma Qtenth_nonneg (t : Q) : (0 <= t -> 0 <= t / 10)%Q.
Proof. intros Ht. change (t / 10)%Q with (t * (1 # 10))%Q. lra. Qed.

(** Within the ranges of the data model (latency and throughput at least
    0, stability between 0 and 1) the score is a finite number between 0
    and 100.  The bounds are read with the program's own comparison, so
    an infinite latency or throughput is covered. *)
Lemma score_within_bounds (m : Metrics num) (l t s : num) :
  truthy (error m) = false ->
  latency m = Some l ->
  throughput m = Some t ->
  stability m = Some s ->
  le (lit 0) l = true ->
  le (lit 0) t = true ->
  le (lit 0) s = true ->
  le s (lit 1) = true ->
  exists q, calculateRouteScore m = Fin q /\ (0 <= q <= 100)%Q.
Proof.
  intros He Hl Ht Hs Bl Bt Bs Bs'. unfold calculateRouteScore.
  rewrite He, Hl, Ht, Hs. clear He Hl Ht Hs.
  destruct s as [ | [ | ] | s ]; simpl in Bs, Bs'; try discriminate.
  apply Qle_bool_true in Bs, Bs'.
  destruct l as [ | [ | ] | l ]; simpl in Bl; try discriminate;
    destruct t as [ | [ | ] | t ]; simpl in Bt; try discriminate;
    try apply Qle_bool_true in Bl; try apply Qle_bool_true in Bt;
    (eexists; split; [ reflexivity | ]).
  - lra.
  - pose proof (Qmin_cap_bounds (t / 10) (Qtenth_nonneg t Bt)).
    set (b := Qmin 100 (t / 10)) in *. clearbody b. lra.
  - assert (Hl : (100 + - l <= 100)%Q) by lra.
    pose proof (Qmax_floor_bounds (100 + - l) Hl).
    set (a := Qmax 0 (100 + - l)) in *. clearbody a. lra.
  - assert (Hl : (100 + - l <= 100)%Q) by lra.
    pose proof (Qmax_floor_bounds (100 + - l) Hl).
    pose proof (Qmin_cap_bounds (t / 10) (Qtenth_nonneg t Bt)).
    set (a := Qmax 0 (100 + - l)) in *. set (b := Qmin 100 (t / 10)) in *.
    clearbody a b. lra.
Qed.

(** A sample that carries a non-empty error message scores 0, whatever
    else it holds. *)
Lemma score_of_error_message {N : Type} `{Number N} (m : Metrics N) c rest :
  error m = Some (String c rest) -> calculateRouteScore m = lit 0.
Proof. intros E. unfold calculateRouteScore. rewrite E. reflexivity. Qed.

(** C1 as amended: for a sample whose error field is not set and whose
    latency, throughput and stability are finite numbers, the score is
    0.4*max(0, 100 - latency) + 0.4*min(100, throughput/10)
    + 0.2*(stability*100); within the ranges of the data model (latency
    and throughput at least 0, stability between 0 and 1) it lies in
    [0,100]; in binary64 it is the same sum with the operands in the
    order of the source; the sample (10, 500, 0.95) scores 75 and the
    sample (200, 5, 0.2) scores 4.2, in exact arithmetic and in
    binary64. *)
Theorem calculateRouteScore_formula :
  (forall (m : Metrics num) (l t s : Q),
      error m = None ->
      latency m = Some (Fin l) ->
      throughput m = Some (Fin t) ->
      stability m = Some (Fin s) ->
      equals (calculateRouteScore m)
             (0.4 * Qmax 0 (100 - l) + 0.4 * Qmin 100 (t / 10) + 0.2 * (s * 100)))
  /\ (forall (m : Metrics num) (l t s : num),
      error m = None ->
      latency m = Some l ->
      throughput m = Some t ->
      stability m = Some s ->
      le (lit 0) l = true ->
      le (lit 0) t = true ->
      le (lit 0) s = true ->
      le s (lit 1) = true ->
      exists q, calculateRouteScore m = Fin q /\ (0 <= q <= 100)%Q)
  /\ (forall (m : Metrics float) (l t s : float),
      error m = None ->
      latency m = Some l ->
      throughput m = Some t ->
      stability m = Some s ->
      calculateRouteScore m
      = (float_max 0 (100 - l) * 0.4 + float_min 100 (t / 10) * 0.4
         + s * 100 * 0.2)%float)
  /\ equals (calculateRouteScore Scenario.metricsA) 75
  /\ equals (calculateRouteScore Scenario.metricsB) 4.2
  /\ calculateRouteScore Scenario.metricsA = 75%float
  /\ calculateRouteScore Scenario.metricsB = 4.2%float.
Proof.
  split; [ | split; [ | split; [ | split; [ | split; [ | split ] ] ] ] ].
  - intros m l t s He Hl Ht Hs.
    rewrite (score_of_finite_sample m l t s); [ | now rewrite He | easy .. ].
    simpl. ring.
  - intros m l t s He. apply score_within_bounds. now rewrite He.
  - intros m l t s He Hl Ht Hs. unfold calculateRouteScore.
    rewrite He, Hl, Ht, Hs. reflexivity.
  - reflexivity.
  - reflexivity.
  - reflexivity.
  - reflexivity.
Qed.

Lemma calculateRouteScore_formula_witness :
  equals (calculateRouteScore (Scenario.metricsA : Metrics num))
         (0.4 * Qmax 0 (100 - 10) + 0.4 * Qmin 100 (500 / 10) + 0.2 * (0.95 * 100))
  /\ exists q, calculateRouteScore (Scenario.metricsA : Metrics num) = Fin q
             /\ (0 <= q <= 100)%Q.
Proof.
  split.
  - apply (proj1 calculateRouteScore_formula Scenario.metricsA 10%Q 500%Q 0.95%Q);
      reflexivity.
  - apply (proj1 (proj2 calculateRouteScore_formula) Scenario.metricsA
             (Fin 10) (Fin 500) (Fin 0.95)); reflexivity.
Defined.

(** C1 as stated fails: a sample whose error field is not set need not
    score within [0,100].  With the latency -50 (throughput 1000,
    stability 1) the score is 120; and the sample that the probe as
    shipped builds when the five pings of [measureStability] are answered
    in 0 ms has no error, the stability [NaN] and the score [NaN]. *)
Lemma score_outside_the_range :
  error (Scenario.sample (-50) 1000 1 : Metrics float) = None
  /\ calculateRouteScore (Scenario.sample (-50) 1000 1) = 120%float
  /\ PrimFloat.leb (calculateRouteScore (Scenario.sample (-50) 1000 1)) 100 = false
  /\ equals (calculateRouteScore (Scenario.sample (-50) 1000 1)) 120
  /\ exists sample : Metrics float,
       Probe.measure
         (Measure.reading Scenario.routeA
            (Fixture.host_with (Fixture.steady_ping 0)) 1000 1700)
       = Returned sample
       /\ error sample = None
       /\ latency sample = Some 0%float
       /\ throughput sample = Some 1000%float
       /\ stability sample = Some PrimFloat.nan
       /\ calculateRouteScore sample = PrimFloat.nan
       /\ PrimFloat.leb 0 (calculateRouteScore sample) = false
       /\ PrimFloat.leb (calculateRouteScore sample) 100 = false.
Proof.
  split; [ reflexivity | ]. split; [ reflexivity | ].
  split; [ reflexivity | ]. split; [ reflexivity | ].
  eexists. split; [ reflexivity | ]. repeat split.
Qed.

(** In binary64 the best sample of the data model scores exactly 100 and
    the worst exactly 0. *)
Lemma score_extremes_binary64 :
  calculateRouteScore (Scenario.sample 0 1000 1) = 100%float
  /\ calculateRouteScore (Scenario.sample 999 0 0) = 0%float.
Proof. split; reflexivity. Qed.

(** C7: a sample whose error field is set to the empty string is not
    scored 0: the guard [if (metrics.error)] takes the empty message for
    an absent one, the arithmetic runs on the missing fields, and the
    score is [NaN]. *)
Theorem score_of_empty_error_message :
  forall stamp : option Z,
    calculateRouteScore (error_sample "" stamp : Metrics float) = PrimFloat.nan
    /\ PrimFloat.eqb (calculateRouteScore (error_sample "" stamp)) 0 = false
    /\ calculateRouteScore (error_sample "" stamp : Metrics num) = NaN_.
Proof. intros stamp. repeat split. Qed.

End ScoringFacts.

(* ===================================================================== *)
(** * The metrics cache                                                   *)
(* ===================================================================== *)

Section CacheFacts.
Context {N : Type} `{Number N}.

Lemma cached_fresh_hit (this : Probe.NetworkProbe N) (route : Route N)
    (entry : CacheEntry.t N) (now : Z) :
  Probe.cache this !! id route = Some entry ->
  now - CacheEntry.timestamp entry < Probe.cacheTimeout this ->
  Probe.cached_fresh this route now = Some (CacheEntry.data entry).
Proof.
  intros Hentry Hage. unfold Probe.cached_fresh. rewrite Hentry.
  destruct (Z.ltb_spec (now - CacheEntry.timestamp entry) (Probe.cacheTimeout this));
    [ reflexivity | lia ].
Qed.

Lemma cached_fresh_miss (this : Probe.NetworkProbe N) (route : Route N) (now : Z) :
  (Probe.cache this !! id route = None
   \/ exists entry, Probe.cache this !! id route = Some entry
        /\ Probe.cacheTimeout this <= now - CacheEntry.timestamp entry) ->
  Probe.cached_fresh this route now = None.
Proof.
  unfold Probe.cached_fresh. intros [Hnone | (entry & Hentry & Hage)].
  - now rewrite Hnone.
  - rewrite Hentry.
    destruct (Z.ltb_spec (now - CacheEntry.timestamp entry) (Probe.cacheTimeout this));
      [ lia | reflexivity ].
Qed.

(** [analyzeRoute] settles every call with a sample: what a measurement
    throws is caught inside. *)
Lemma analyzeRoute_returns (this : Probe.NetworkProbe N) (route : Route N)
    (env : Probe.Reading N) :
  exists sample, snd (Probe.analyzeRoute this route env) = Returned sample.
Proof.
  unfold Probe.analyzeRoute.
  destruct (Probe.cached_fresh this route (Probe.Date_now env));
    [ | destruct (Probe.measure env) ]; simpl; eauto.
Qed.

(** C3: a read of a route id finds the sample that was written for it as
    long as less than 30000 ms have passed since the write; with no entry,
    or with an entry of age 30000 ms or more, the read is a miss and the
    route is measured again; and the write that follows a measurement
    replaces whatever entry the id had and leaves the other ids alone. *)
Theorem cache_round_trip (this : Probe.NetworkProbe N) (route : Route N) :
  Probe.cacheTimeout this = 30000 ->
  (forall entry env,
      Probe.cache this !! id route = Some entry ->
      Probe.Date_now env - CacheEntry.timestamp entry < 30000 ->
      Probe.analyzeRoute this route env = (this, Returned (CacheEntry.data entry)))
  /\ (forall env,
      (Probe.cache this !! id route = None
       \/ exists entry, Probe.cache this !! id route = Some entry
            /\ 30000 <= Probe.Date_now env - CacheEntry.timestamp entry) ->
      match Probe.measure env with
      | Returned sample =>
          exists this',
            Probe.analyzeRoute this route env = (this', Returned sample)
            /\ Probe.cacheTimeout this' = 30000
            /\ Probe.cache this' !! id route
               = Some {| CacheEntry.data := sample;
                         CacheEntry.timestamp := Probe.Date_settled env |}
            /\ (forall other, other <> id route ->
                  Probe.cache this' !! other = Probe.cache this !! other)
            /\ (forall env' : Probe.Reading N,
                  Probe.Date_now env' - Probe.Date_settled env < 30000 ->
                  Probe.analyzeRoute this' route env' = (this', Returned sample))
            /\ (forall env' : Probe.Reading N,
                  30000 <= Probe.Date_now env' - Probe.Date_settled env ->
                  Probe.cached_fresh this' route (Probe.Date_now env') = None)
      | Raised message =>
          Probe.analyzeRoute this route env
          = (this, Returned (error_sample message (Some (Probe.Date_settled env))))
      end).
Proof.
  intros Httl. split.
  - intros entry env Hentry Hage. unfold Probe.analyzeRoute.
    rewrite (cached_fresh_hit this route entry); [ reflexivity | assumption | lia ].
  - intros env Hmiss.
    assert (Hnone : Probe.cached_fresh this route (Probe.Date_now env) = None).
    { apply cached_fresh_miss. rewrite Httl. exact Hmiss. }
    unfold Probe.analyzeRoute. rewrite Hnone.
    destruct (Probe.measure env) as [sample | message]; [ | reflexivity ].
    eexists. split; [ reflexivity | ]. simpl.
    split; [ assumption | ].
    split; [ apply lookup_insert_eq | ].
    split; [ intros other Hother; now apply lookup_insert_ne | ].
    split.
    + intros env' Hage. unfold Probe.analyzeRoute.
      rewrite (cached_fresh_hit _ route
                 {| CacheEntry.data := sample;
                    CacheEntry.timestamp := Probe.Date_settled env |});
        [ reflexivity | simpl; apply lookup_insert_eq | simpl; lia ].
    + intros env' Hage. apply cached_fresh_miss. right. eexists.
      split; [ simpl; apply lookup_insert_eq | simpl; lia ].
Qed.

End CacheFacts.

Lemma cache_round_trip_witness :
  exists this',
    Probe.analyzeRoute Probe.new_NetworkProbe Scenario.routeA
      (Scenario.reading 0 0 10 500 0.95)
    = (this', Returned (Scenario.metricsA : Metrics num))
    /\ Probe.analyzeRoute this' Scenario.routeA (Scenario.reading 29999 30500 200 5 0.2)
       = (this', Returned Scenario.metricsA)
    /\ Probe.cached_fresh this' Scenario.routeA 30000 = None.
Proof.
  pose proof (proj2 (cache_round_trip (N := num) Probe.new_NetworkProbe
                       Scenario.routeA eq_refl)
                (Scenario.reading 0 0 10 500 0.95)
                (or_introl eq_refl)) as (this' & Hrun & _ & _ & _ & Hhit & Hmiss).
  exists this'. split; [ exact Hrun | split ].
  - apply Hhit. reflexivity.
  - apply (Hmiss (Scenario.reading 30000 30500 200 5 0.2)). simpl. lia.
Defined.

(* ===================================================================== *)
(** * The analysis cycle                                                  *)
(* ===================================================================== *)

Section SortFacts.
Context {A N : Type} `{Number N}.
Variable comparefn : A -> A -> N.

Lemma sort_insert_Permutation (x : A) (l : list A) :
  Permutation (sort_insert comparefn x l) (x :: l).
Proof.
  induction l as [ | y l IH ]; simpl.
  - reflexivity.
  - destruct (lt (lit 0) (comparefn x y)).
    + rewrite IH. apply perm_swap.
    + reflexivity.
Qed.

Lemma Array_sort_Permutation (l : list A) :
  Permutation (Array_sort comparefn l) l.
Proof.
  induction l as [ | x l IH ]; simpl.
  - reflexivity.
  - rewrite sort_insert_Permutation. now constructor.
Qed.

End SortFacts.

Section CycleFacts.
Context {N : Type} `{Number N}.
Context {P E W : Type}.
Variable probe_analyzeRoute : P -> Route N -> E -> P * outcome (Metrics N).

#[local] Abbreviation analyze_each := (Main.analyze_each probe_analyzeRoute).
#[local] Abbreviation probe_results := (Main.probe_results probe_analyzeRoute).
#[local] Abbreviation analyzeRoutes := (Main.analyzeRoutes probe_analyzeRoute).

Lemma probe_results_length (rs : list (Route N)) :
  forall p env i, length (probe_results p rs env i) = length rs.
Proof.
  induction rs as [ | route rest IH ]; intros p env i; simpl.
  - reflexivity.
  - destruct (probe_analyzeRoute p route (Main.probe_reply env i)) as [p1 result].
    simpl. now rewrite IH.
Qed.

Lemma analyze_each_assigns (rs : list (Route N)) :
  forall p env i,
    snd (analyze_each p rs env i)
    = Main.assign_each rs (probe_results p rs env i) env i.
Proof.
  induction rs as [ | route rest IH ]; intros p env i; simpl.
  - reflexivity.
  - destruct (probe_analyzeRoute p route (Main.probe_reply env i)) as [p1 result].
    specialize (IH p1 env (S i)).
    destruct (analyze_each p1 rest env (S i)) as [p2 rest1].
    simpl in *. now rewrite IH.
Qed.

Lemma assign_each_lookup (rs : list (Route N)) :
  forall results (env : Main.Cycle E) i k route,
    length results = length rs ->
    rs !! k = Some route ->
    exists result,
      results !! k = Some result
      /\ Main.assign_each rs results env i !! k
         = Some (Main.assign route (Main.new_Date env (i + k)) result).
Proof.
  induction rs as [ | r rest IH ]; intros results env i k route Hlen Hk.
  - destruct k; discriminate.
  - destruct results as [ | result results1 ]; [ discriminate | ].
    destruct k as [ | k ]; simpl in *.
    + injection Hk as <-. exists result. rewrite Nat.add_0_r. now split.
    + destruct (IH results1 env (S i) k route) as (res & Hres & Hassign);
        [ lia | assumption | ].
      exists res. split; [ assumption | ].
      rewrite Hassign. now rewrite Nat.add_succ_r.
Qed.

(** C4: in one analysis cycle the probe is called once for every route
    of the catalog, whatever the earlier calls did, and the cycle
    completes.  A route whose call raised an error receives the sample
    [{ error: message }]: its [error] field holds the message of that
    error and it has no latency, throughput or stability; every other
    route receives the sample its own call returned, with the date of
    the analysis; the catalog after the cycle is a rearrangement of the
    routes so updated.  In probe.js an error raised by a measurement is
    turned into a sample whose [error] field holds the message, for that
    route, and the cache is left as it was. *)
Theorem partial_failure_isolation :
  (forall (s : Main.Process N P W) (env : Main.Cycle E),
      let catalog := Main.routes (Main.app s) in
      let results := probe_results (Main.probe s) catalog env 0 in
      exists s',
        analyzeRoutes s env = (s', Returned tt)
        /\ length results = length catalog
        /\ Permutation (Main.routes (Main.app s'))
                       (Main.assign_each catalog results env 0)
        /\ forall k route,
             catalog !! k = Some route ->
             exists result updated,
               results !! k = Some result
               /\ updated ∈ Main.routes (Main.app s')
               /\ updated = Main.assign route (Main.new_Date env k) result
               /\ id updated = id route
               /\ match result with
                  | Raised message =>
                      metrics updated = Some (error_sample message None)
                      /\ exists sample,
                           metrics updated = Some sample
                           /\ error sample = Some message
                           /\ latency sample = None
                           /\ throughput sample = None
                           /\ stability sample = None
                  | Returned sample =>
                      metrics updated = Some sample
                      /\ lastAnalyzed updated = Some (Main.new_Date env k)
                  end)
  /\ (forall (this : Probe.NetworkProbe N) (route : Route N)
             (env : Probe.Reading N) (message : string),
      Probe.cached_fresh this route (Probe.Date_now env) = None ->
      Probe.measure env = Raised message ->
      exists sample,
        Probe.analyzeRoute this route env = (this, Returned sample)
        /\ sample = error_sample message (Some (Probe.Date_settled env))
        /\ error sample = Some message
        /\ latency sample = None
        /\ throughput sample = None
        /\ stability sample = None).
Proof.
  split.
  - intros s env catalog results. unfold Main.analyzeRoutes.
    pose proof (analyze_each_assigns catalog (Main.probe s) env 0%nat) as Hassign.
    fold catalog.
    destruct (analyze_each (Main.probe s) catalog env 0) as [p1 analyzed].
    simpl in Hassign. subst analyzed. fold results.
    assert (Hlen : length results = length catalog)
      by apply probe_results_length.
    eexists. split; [ reflexivity | ]. simpl.
    split; [ exact Hlen | ].
    split; [ apply Array_sort_Permutation | ].
    intros k route Hk.
    destruct (assign_each_lookup catalog results env 0%nat k route Hlen Hk)
      as (result & Hres & Hat).
    exists result, (Main.assign route (Main.new_Date env k) result).
    split; [ exact Hres | ].
    split.
    + rewrite (Array_sort_Permutation Main.compare_routes
                 (Main.assign_each catalog results env 0)).
      apply list_elem_of_lookup. exists k. exact Hat.
    + split; [ reflexivity | ].
      destruct result as [ sample | message ]; simpl.
      * split; [ reflexivity | ]. split; reflexivity.
      * split; [ reflexivity | ]. split; [ reflexivity | ].
        eexists. split; [ reflexivity | ]. simpl. repeat split.
  - intros this route env message Hmiss Hraised.
    unfold Probe.analyzeRoute. rewrite Hmiss, Hraised.
    eexists. split; [ reflexivity | ]. simpl. repeat split.
Qed.

End CycleFacts.

Lemma partial_failure_isolation_witness :
  exists s' updated,
    App.analyzeRoutes
      (Scenario.with_catalog [Scenario.routeA; Scenario.routeB; Scenario.routeC])
      (Scenario.cycle_second_fails (N := float))
    = (s', Returned tt)
    /\ updated ∈ Main.routes (Main.app s')
    /\ id updated = "wlan0"
    /\ metrics updated = Some (error_sample "Request timeout" (Some 2500))
    /\ exists sample,
         metrics updated = Some sample
         /\ error sample = Some "Request timeout".
Proof.
  destruct (proj1 (partial_failure_isolation Probe.analyzeRoute)
              (Scenario.with_catalog [Scenario.routeA; Scenario.routeB; Scenario.routeC])
              Scenario.cycle_second_fails)
    as (s' & Hrun & _ & _ & Heach).
  destruct (Heach 1%nat Scenario.routeB eq_refl)
    as (result & updated & Hresult & Hin & _ & Hid & Hmetrics).
  exists s', updated.
  split; [ exact Hrun | ].
  split; [ exact Hin | ].
  split; [ exact Hid | ].
  vm_compute in Hresult. injection Hresult as <-.
  destruct Hmetrics as [Hmetrics _].
  split; [ exact Hmetrics | ].
  eexists. split; [ exact Hmetrics | reflexivity ].
Defined.

(* ===================================================================== *)
(** * Ranking                                                             *)
(* ===================================================================== *)

Section RankingFacts.

Lemma Qle_bool_false (p q : Q) : Qle_bool p q = false -> (q < p)%Q.
Proof.
  intros Hf. destruct (Qlt_le_dec q p) as [Hlt | Hle]; [ assumption | ].
  apply Qle_bool_iff in Hle. congruence.
Qed.

(** When the comparator's result is not positive the first score is at
    least the second. *)
Lemma compare_not_positive (a b : num) :
  a <> NaN_ -> b <> NaN_ ->
  lt (lit 0) (sub b a) = false -> le b a = true.
Proof.
  intros Ha Hb.
  destruct a as [ | [ | ] | p ], b as [ | [ | ] | q ]; simpl;
    try congruence; try reflexivity.
  intros Hcmp. apply Bool.negb_false_iff, Qle_bool_true in Hcmp.
  apply Qle_bool_iff. lra.
Qed.

(** When it is positive the second score is larger. *)
Lemma compare_positive (a b : num) :
  lt (lit 0) (sub b a) = true -> le a b = true.
Proof.
  destruct a as [ | [ | ] | p ], b as [ | [ | ] | q ]; simpl;
    try congruence; try reflexivity.
  intros Hcmp. apply Bool.negb_true_iff, Qle_bool_false in Hcmp.
  apply Qle_bool_iff. lra.
Qed.

Lemma compare_routes_scored (a b : Route num) :
  Main.scored a -> Main.scored b ->
  Main.compare_routes a b = sub (Main.score_of b) (Main.score_of a).
Proof.
  unfold Main.scored, Main.score_of, Main.compare_routes.
  destruct (metrics a), (metrics b); simpl; congruence.
Qed.

Lemma ranked_cons (a : Route num) (l : list (Route num)) :
  Main.ranked l = true ->
  match l with
  | [] => True
  | b :: _ => le (Main.score_of b) (Main.score_of a) = true
  end ->
  Main.ranked (a :: l) = true.
Proof.
  destruct l as [ | b l ]; [ reflexivity | ].
  intros Hl Hab. cbn [Main.ranked]. rewrite Hab. exact Hl.
Qed.

Lemma sort_insert_ranked (x : Route num) (l : list (Route num)) :
  Main.scored x -> Forall Main.scored l -> Main.ranked l = true ->
  Main.ranked (sort_insert Main.compare_routes x l) = true
  /\ match sort_insert Main.compare_routes x l with
     | [] => False
     | h :: _ => h = x \/ exists l', l = h :: l'
     end.
Proof.
  intros Hx. induction l as [ | y l IH ]; intros Hl Hranked.
  - simpl. split; [ reflexivity | now left ].
  - apply Forall_cons in Hl as [Hy Hl].
    cbn [sort_insert]. rewrite (compare_routes_scored x y Hx Hy).
    destruct (lt (lit 0) (sub (Main.score_of y) (Main.score_of x))) eqn:Hcmp.
    + assert (Htail : Main.ranked l = true).
      { destruct l; [ reflexivity | ].
        cbn [Main.ranked] in Hranked. now apply andb_prop in Hranked. }
      destruct (IH Hl Htail) as [IHr IHh].
      split; [ | right; now eexists ].
      apply ranked_cons; [ exact IHr | ].
      destruct (sort_insert Main.compare_routes x l) as [ | h t ]; [ exact I | ].
      destruct IHh as [-> | [l' ->]].
      * now apply compare_positive.
      * cbn [Main.ranked] in Hranked. now apply andb_prop in Hranked.
    + split; [ | now left ].
      apply ranked_cons; [ exact Hranked | ].
      now apply compare_not_positive.
Qed.

(** The ranking holds after the sort whenever every score in the catalog
    is a number. *)
Lemma Array_sort_ranked (l : list (Route num)) :
  Forall Main.scored l -> Main.ranked (Array_sort Main.compare_routes l) = true.
Proof.
  induction l as [ | x l IH ]; intros Hl.
  - reflexivity.
  - apply Forall_cons in Hl as [Hx Hl]. simpl.
    apply sort_insert_ranked; [ exact Hx | | now apply IH ].
    rewrite (Array_sort_Permutation Main.compare_routes l). exact Hl.
Qed.

Lemma num_le_trans (a b c : num) :
  le a b = true -> le b c = true -> le a c = true.
Proof.
  destruct a as [ | [ | ] | p ], b as [ | [ | ] | q ], c as [ | [ | ] | r ];
    simpl; try congruence.
  intros Hpq Hqr. apply Qle_bool_true in Hpq, Hqr. apply Qle_bool_iff. lra.
Qed.

Lemma ranked_head_is_best (h : Route num) (l : list (Route num)) :
  Main.ranked (h :: l) = true ->
  Forall (fun r => le (Main.score_of r) (Main.score_of h) = true) l.
Proof.
  revert h. induction l as [ | b l IH ]; intros h Hranked.
  - constructor.
  - cbn [Main.ranked] in Hranked. apply andb_prop in Hranked as [Hbh Hrest].
    constructor; [ exact Hbh | ].
    eapply Forall_impl; [ exact (IH b Hrest) | ].
    intros r Hrb. exact (num_le_trans _ _ _ Hrb Hbh).
Qed.

(** With numbers for scores, the route placed first has the highest
    score of the catalog. *)
Lemma Array_sort_best_first (l : list (Route num)) (first : Route num)
    (rest : list (Route num)) :
  Forall Main.scored l ->
  Array_sort Main.compare_routes l = first :: rest ->
  forall r, r ∈ l -> le (Main.score_of r) (Main.score_of first) = true.
Proof.
  intros Hl Hsorted r Hr.
  pose proof (Array_sort_ranked l Hl) as Hranked. rewrite Hsorted in Hranked.
  apply ranked_head_is_best in Hranked.
  rewrite <- (Array_sort_Permutation Main.compare_routes l), Hsorted in Hr.
  apply elem_of_cons in Hr as [-> | Hr].
  - assert (Hfirst : Main.scored first).
    { rewrite <- (Array_sort_Permutation Main.compare_routes l), Hsorted in Hl.
      now apply Forall_cons in Hl. }
    unfold Main.scored in Hfirst.
    destruct (Main.score_of first) as [ | [ | ] | q ]; simpl;
      [ now contradict Hfirst | reflexivity | reflexivity | ].
    apply Qle_bool_iff. lra.
  - rewrite Forall_forall in Hranked. now apply Hranked.
Qed.

End RankingFacts.

(** C2: a cycle in which the probe of the first of two routes fails with
    an empty error message leaves that route first with the score [NaN],
    ahead of the route that scored 75: the pair is not in non-increasing
    order, the error sample does not sort as 0, and the highest valid
    score is not first.  No arrangement of the two routes is ranked.  The
    same holds whether the error is caught in main.js (a probe call that
    is rejected) or in probe.js (a measurement that throws). *)
Theorem ranking_broken_by_silent_failure :
  let rejected :=
    Main.routes (Main.app (fst (Main.analyzeRoutes Scenario.scripted_probe
      (Scenario.scripted_with_catalog [Scenario.routeA; Scenario.routeB])
      Scenario.script_first_fails_silently))) in
  let thrown :=
    Main.routes (Main.app (fst (App.analyzeRoutes
      (Scenario.with_catalog [Scenario.routeA; Scenario.routeB])
      Scenario.cycle_first_fails_silently))) in
  (map id rejected = ["eth0"; "wlan0"]
   /\ map metrics rejected = [Some (error_sample "" None); Some Scenario.metricsA]
   /\ map Main.score_of rejected = [PrimFloat.nan; 75%float]
   /\ Main.ranked rejected = false
   /\ Main.ranked (rev rejected) = false)
  /\ (map id thrown = ["eth0"; "wlan0"]
      /\ map Main.score_of thrown = [PrimFloat.nan; 75%float]
      /\ Main.ranked thrown = false
      /\ Main.ranked (rev thrown) = false).
Proof. vm_compute. repeat split. Qed.

(* ===================================================================== *)
(** * Route discovery                                                     *)
(* ===================================================================== *)

Section DiscoveryFacts.
Context {N : Type} `{Number N}.

Lemma getWifiNetworks_returns (host : Probe.Host N) :
  Probe.getWifiNetworks host
  = Returned (List.filter (fun network => truthy (WifiNetwork.ssid network))
                          (Probe.collected (Probe.wifi_scan host))).
Proof.
  unfold Probe.getWifiNetworks. now destruct (Probe.wifi_scan host).
Qed.

Lemma getSystemRoutes_returns (host : Probe.Host N) :
  Probe.getSystemRoutes host
  = Returned match Probe.exec_route_command host with
             | Returned stdout =>
                 if String.eqb (Probe.process_platform host) "win32"
                 then Probe.parseWindowsRoutes stdout
                 else Probe.parseLinuxRoutes stdout
             | Raised _ => []
             end.
Proof.
  unfold Probe.getSystemRoutes.
  destruct (Probe.exec_route_command host); simpl; [ | reflexivity ].
  now destruct (String.eqb (Probe.process_platform host) "win32").
Qed.

(** When [si.networkInterfaces()] throws, the [catch] of
    [discoverRoutes] answers with the empty list; the other two
    collectors are not consulted. *)
Lemma discoverRoutes_without_interfaces (host : Probe.Host N) (text : string) :
  Probe.si_networkInterfaces host = Raised text ->
  Probe.discoverRoutes host = Returned [].
Proof. intros Hfails. unfold Probe.discoverRoutes. now rewrite Hfails. Qed.

(** What [discoverRoutes] does keep of its contract: it never fails;
    when the wireless or the routing-table collector fails while the
    interface collector answers, the result is what the collectors that
    succeeded gathered, the failing collector contributing nothing; and
    when all three fail the result is empty. *)
Theorem discoverRoutes_best_effort (host : Probe.Host N) :
  exists found,
    Probe.discoverRoutes host = Returned found
    /\ match Probe.si_networkInterfaces host with
       | Returned _ => found = Probe.gathered_where_succeeded host
       | Raised _ => True
       end
    /\ match Probe.si_networkInterfaces host, Probe.wifi_scan host,
             Probe.exec_route_command host with
       | Raised _, Raised _, Raised _ => found = []
       | _, _, _ => True
       end.
Proof.
  unfold Probe.discoverRoutes, Probe.gathered_where_succeeded.
  rewrite (getWifiNetworks_returns host), (getSystemRoutes_returns host).
  destruct (Probe.si_networkInterfaces host) as [interfaces | message]; simpl.
  - eexists. split; [ reflexivity | ]. split; [ reflexivity | exact I ].
  - exists []. split; [ reflexivity | ]. split; [ exact I | ].
    destruct (Probe.wifi_scan host), (Probe.exec_route_command host); easy.
Qed.

End DiscoveryFacts.

(** C8: [discoverRoutes] does not return the routes gathered from the
    collectors that succeeded when the interface collector is the one
    that fails.  [getWifiNetworks] and [getSystemRoutes] each absorb
    their own failure, but [si.networkInterfaces()] is awaited unguarded
    inside the one [try] of [discoverRoutes]: when it throws, the [catch]
    answers with the empty list, and the wireless network and the two
    default routes that the other two collectors gather on the same host
    are dropped. *)
Theorem discoverRoutes_drops_gathered_routes :
  Probe.discoverRoutes (Scenario.host_without_interfaces (N := float)) = Returned []
  /\ map id (Probe.gathered_where_succeeded (Scenario.host_without_interfaces (N := float)))
     = ["wifi-Home"; "route-0.0.0.0/0"; "route-0.0.0.0/0"]
  /\ (exists networks,
        Probe.getWifiNetworks (Scenario.host_without_interfaces (N := float))
        = Returned networks
        /\ map WifiNetwork.ssid networks = [Some "Home"])
  /\ (exists routes,
        Probe.getSystemRoutes (Scenario.host_without_interfaces (N := float))
        = Returned routes
        /\ map SystemRoute.gateway routes = [Some "192.168.1.1"; Some "10.0.0.1"])
  /\ (forall (host : Probe.Host float) (text : string),
        Probe.wifi_scan host = Raised text ->
        Probe.getWifiNetworks host = Returned [])
  /\ (forall (host : Probe.Host float) (text : string),
        Probe.exec_route_command host = Raised text ->
        Probe.getSystemRoutes host = Returned []).
Proof.
  split; [ reflexivity | ]. split; [ reflexivity | ].
  split; [ eexists; split; reflexivity | ].
  split; [ eexists; split; reflexivity | ].
  split.
  - intros host text Hscan. unfold Probe.getWifiNetworks. now rewrite Hscan.
  - intros host text Hexec. unfold Probe.getSystemRoutes. now rewrite Hexec.
Qed.

(** C9: on a host with two default routes, [parseLinuxRoutes] gives both
    the destination 0.0.0.0/0, and [discoverRoutes] builds the id from the
    destination alone: the two routes share the id [route-0.0.0.0/0]. *)
Theorem default_routes_share_an_id :
  Probe.parseLinuxRoutes Scenario.two_default_routes
  = [ {| SystemRoute.destination := "0.0.0.0/0";
         SystemRoute.gateway := Some "192.168.1.1";
         SystemRoute.iface := Some "eth0" |};
      {| SystemRoute.destination := "0.0.0.0/0";
         SystemRoute.gateway := Some "10.0.0.1";
         SystemRoute.iface := Some "wlan0" |} ]
  /\ match Probe.discoverRoutes (Scenario.host (N := float)) with
     | Returned found =>
         map id found
         = ["eth0"; "wlan0"; "wifi-Home"; "route-0.0.0.0/0"; "route-0.0.0.0/0"]
         /\ map gateway found
            = [None; None; None; Some "192.168.1.1"; Some "10.0.0.1"]
         /\ bool_decide (NoDup (map id found)) = false
     | Raised _ => False
     end.
Proof. split; [ reflexivity | ]. vm_compute. repeat split. Qed.

(** The id is the key of the metrics cache: in a cycle over the two
    default routes the second, whose measurement would give 4.2, is
    served the sample cached for the first. *)
Lemma colliding_ids_share_a_cache_entry :
  let s := Scenario.with_catalog (Scenario.default_routes (N := float)) in
  let after := Main.routes (Main.app (fst (App.analyzeRoutes s Scenario.cycle_two_readings))) in
  map gateway after = [Some "192.168.1.1"; Some "10.0.0.1"]
  /\ map Main.score_of after = [75%float; 75%float].
Proof. vm_compute. repeat split. Qed.

(* ===================================================================== *)
(** * Connection lifecycle                                                *)
(* ===================================================================== *)

Section LifecycleFacts.
Context {N : Type} `{Number N}.
Context {P D E W X Y : Type}.
Variable probe_discoverRoutes : D -> outcome (list (Route N)).
Variable probe_analyzeRoute : P -> Route N -> E -> P * outcome (Metrics N).
Variable wgController_connect : W -> Route N -> X -> W * outcome bool.
Variable wgController_disconnect : W -> Y -> W * outcome bool.

#[local] Abbreviation Process := (Main.Process N P W).
#[local] Abbreviation startNetworkAnalysis :=
  (Main.startNetworkAnalysis (P := P) (W := W) probe_discoverRoutes).
#[local] Abbreviation connectToRoute :=
  (Main.connectToRoute (P := P) wgController_connect).
#[local] Abbreviation perform :=
  (Main.perform probe_discoverRoutes probe_analyzeRoute
                wgController_connect wgController_disconnect).
#[local] Abbreviation perform_all :=
  (Main.perform_all probe_discoverRoutes probe_analyzeRoute
                    wgController_connect wgController_disconnect).

#[local] Abbreviation consistent := (Main.consistent (N := N) (P := P) (W := W)).

Lemma consistent_start (p : P) (w : W) : consistent (Main.start_process p w).
Proof. unfold Main.consistent. simpl. split; [ discriminate | congruence ]. Qed.

(** An operation changes the two fields together or not at all. *)
Lemma perform_fields (s : Process) (o : Main.operation N D E X Y) :
  let s' := fst (perform s o) in
  (Main.isConnected (Main.app s') = Main.isConnected (Main.app s)
   /\ Main.currentRoute (Main.app s') = Main.currentRoute (Main.app s))
  \/ (snd (perform s o) = None
      /\ ((Main.isConnected (Main.app s') = true
           /\ exists r, Main.currentRoute (Main.app s') = Some r)
          \/ (Main.isConnected (Main.app s') = false
              /\ Main.currentRoute (Main.app s') = None))).
Proof.
  destruct o as [ d | | env | r x | x | y ]; simpl.
  - unfold Main.startNetworkAnalysis.
    destruct (probe_discoverRoutes d); simpl; now left.
  - unfold Main.stopNetworkAnalysis.
    destruct (Main.analysisInterval (Main.app s)); simpl; now left.
  - unfold Main.analyzeRoutes.
    destruct (Main.analyze_each probe_analyzeRoute (Main.probe s)
                (Main.routes (Main.app s)) env 0); simpl; now left.
  - unfold Main.connectToRoute. destruct r as [ r | ]; [ | now left ].
    destruct (wgController_connect (Main.wgController s) r x) as [w1 [ok | text]];
      simpl; [ right | now left ].
    split; [ reflexivity | left ]. split; [ reflexivity | now exists r ].
  - unfold Main.on_connect_best_route, Main.findBestRoute.
    destruct (Main.routes (Main.app s)) as [ | first rest ]; [ now left | ].
    unfold Main.connectToRoute.
    destruct (wgController_connect (Main.wgController s) first x) as [w1 [ok | text]];
      simpl; [ right | now left ].
    split; [ reflexivity | left ]. split; [ reflexivity | now exists first ].
  - unfold Main.disconnect.
    destruct (wgController_disconnect (Main.wgController s) y) as [w1 [ok | text]];
      simpl; [ right | now left ].
    split; [ reflexivity | right ]. now split.
Qed.

Lemma perform_consistent (s : Process) (o : Main.operation N D E X Y) :
  consistent s -> consistent (fst (perform s o)).
Proof.
  unfold Main.consistent. intros Hs.
  destruct (perform_fields s o) as [[Hc Hr] | [_ [[Hc [r Hr]] | [Hc Hr]]]];
    rewrite Hc, Hr; try exact Hs; split; congruence.
Qed.

Lemma perform_all_consistent (os : list (Main.operation N D E X Y)) :
  forall s, consistent s -> consistent (perform_all s os).
Proof.
  induction os as [ | o os IH ]; intros s Hs; simpl.
  - exact Hs.
  - apply IH. now apply perform_consistent.
Qed.

(** C10: from the initial state, after any sequence of operations
    (starting and stopping the analysis, analysis cycles, connecting to a
    given or to the best route, disconnecting, each successful or failed)
    [isConnected] is true exactly when [currentRoute] is not null; and an
    operation that fails leaves both fields as they were. *)
Theorem connection_fields_invariant :
  (forall (p : P) (w : W) (os : list (Main.operation N D E X Y)),
      let s := perform_all (Main.start_process p w) os in
      Main.isConnected (Main.app s) = true
      <-> Main.currentRoute (Main.app s) <> None)
  /\ (forall (s s' : Process) (o : Main.operation N D E X Y) (text : string),
      perform s o = (s', Some text) ->
      Main.isConnected (Main.app s') = Main.isConnected (Main.app s)
      /\ Main.currentRoute (Main.app s') = Main.currentRoute (Main.app s)).
Proof.
  split.
  - intros p w os. apply perform_all_consistent, consistent_start.
  - intros s s' o text Hrun.
    destruct (perform_fields s o) as [Hsame | [Hok _]].
    + now rewrite Hrun in Hsame.
    + rewrite Hrun in Hok. discriminate.
Qed.

(** C5 as amended: [connectToRoute] has no guard on the connection
    state.  Called while connected, it hands the route to the tunnel
    controller; when the controller succeeds the flag stays true and the
    active route becomes the requested one; when the controller fails the
    error is passed on and the flag and the active route are unchanged. *)
Theorem connect_while_connected (s : Process) (requested : Route N) (x : X) :
  Main.isConnected (Main.app s) = true ->
  match wgController_connect (Main.wgController s) requested x with
  | (w1, Returned _) =>
      exists s',
        connectToRoute s (Some requested) x = (s', Returned true)
        /\ Main.wgController s' = w1
        /\ Main.isConnected (Main.app s') = true
        /\ Main.currentRoute (Main.app s') = Some requested
  | (w1, Raised text) =>
      exists s',
        connectToRoute s (Some requested) x = (s', Raised text)
        /\ Main.wgController s' = w1
        /\ Main.isConnected (Main.app s') = true
        /\ Main.currentRoute (Main.app s') = Main.currentRoute (Main.app s)
  end.
Proof.
  intros Hconnected. unfold Main.connectToRoute.
  destruct (wgController_connect (Main.wgController s) requested x)
    as [w1 [ok | text]]; eexists; (split; [ reflexivity | ]); simpl; auto.
Qed.

(** C6 as amended: [startNetworkAnalysis] has no guard on a running
    loop.  Whether or not a timer is already armed, once [discoverRoutes]
    has returned it stores the routes found as the catalog, arms a new
    timer with a period of 5000 ms, records its handle in
    [analysisInterval] and returns [true]; the connection fields are
    untouched. *)
Theorem start_arms_a_new_timer (s : Process) (d : D) (found : list (Route N)) :
  probe_discoverRoutes d = Returned found ->
  exists s',
    startNetworkAnalysis s d = (s', Returned true)
    /\ Main.routes (Main.app s') = found
    /\ Main.analysisInterval (Main.app s') = Some (Main.next_timer s)
    /\ Main.timers s' !! Main.next_timer s = Some 5000
    /\ Main.isConnected (Main.app s') = Main.isConnected (Main.app s)
    /\ Main.currentRoute (Main.app s') = Main.currentRoute (Main.app s).
Proof.
  intros Hfound. unfold Main.startNetworkAnalysis. rewrite Hfound. simpl.
  eexists. split; [ reflexivity | ]. simpl.
  repeat split. apply lookup_insert_eq.
Qed.

End LifecycleFacts.

Lemma connection_fields_invariant_witness :
  Main.isConnected (Main.app (Scenario.connected_to_A (N := float))) = true
  /\ Main.currentRoute
       (Main.app (fst (App.perform Scenario.connected_to_A
                         (Main.ConnectToRoute (Some Scenario.routeB)
                                              Scenario.bringup_fails))))
     = Some (Scenario.routeA (N := float)).
Proof.
  split; [ reflexivity | ].
  apply (proj2 (connection_fields_invariant
                  Probe.discoverRoutes Probe.analyzeRoute
                  WireGuard.connect WireGuard.disconnect)
           Scenario.connected_to_A _
           (Main.ConnectToRoute (Some Scenario.routeB) Scenario.bringup_fails)
           "Command failed: sudo wg-quick up").
  reflexivity.
Defined.

(** C5 as stated fails: connected to RouteA, a request to connect to the
    best route, RouteB, is not rejected; it succeeds, and both the
    application and the tunnel controller now hold RouteB. *)
Lemma connect_replaces_active_route :
  let s := Scenario.connected_to_A (N := float) in
  let after := App.on_connect_best_route s Scenario.bringup_ok in
  Main.isConnected (Main.app s) = true
  /\ Main.currentRoute (Main.app s) = Some Scenario.routeA
  /\ WireGuard.currentConfig (Main.wgController s) = Some Scenario.routeA
  /\ Main.success (snd after) = true
  /\ Main.currentRoute (Main.app (fst after)) = Some Scenario.routeB
  /\ WireGuard.currentConfig (Main.wgController (fst after)) = Some Scenario.routeB.
Proof. vm_compute. repeat split. Qed.

Lemma connect_while_connected_witness :
  exists s',
    Main.connectToRoute WireGuard.connect
      (Scenario.connected_to_A (N := float)) (Some Scenario.routeB) Scenario.bringup_ok
    = (s', Returned true)
    /\ Main.wgController s'
       = {| WireGuard.isConnected := true;
            WireGuard.currentConfig := Some Scenario.routeB |}
    /\ Main.isConnected (Main.app s') = true
    /\ Main.currentRoute (Main.app s') = Some Scenario.routeB.
Proof.
  exact (connect_while_connected WireGuard.connect
           Scenario.connected_to_A Scenario.routeB Scenario.bringup_ok eq_refl).
Defined.

(** C6 as stated fails: with the analysis loop running, a second
    [start-analysis] does not fail; it succeeds, arms a second timer next
    to the first and moves [analysisInterval] to it. *)
Lemma start_while_running_succeeds :
  let s := Scenario.analysing (N := float) in
  let after := Main.on_start_analysis Probe.discoverRoutes s Scenario.host in
  Main.analysisInterval (Main.app s) = Some 0%nat
  /\ Main.timers s !! 0%nat = Some 5000
  /\ Main.success (snd after) = true
  /\ Main.analysisInterval (Main.app (fst after)) = Some 1%nat
  /\ Main.timers (fst after) !! 0%nat = Some 5000
  /\ Main.timers (fst after) !! 1%nat = Some 5000.
Proof. vm_compute. repeat split. Qed.

Lemma start_arms_a_new_timer_witness :
  exists s',
    App.startNetworkAnalysis (Scenario.analysing (N := float)) Scenario.host
    = (s', Returned true)
    /\ length (Main.routes (Main.app s')) = 5%nat
    /\ Main.analysisInterval (Main.app s') = Some 1%nat
    /\ Main.timers s' !! 1%nat = Some 5000.
Proof.
  destruct (start_arms_a_new_timer Probe.discoverRoutes
              (Scenario.analysing (N := float)) Scenario.host _ eq_refl)
    as (s' & Hrun & Hroutes & Hhandle & Harmed & _).
  exists s'. split; [ exact Hrun | ].
  split; [ now rewrite Hroutes | ].
  split; [ exact Hhandle | exact Harmed ].
Defined.

(* ===================================================================== *)
(** * Further properties of the score                                     *)
(* ===================================================================== *)

Section ScoreShape.

(** X1: the score never falls when the latency falls, the throughput
    rises or the stability rises; nothing else in the sample is read. *)
Theorem score_is_monotone (m m' : Metrics num) (l l' t t' s s' : Q) :
  error m = None -> error m' = None ->
  latency m = Some (Fin l) -> latency m' = Some (Fin l') ->
  throughput m = Some (Fin t) -> throughput m' = Some (Fin t') ->
  stability m = Some (Fin s) -> stability m' = Some (Fin s') ->
  (l' <= l)%Q -> (t <= t')%Q -> (s <= s')%Q ->
  exists q q',
    calculateRouteScore m = Fin q
    /\ calculateRouteScore m' = Fin q'
    /\ (q <= q')%Q.
Proof.
  intros He He' Hl Hl' Ht Ht' Hs Hs' Ll Lt Ls.
  rewrite (score_of_finite_sample m l t s); [ | now rewrite He | easy .. ].
  rewrite (score_of_finite_sample m' l' t' s'); [ | now rewrite He' | easy .. ].
  do 2 eexists. split; [ reflexivity | split; [ reflexivity | ] ].
  assert (Hmax : (Qmax 0 (100 - l) <= Qmax 0 (100 - l'))%Q).
  { apply Q.max_le_compat_l. lra. }
  assert (Hmin : (Qmin 100 (t / 10) <= Qmin 100 (t' / 10))%Q).
  { apply Q.min_le_compat_l.
    change (t / 10)%Q with (t * (1 # 10))%Q.
    change (t' / 10)%Q with (t' * (1 # 10))%Q. lra. }
  set (a := Qmax 0 (100 - l)) in *. set (a' := Qmax 0 (100 - l')) in *.
  set (b := Qmin 100 (t / 10)) in *. set (b' := Qmin 100 (t' / 10)) in *.
  clearbody a a' b b'. lra.
Qed.

Lemma score_is_monotone_witness :
  exists q q',
    calculateRouteScore (Scenario.metricsB : Metrics num) = Fin q
    /\ calculateRouteScore (Scenario.metricsA : Metrics num) = Fin q'
    /\ (q <= q')%Q.
Proof.
  apply (score_is_monotone Scenario.metricsB Scenario.metricsA
           200 10 5 500 0.2 0.95); try reflexivity; lra.
Defined.

(** X2: from a latency of 100 ms on, the latency earns nothing: the
    score is 0.4*min(100, throughput/10) + 20*stability, the same for
    every such latency (the 999 of a lost ping included), and within the
    ranges of the data model it is at most 60. *)
Theorem slow_route_score (m : Metrics num) (l t s : Q) :
  error m = None ->
  latency m = Some (Fin l) ->
  throughput m = Some (Fin t) ->
  stability m = Some (Fin s) ->
  (100 <= l)%Q ->
  exists q,
    calculateRouteScore m = Fin q
    /\ (q == 0.4 * Qmin 100 (t / 10) + 20 * s)%Q
    /\ ((0 <= t)%Q -> (0 <= s <= 1)%Q -> (0 <= q <= 60)%Q).
Proof.
  intros He Hl Ht Hs Ll.
  rewrite (score_of_finite_sample m l t s); [ | now rewrite He | easy .. ].
  eexists. split; [ reflexivity | ].
  assert (Hmax : (Qmax 0 (100 - l) == 0)%Q).
  { apply Q.max_l. lra. }
  split.
  - rewrite Hmax. ring.
  - intros Bt Bs. rewrite Hmax.
    pose proof (Qmin_cap_bounds (t / 10) (Qtenth_nonneg t Bt)).
    set (b := Qmin 100 (t / 10)) in *. clearbody b. lra.
Qed.

Lemma slow_route_score_witness :
  exists q,
    calculateRouteScore (Scenario.sample 999 1000 1 : Metrics num) = Fin q
    /\ (q == 0.4 * Qmin 100 (1000 / 10) + 20 * 1)%Q
    /\ ((0 <= 1000)%Q -> (0 <= 1 <= 1)%Q -> (0 <= q <= 60)%Q).
Proof.
  apply (slow_route_score (Scenario.sample 999 1000 1) 999 1000 1);
    try reflexivity. lra.
Defined.

End ScoreShape.

Section ScoreColour.

Lemma colour_below_60 (q : Q) :
  (q < 60)%Q -> Renderer.getScoreColor (Fin q) = "#F44336".
Proof.
  intros Hq. unfold Renderer.getScoreColor. simpl.
  destruct (Qle_bool 80 q) eqn:H80.
  { apply Qle_bool_true in H80. lra. }
  destruct (Qle_bool 60 q) eqn:H60; [ | reflexivity ].
  apply Qle_bool_true in H60. lra.
Qed.

Lemma colour_below_80 (q : Q) :
  (q < 80)%Q ->
  Renderer.getScoreColor (Fin q) = "#FF9800"
  \/ Renderer.getScoreColor (Fin q) = "#F44336".
Proof.
  intros Hq. unfold Renderer.getScoreColor. simpl.
  destruct (Qle_bool 80 q) eqn:H80.
  { apply Qle_bool_true in H80. lra. }
  destruct (Qle_bool 60 q); [ now left | now right ].
Qed.

(** X3: the list never shows in green a route whose latency is 100 ms or
    more (a lost ping counts as 999): within the ranges of the data model
    it is orange or red.  A route without a sample, with a non-empty
    error, or with the score [NaN] is red. *)
Theorem colour_of_weak_routes :
  (forall (route : Route num) (m : Metrics num) (l t s : Q),
      metrics route = Some m ->
      error m = None ->
      latency m = Some (Fin l) ->
      throughput m = Some (Fin t) ->
      stability m = Some (Fin s) ->
      (100 <= l)%Q -> (0 <= t)%Q -> (0 <= s <= 1)%Q ->
      Renderer.getScoreColor (Renderer.shown_score route) = "#FF9800"
      \/ Renderer.getScoreColor (Renderer.shown_score route) = "#F44336")
  /\ (forall route : Route num,
      metrics route = None ->
      Renderer.getScoreColor (Renderer.shown_score route) = "#F44336")
  /\ (forall (route : Route num) (m : Metrics num) c rest,
      metrics route = Some m ->
      error m = Some (String c rest) ->
      Renderer.getScoreColor (Renderer.shown_score route) = "#F44336")
  /\ (forall route : Route num,
      Renderer.shown_score route = NaN_ ->
      Renderer.getScoreColor (Renderer.shown_score route) = "#F44336").
Proof.
  split; [ | split; [ | split ] ].
  - intros route m l t s Hm He Hl Ht Hs Ll Bt Bs.
    unfold Renderer.shown_score. rewrite Hm.
    rewrite (score_of_finite_sample m l t s); [ | now rewrite He | easy .. ].
    apply colour_below_80.
    assert (Hmax : (Qmax 0 (100 - l) == 0)%Q) by (apply Q.max_l; lra).
    rewrite Hmax.
    pose proof (Qmin_cap_bounds (t / 10) (Qtenth_nonneg t Bt)).
    set (b := Qmin 100 (t / 10)) in *. clearbody b. lra.
  - intros route Hm. unfold Renderer.shown_score. rewrite Hm.
    apply colour_below_60. lra.
  - intros route m c rest Hm He. unfold Renderer.shown_score. rewrite Hm.
    rewrite (score_of_error_message m c rest He). apply colour_below_60. lra.
  - intros route Hnan. rewrite Hnan. reflexivity.
Qed.

End ScoreColour.

Lemma colour_of_weak_routes_witness :
  Renderer.getScoreColor
    (Renderer.shown_score
       (set_metrics (Scenario.sample 999 1000 1) (Scenario.routeA (N := num))))
  = "#FF9800"
  \/ Renderer.getScoreColor
       (Renderer.shown_score
          (set_metrics (Scenario.sample 999 1000 1) (Scenario.routeA (N := num))))
     = "#F44336".
Proof.
  apply (proj1 colour_of_weak_routes
           (set_metrics (Scenario.sample 999 1000 1) Scenario.routeA)
           (Scenario.sample 999 1000 1) 999%Q 1000%Q 1%Q);
    try reflexivity; lra.
Defined.

(* ===================================================================== *)
(** * Further properties of the metrics cache                             *)
(* ===================================================================== *)

Section CacheInvariant.
Context {N : Type} `{Number N}.

(** What every entry of the cache looks like: a complete measurement
    without error. *)
#[local] Abbreviation measured_entry :=
  (fun (_ : string) (e : CacheEntry.t N) =>
     error (CacheEntry.data e) = None
     /\ is_Some (timestamp (CacheEntry.data e))
     /\ is_Some (latency (CacheEntry.data e))
     /\ is_Some (throughput (CacheEntry.data e))
     /\ is_Some (stability (CacheEntry.data e))).

Lemma measure_returns_measurement (env : Probe.Reading N) (sample : Metrics N) :
  Probe.measure env = Returned sample ->
  error sample = None
  /\ is_Some (timestamp sample)
  /\ is_Some (latency sample)
  /\ is_Some (throughput sample)
  /\ is_Some (stability sample).
Proof.
  unfold Probe.measure.
  destruct (Probe.measureLatency env); [ | discriminate ].
  destruct (Probe.measureThroughput env); [ | discriminate ].
  destruct (Probe.measureStability env); [ | discriminate ].
  destruct (Probe.measurePacketLoss env); [ | discriminate ].
  destruct (Probe.measureJitter env); [ | discriminate ].
  simpl. intros [= <-]. simpl. repeat split; eauto.
Qed.

Lemma step_keeps_cache_measured (this : Probe.NetworkProbe N)
    (c : ProbeRun.call N) :
  map_Forall measured_entry (Probe.cache this) ->
  map_Forall measured_entry (Probe.cache (fst (ProbeRun.step this c))).
Proof.
  intros Hinv. destruct c as [ route env | ]; simpl.
  - unfold Probe.analyzeRoute.
    destruct (Probe.cached_fresh this route (Probe.Date_now env));
      [ exact Hinv | ].
    destruct (Probe.measure env) as [ sample | text ] eqn:Hm; [ | exact Hinv ].
    simpl. apply map_Forall_insert_2; [ | exact Hinv ].
    simpl. exact (measure_returns_measurement env sample Hm).
  - apply map_Forall_empty.
Qed.

Lemma step_keeps_timeout (this : Probe.NetworkProbe N) (c : ProbeRun.call N) :
  Probe.cacheTimeout (fst (ProbeRun.step this c)) = Probe.cacheTimeout this.
Proof.
  destruct c as [ route env | ]; simpl; [ | reflexivity ].
  unfold Probe.analyzeRoute.
  destruct (Probe.cached_fresh this route (Probe.Date_now env)); [ reflexivity | ].
  now destruct (Probe.measure env).
Qed.

Lemma run_keeps_cache_measured (calls : list (ProbeRun.call N)) :
  forall this,
    map_Forall measured_entry (Probe.cache this) ->
    map_Forall measured_entry (Probe.cache (fst (ProbeRun.run this calls)))
    /\ Probe.cacheTimeout (fst (ProbeRun.run this calls)) = Probe.cacheTimeout this.
Proof.
  induction calls as [ | c rest IH ]; intros this Hinv; simpl.
  - now split.
  - pose proof (step_keeps_cache_measured this c Hinv) as Hstep.
    pose proof (step_keeps_timeout this c) as Httl.
    destruct (ProbeRun.step this c) as [this1 answers1]. simpl in *.
    specialize (IH this1 Hstep).
    destruct (ProbeRun.run this1 rest) as [this2 answers2]. simpl in *.
    destruct IH as [IHc IHt]. split; [ exact IHc | congruence ].
Qed.

(** X4: whatever calls of [analyzeRoute] and [clearCache] the probe has
    served since it was created, its cache holds only complete
    measurements: no entry carries an error and every entry has its
    timestamp, latency, throughput and stability; and the timeout is
    still 30000 ms. *)
Theorem cache_holds_only_measurements (calls : list (ProbeRun.call N)) :
  let this := fst (ProbeRun.run Probe.new_NetworkProbe calls) in
  Probe.cacheTimeout this = 30000
  /\ forall key entry,
       Probe.cache this !! key = Some entry ->
       error (CacheEntry.data entry) = None
       /\ is_Some (timestamp (CacheEntry.data entry))
       /\ is_Some (latency (CacheEntry.data entry))
       /\ is_Some (throughput (CacheEntry.data entry))
       /\ is_Some (stability (CacheEntry.data entry)).
Proof.
  destruct (run_keeps_cache_measured calls Probe.new_NetworkProbe) as [Hc Ht].
  { apply map_Forall_empty. }
  split.
  - exact Ht.
  - intros key entry Hentry. exact (Hc key entry Hentry).
Qed.

End CacheInvariant.

(* ===================================================================== *)
(** * The measuring methods                                               *)
(* ===================================================================== *)

Section MeasureTotal.
Context {N : Type} `{Number N}.

Lemma measureLatency_returns (route : Route N) (ping : Measure.Ping N) :
  exists n, Measure.measureLatency route ping = Returned n.
Proof.
  unfold Measure.measureLatency.
  destruct (ping (Measure.latency_target route) 0%nat); simpl; eauto.
Qed.

Lemma measureThroughput_returns (route : Route N)
    (stats : outcome (option (InterfaceStats.t N))) :
  exists n, Measure.measureThroughput route stats = Returned n.
Proof.
  unfold Measure.measureThroughput.
  destruct stats as [ [ info | ] | text ]; simpl; eauto.
Qed.

Lemma measureStability_returns (route : Route N) (ping : Measure.Ping N) :
  exists n, Measure.measureStability route ping = Returned n.
Proof.
  unfold Measure.measureStability.
  destruct (Measure.stability_samples ping (Measure.gateway_target route) 5 0);
    simpl; eauto.
Qed.

Lemma measurePacketLoss_returns (route : Route N) (ping : Measure.Ping N) :
  exists n, Measure.measurePacketLoss route ping = Returned n.
Proof.
  unfold Measure.measurePacketLoss.
  destruct (ping (Measure.gateway_target route) 0%nat); simpl; eauto.
Qed.

Lemma measureJitter_returns (route : Route N) (ping : Measure.Ping N) :
  exists n, Measure.measureJitter route ping = Returned n.
Proof.
  unfold Measure.measureJitter.
  destruct (Measure.jitter_samples ping (Measure.gateway_target route) 10 0);
    simpl; eauto.
Qed.

Lemma shipped_measure_returns (route : Route N) (host : Measure.Host N)
    (now settled : Z) :
  exists sample,
    Probe.measure (Measure.reading route host now settled) = Returned sample.
Proof.
  unfold Probe.measure, Measure.reading. simpl.
  destruct (measureLatency_returns route (Measure.latency_ping host)) as [l ->].
  destruct (measureThroughput_returns route (Measure.interface_stats host)) as [t ->].
  destruct (measureStability_returns route (Measure.stability_ping host)) as [s ->].
  destruct (measurePacketLoss_returns route (Measure.loss_ping host)) as [p ->].
  destruct (measureJitter_returns route (Measure.jitter_ping host)) as [j ->].
  simpl. eauto.
Qed.

Lemma shipped_run_answers (visits : list (Route N * Measure.Host N * Z * Z)) :
  forall this,
    map_Forall (fun (_ : string) (e : CacheEntry.t N) =>
                  error (CacheEntry.data e) = None) (Probe.cache this) ->
    Forall (fun answer => exists sample,
              answer = Returned sample /\ error sample = None)
           (snd (ProbeRun.run this (map ProbeRun.shipped visits))).
Proof.
  induction visits as [ | [[[route host] now] settled] rest IH ];
    intros this Hinv; simpl.
  - constructor.
  - unfold Probe.analyzeRoute.
    destruct (Probe.cached_fresh this route
                (Probe.Date_now (Measure.reading route host now settled)))
      as [ data | ] eqn:Hfresh.
    + specialize (IH this Hinv).
      destruct (ProbeRun.run this (map ProbeRun.shipped rest)) as [this2 answers2].
      simpl in *. constructor; [ | exact IH ].
      exists data. split; [ reflexivity | ].
      unfold Probe.cached_fresh in Hfresh.
      destruct (Probe.cache this !! id route) as [ entry | ] eqn:Hentry;
        [ | discriminate ].
      destruct (_ <? _); [ | discriminate ].
      injection Hfresh as <-. exact (Hinv _ _ Hentry).
    + destruct (shipped_measure_returns route host now settled) as [sample Hm].
      rewrite Hm.
      assert (He : error sample = None)
        by exact (proj1 (measure_returns_measurement _ _ Hm)).
      match goal with
      | |- context [ProbeRun.run ?p _] => specialize (IH p)
      end.
      simpl in IH.
      assert (Hnext : Forall
                (fun answer => exists sample0,
                   answer = Returned sample0 /\ error sample0 = None)
                (snd (ProbeRun.run
                   {| Probe.cache :=
                        <[id route:={| CacheEntry.data := sample;
                                       CacheEntry.timestamp := settled |}]>
                          (Probe.cache this);
                      Probe.cacheTimeout := Probe.cacheTimeout this |}
                   (map ProbeRun.shipped rest)))).
      { apply IH. apply map_Forall_insert_2; [ exact He | exact Hinv ]. }
      destruct (ProbeRun.run _ (map ProbeRun.shipped rest)) as [this2 answers2].
      simpl in *. constructor; [ | exact Hnext ].
      exists sample. now split.
Qed.

(** X5: none of the five measuring methods ever throws, each answers a
    number whatever ping and the interface table do; so a probe that has
    only ever run the methods as shipped never answers an error sample:
    the [catch] of [analyzeRoute] is not reached. *)
Theorem shipped_probe_reports_no_error :
  (forall (route : Route N) (host : Measure.Host N),
      (exists n, Measure.measureLatency route (Measure.latency_ping host) = Returned n)
      /\ (exists n, Measure.measureThroughput route (Measure.interface_stats host) = Returned n)
      /\ (exists n, Measure.measureStability route (Measure.stability_ping host) = Returned n)
      /\ (exists n, Measure.measurePacketLoss route (Measure.loss_ping host) = Returned n)
      /\ (exists n, Measure.measureJitter route (Measure.jitter_ping host) = Returned n))
  /\ forall visits : list (Route N * Measure.Host N * Z * Z),
       Forall (fun answer => exists sample,
                 answer = Returned sample /\ error sample = None)
              (snd (ProbeRun.run Probe.new_NetworkProbe
                      (map ProbeRun.shipped visits))).
Proof.
  split.
  - intros route host.
    split; [ apply measureLatency_returns | ].
    split; [ apply measureThroughput_returns | ].
    split; [ apply measureStability_returns | ].
    split; [ apply measurePacketLoss_returns | apply measureJitter_returns ].
  - intros visits. apply shipped_run_answers. apply map_Forall_empty.
Qed.

End MeasureTotal.

Section MeasureArithmetic.

Lemma Qcompare_pos (q : Q) : (0 < q)%Q -> (q ?= 0)%Q = Gt.
Proof. intros Hq. now apply Qgt_alt. Qed.

Lemma num_div_by_positive (p d : Q) :
  (0 < d)%Q -> num_div (Fin p) (Fin d) = Fin (p / d).
Proof. intros Hd. unfold num_div. now rewrite (Qcompare_pos d Hd). Qed.

Lemma Qdiv_nonneg (p d : Q) : (0 <= p)%Q -> (0 < d)%Q -> (0 <= p / d)%Q.
Proof. intros Hp Hd. apply Qle_shift_div_l; [ exact Hd | lra ]. Qed.

Lemma number_truthy_positive (v : Q) :
  (0 < v)%Q -> Measure.number_truthy (Fin v) = true.
Proof.
  intros Hv. unfold Measure.number_truthy. simpl.
  destruct (Qle_bool v 0) eqn:Hle.
  - apply Qle_bool_true in Hle. lra.
  - apply Bool.orb_true_r.
Qed.

Lemma throughput_of_speed (v rx : Q) :
  (0 < v)%Q ->
  Math_max (lit 0)
    (mul (Fin v)
       (sub (lit 1)
          (div (Fin rx) (div (mul (mul (Fin v) (lit 1024)) (lit 1024)) (lit 8)))))
  = Fin (Qmax 0 (v * (1 + - (rx / (v * 1024 * 1024 / 8))))).
Proof.
  intros Hv.
  cbn [Math_max mul sub div lit num_Number num_mul num_sub num_add num_opp].
  assert (Hd : (0 < v * 1024 * 1024 / 8)%Q).
  { change (v * 1024 * 1024 / 8)%Q with (v * 1024 * 1024 * (1 # 8))%Q. lra. }
  rewrite (num_div_by_positive (v * 1024 * 1024) 8) by reflexivity.
  now rewrite (num_div_by_positive rx _ Hd).
Qed.

Lemma throughput_closed_form (v rx : Q) :
  (0 < v)%Q ->
  (Qmax 0 (v * (1 + - (rx / (v * 1024 * 1024 / 8)))) == Qmax 0 (v - rx / 131072))%Q.
Proof.
  intros Hv.
  assert (E : (v * (1 + - (rx / (v * 1024 * 1024 / 8))) == v - rx / 131072)%Q).
  { field. intros Hz. rewrite Hz in Hv. now apply Qlt_irrefl in Hv. }
  now rewrite E.
Qed.

(** X6: [measureThroughput] never throws.  With the interface's speed
    [v] (100 when the route has none) and [rx] bytes per second received,
    the estimate is max(0, v - rx/131072): the full speed on an idle
    interface, never more than the speed and never negative.  It is 0
    when the interface has no statistics or the library throws, and [NaN]
    when the statistics have no [rx_sec]. *)
Theorem measureThroughput_estimate :
  (forall (route : Route num) (v rx : Q),
      (speed route = Some (Fin v) /\ (0 < v)%Q)
      \/ (speed route = None /\ v = 100%Q) ->
      exists q,
        Measure.measureThroughput route
          (Returned (Some {| InterfaceStats.rx_sec := Some (Fin rx) |}))
        = Returned (Fin q)
        /\ (q == Qmax 0 (v - rx / 131072))%Q
        /\ ((0 <= rx)%Q -> (0 <= q <= v)%Q)
        /\ ((rx == 0)%Q -> (q == v)%Q))
  /\ (forall (route : Route num) (text : string),
      Measure.measureThroughput route (Returned None) = Returned (Fin 0)
      /\ Measure.measureThroughput route (Raised text) = Returned (Fin 0)
      /\ Measure.measureThroughput route
           (Returned (Some {| InterfaceStats.rx_sec := None |}))
         = Returned NaN_).
Proof.
  split.
  - intros route v rx Hspeed.
    assert (Hv : (0 < v)%Q).
    { destruct Hspeed as [[_ Hv] | [_ ->]]; [ exact Hv | reflexivity ]. }
    assert (Hrun :
      Measure.measureThroughput route
        (Returned (Some {| InterfaceStats.rx_sec := Some (Fin rx) |}))
      = Returned (Fin (Qmax 0 (v * (1 + - (rx / (v * 1024 * 1024 / 8))))))).
    { unfold Measure.measureThroughput. cbn [bind try_catch ToNumber InterfaceStats.rx_sec].
      destruct Hspeed as [[-> _] | [-> ->]].
      - rewrite (number_truthy_positive v Hv). now rewrite throughput_of_speed.
      - now rewrite throughput_of_speed. }
    eexists. split; [ exact Hrun | ].
    pose proof (throughput_closed_form v rx Hv) as Hclosed.
    split; [ exact Hclosed | ].
    split.
    + intros Hrx. rewrite Hclosed.
      assert (Hshare : (0 <= rx / 131072)%Q) by (apply Qdiv_nonneg; lra).
      set (share := (rx / 131072)%Q) in *. clearbody share.
      destruct (Q.max_spec 0 (v - share)) as [[Hc E] | [Hc E]]; rewrite E; lra.
    + intros Hrx. rewrite Hclosed.
      assert (Hshare : (rx / 131072 == 0)%Q).
      { rewrite Hrx. reflexivity. }
      set (share := (rx / 131072)%Q) in *. clearbody share.
      rewrite Q.max_r; lra.
  - intros route text. repeat split.
    unfold Measure.measureThroughput. cbn [bind try_catch ToNumber InterfaceStats.rx_sec].
    destruct (speed route) as [ [ | [ | ] | v ] | ]; try reflexivity.
    destruct (Measure.number_truthy (Fin v)); reflexivity.
Qed.

End MeasureArithmetic.

Section StabilityFacts.

(** Pings that, when answered, report a positive finite time. *)
#[local] Abbreviation timed ping :=
  (forall target i (r : PingResult.t num),
      ping target i = Returned r ->
      PingResult.alive r = true ->
      exists q, PingResult.time r = Fin q /\ (0 < q)%Q).

Lemma fold_add_Fin (f : num -> num) (g : Q -> Q) :
  (forall q, f (Fin q) = Fin (g q)) ->
  forall qs a,
    fold_left (fun total x => add total (f x)) (map Fin qs) (Fin a)
    = Fin (fold_left (fun total q => (total + g q)%Q) qs a).
Proof.
  intros Hfg. induction qs as [ | q qs IH ]; intros a; simpl.
  - reflexivity.
  - rewrite Hfg. simpl. apply IH.
Qed.

Lemma fold_Qplus_ge (g : Q -> Q) (qs : list Q) :
  (forall q, (0 <= g q)%Q) ->
  forall a, (a <= fold_left (fun total q => (total + g q)%Q) qs a)%Q.
Proof.
  intros Hg. induction qs as [ | q qs IH ]; intros a; simpl.
  - lra.
  - specialize (IH (a + g q)%Q). specialize (Hg q). lra.
Qed.

Lemma fold_Qplus_pos (qs : list Q) :
  Forall (fun q => (0 < q)%Q) qs ->
  forall a, (a <= fold_left (fun total q => (total + q)%Q) qs a)%Q
            /\ (qs <> [] -> (a < fold_left (fun total q => (total + q)%Q) qs a)%Q).
Proof.
  induction 1 as [ | q qs Hq Hqs IH ]; intros a; simpl.
  - split; [ lra | congruence ].
  - destruct (IH (a + q)%Q) as [IHle _]. split; [ lra | intros _; lra ].
Qed.

Lemma sum_Fin (qs : list Q) :
  Measure.sum (map Fin qs)
  = Fin (fold_left (fun total q => (total + q)%Q) qs 0%Q).
Proof. exact (fold_add_Fin (fun x => x) (fun q => q) (fun q => eq_refl) qs 0%Q). Qed.

Lemma length_of_Fin (qs : list Q) :
  Measure.length_of (map Fin qs) = Fin (inject_Z (Z.of_nat (length qs))).
Proof. unfold Measure.length_of. now rewrite length_map. Qed.

Lemma length_positive (qs : list Q) :
  qs <> [] -> (0 < inject_Z (Z.of_nat (length qs)))%Q.
Proof.
  intros Hne. destruct qs as [ | q qs ]; [ congruence | ].
  change 0%Q with (inject_Z 0). rewrite <- Zlt_Qlt. simpl. lia.
Qed.

Lemma Qsquare_nonneg (x : Q) : (0 <= x * x)%Q.
Proof. nra. Qed.

(** The stability of samples that are positive finite numbers lies
    between 0 and 1. *)
Lemma stability_of_positive_samples (qs : list Q) :
  qs <> [] ->
  Forall (fun q => (0 < q)%Q) qs ->
  exists q, Measure.stability_of (map Fin qs) = Fin q /\ (0 <= q <= 1)%Q.
Proof.
  intros Hne Hpos. unfold Measure.stability_of.
  rewrite sum_Fin, length_of_Fin.
  pose proof (length_positive qs Hne) as Hn.
  set (n := inject_Z (Z.of_nat (length qs))) in *.
  set (total := fold_left (fun total q => (total + q)%Q) qs 0%Q) in *.
  assert (Htotal : (0 < total)%Q).
  { destruct (fold_Qplus_pos qs Hpos 0%Q) as [_ Hlt]. now apply Hlt. }
  cbn [div num_Number]. rewrite (num_div_by_positive total n Hn).
  set (avg := (total / n)%Q).
  assert (Havg : (0 < avg)%Q).
  { unfold avg. apply Qlt_shift_div_l; [ exact Hn | lra ]. }
  change (lit 0) with (Fin 0).
  assert (Hsquare : forall q,
             Measure.Math_pow2 (sub (Fin q) (Fin avg))
             = Fin ((q + - avg) * (q + - avg))) by (intros q; reflexivity).
  rewrite (fold_add_Fin (fun time => Measure.Math_pow2 (sub time (Fin avg)))
             (fun q => ((q + - avg) * (q + - avg))%Q) Hsquare qs 0%Q).
  set (squares := fold_left
                    (fun total0 q => (total0 + (q + - avg) * (q + - avg))%Q) qs 0%Q).
  assert (Hsquares : (0 <= squares)%Q).
  { unfold squares. apply fold_Qplus_ge. intros q. apply Qsquare_nonneg. }
  rewrite (num_div_by_positive squares n Hn).
  rewrite (num_div_by_positive (squares / n) avg Havg).
  assert (Hratio : (0 <= squares / n / avg)%Q).
  { apply Qdiv_nonneg; [ | exact Havg ]. now apply Qdiv_nonneg. }
  set (ratio := (squares / n / avg)%Q) in *. clearbody ratio.
  eexists. split; [ reflexivity | ].
  destruct (Q.max_spec 0 (1 + - ratio)) as [[Hc E] | [Hc E]];
    destruct (Q.min_spec 1 (Qmax 0 (1 + - ratio))) as [[Hc' E'] | [Hc' E']];
    rewrite ?E'; rewrite ?E; rewrite E in Hc'; lra.
Qed.

Lemma stability_samples_timed (ping : Measure.Ping num) (target : string) :
  timed ping ->
  forall count i,
    (exists text, Measure.stability_samples ping target count i = Raised text)
    \/ exists qs,
         Measure.stability_samples ping target count i = Returned (map Fin qs)
         /\ length qs = count
         /\ Forall (fun q => (0 < q)%Q) qs.
Proof.
  intros Htimed. induction count as [ | count IH ]; intros i; simpl.
  - right. exists []. repeat split. constructor.
  - destruct (ping target i) as [ r | text ] eqn:Hping; simpl; [ | left; eauto ].
    destruct (IH (S i)) as [[text ->] | (qs & -> & Hlen & Hpos)]; simpl;
      [ left; eauto | ].
    right. destruct (PingResult.alive r) eqn:Halive.
    + destruct (Htimed target i r Hping Halive) as (q & -> & Hq).
      exists (q :: qs). repeat split; [ simpl; lia | now constructor ].
    + exists (999%Q :: qs). repeat split; [ simpl; lia | ].
      constructor; [ reflexivity | exact Hpos ].
Qed.

(** X7: whenever the answered pings report positive times of at most
    2^1000 ms, [measureStability] gives a number between 0 and 1,
    whether pings are lost (counted as 999) or the ping library throws
    (stability 0).  The arithmetic is taken as exact; the bound on the
    times keeps the sum of the five samples within the finite range of
    binary64, where the sum of larger times overflows and the result is
    [NaN]. *)
Theorem measureStability_in_unit_interval (route : Route num)
    (ping : Measure.Ping num) :
  (forall target i r,
      ping target i = Returned r ->
      PingResult.alive r = true ->
      exists q,
        PingResult.time r = Fin q /\ (0 < q)%Q /\ (q <= inject_Z (2 ^ 1000))%Q) ->
  exists q,
    Measure.measureStability route ping = Returned (Fin q)
    /\ (0 <= q <= 1)%Q.
Proof.
  intros Hbounded.
  assert (Htimed : timed ping).
  { intros target i r Hping Halive.
    destruct (Hbounded target i r Hping Halive) as (q & Hq & Hpos & _).
    now exists q. }
  unfold Measure.measureStability.
  destruct (stability_samples_timed ping (Measure.gateway_target route) Htimed
              5%nat 0%nat) as [[text ->] | (qs & -> & Hlen & Hpos)];
    cbn [bind try_catch].
  - exists 0%Q. split; [ reflexivity | lra ].
  - destruct (stability_of_positive_samples qs) as (q & -> & Hq);
      [ destruct qs; [ discriminate | congruence ] | exact Hpos | ].
    now exists q.
Qed.

End StabilityFacts.

Section UnreachableRoute.

Lemma stability_samples_lost (ping : Measure.Ping num) (target : string) :
  (forall target i, exists r,
      ping target i = Returned r /\ PingResult.alive r = false) ->
  forall count i,
    Measure.stability_samples ping target count i
    = Returned (repeat (Fin 999) count).
Proof.
  intros Hlost. induction count as [ | count IH ]; intros i; simpl.
  - reflexivity.
  - destruct (Hlost target i) as (r & -> & Hdead). simpl.
    rewrite IH. simpl. now rewrite Hdead.
Qed.

Lemma measureLatency_lost (route : Route num) (ping : Measure.Ping num) :
  (forall target i, exists r,
      ping target i = Returned r /\ PingResult.alive r = false) ->
  Measure.measureLatency route ping = Returned (Fin 999).
Proof.
  intros Hlost. unfold Measure.measureLatency.
  destruct (Hlost (Measure.latency_target route) 0%nat) as (r & -> & Hdead).
  simpl. now rewrite Hdead.
Qed.

Lemma measureStability_lost (route : Route num) (ping : Measure.Ping num) :
  (forall target i, exists r,
      ping target i = Returned r /\ PingResult.alive r = false) ->
  Measure.measureStability route ping
  = Returned (Measure.stability_of (repeat (Fin 999) 5)).
Proof.
  intros Hlost. unfold Measure.measureStability.
  now rewrite (stability_samples_lost ping _ Hlost).
Qed.

Lemma stability_of_lost_pings :
  exists s, Measure.stability_of (repeat (Fin 999) 5) = Fin s /\ (s == 1)%Q.
Proof. eexists. split; [ reflexivity | ]. vm_compute. reflexivity. Qed.

Lemma measureThroughput_without_rx (route : Route num) :
  Measure.measureThroughput route
    (Returned (Some {| InterfaceStats.rx_sec := None |}))
  = Returned NaN_.
Proof.
  unfold Measure.measureThroughput. cbn [bind try_catch ToNumber InterfaceStats.rx_sec].
  destruct (speed route) as [ [ | [ | ] | v ] | ]; try reflexivity.
  destruct (Measure.number_truthy (Fin v)); reflexivity.
Qed.

(** X8: a route none of whose pings is answered is measured with the
    latency 999 and the stability 1, five lost pings being five equal
    samples.  What it scores then depends on the throughput alone.  When
    the throughput is a number [t >= 0] the score is
    0.4*min(100, t/10) + 20, between 20 and 60; it is 20 when the
    interface has no statistics or the statistics call throws.  When the
    throughput is [NaN], as it is when the statistics have no [rx_sec],
    the score is [NaN]. *)
Theorem score_of_an_unreachable_route (route : Route num)
    (host : Measure.Host num) (now settled : Z) :
  (forall target i, exists r,
      Measure.latency_ping host target i = Returned r
      /\ PingResult.alive r = false) ->
  (forall target i, exists r,
      Measure.stability_ping host target i = Returned r
      /\ PingResult.alive r = false) ->
  exists sample s,
    Probe.measure (Measure.reading route host now settled) = Returned sample
    /\ error sample = None
    /\ latency sample = Some (Fin 999)
    /\ stability sample = Some (Fin s)
    /\ (s == 1)%Q
    /\ (forall t,
          throughput sample = Some (Fin t) -> (0 <= t)%Q ->
          exists q,
            calculateRouteScore sample = Fin q
            /\ (q == 0.4 * Qmin 100 (t / 10) + 20)%Q
            /\ (20 <= q <= 60)%Q)
    /\ (throughput sample = Some NaN_ -> calculateRouteScore sample = NaN_)
    /\ (Measure.interface_stats host = Returned None
        \/ (exists text, Measure.interface_stats host = Raised text) ->
        throughput sample = Some (Fin 0)
        /\ exists q, calculateRouteScore sample = Fin q /\ (q == 20)%Q)
    /\ (Measure.interface_stats host
        = Returned (Some {| InterfaceStats.rx_sec := None |}) ->
        throughput sample = Some NaN_
        /\ calculateRouteScore sample = NaN_).
Proof.
  intros Hlatency Hstability.
  destruct (shipped_measure_returns route host now settled) as [sample Hm].
  pose proof Hm as Hrun.
  unfold Probe.measure, Measure.reading in Hm.
  cbn [Probe.measureLatency Probe.measureThroughput Probe.measureStability
       Probe.measurePacketLoss Probe.measureJitter Probe.Date_settled] in Hm.
  rewrite (measureLatency_lost route _ Hlatency) in Hm.
  rewrite (measureStability_lost route _ Hstability) in Hm.
  destruct stability_of_lost_pings as (s & Hs & Hone). rewrite Hs in Hm.
  destruct (measureThroughput_returns route (Measure.interface_stats host))
    as [t0 Ht0].
  destruct (measurePacketLoss_returns route (Measure.loss_ping host)) as [p0 Hp0].
  destruct (measureJitter_returns route (Measure.jitter_ping host)) as [j0 Hj0].
  pose proof Ht0 as Hthroughput.
  rewrite Ht0, Hp0, Hj0 in Hm. cbn [bind] in Hm.
  injection Hm as <-.
  assert (Hfinite : forall t, (0 <= t)%Q ->
            exists q,
              calculateRouteScore
                {| error := None; latency := Some (Fin 999);
                   throughput := Some (Fin t); stability := Some (Fin s);
                   packetLoss := Some p0; jitter := Some j0;
                   timestamp := Some settled |} = Fin q
              /\ (q == 0.4 * Qmin 100 (t / 10) + 20)%Q
              /\ (20 <= q <= 60)%Q).
  { intros t Bt. eexists. split; [ reflexivity | ].
    pose proof (Qmin_cap_bounds (t / 10) (Qtenth_nonneg t Bt)) as Hb.
    match goal with
    | |- context [Qmax 0 ?x] =>
        assert (Hmax : (Qmax 0 x == 0)%Q) by reflexivity;
        set (a := Qmax 0 x) in *
    end.
    set (b := Qmin 100 (t / 10)) in *. clearbody a b. split; lra. }
  eexists. exists s.
  split; [ exact Hrun | ].
  split; [ reflexivity | ].
  split; [ reflexivity | ].
  split; [ reflexivity | ].
  split; [ exact Hone | ].
  cbn [throughput]. split; [ | split; [ | split ] ].
  - intros t [= ->] Bt. exact (Hfinite t Bt).
  - intros [= ->]. reflexivity.
  - intros Hstats.
    assert (Hzero : t0 = Fin 0).
    { destruct Hstats as [Hnone | [text Hraised]].
      - rewrite Hnone in Hthroughput. now injection Hthroughput as <-.
      - rewrite Hraised in Hthroughput. now injection Hthroughput as <-. }
    subst t0. split; [ reflexivity | ].
    destruct (Hfinite 0%Q) as (q & Hq & Hform & _); [ lra | ].
    exists q. split; [ exact Hq | ].
    rewrite Hform. reflexivity.
  - intros Hstats. rewrite Hstats, measureThroughput_without_rx in Hthroughput.
    injection Hthroughput as <-. split; reflexivity.
Qed.

End UnreachableRoute.

Section ZeroTimes.

Lemma stability_samples_zero (ping : Measure.Ping num) (target : string) :
  (forall target i, exists r,
      ping target i = Returned r
      /\ PingResult.alive r = true /\ PingResult.time r = Fin 0) ->
  forall count i,
    Measure.stability_samples ping target count i
    = Returned (repeat (Fin 0) count).
Proof.
  intros Hzero. induction count as [ | count IH ]; intros i; simpl.
  - reflexivity.
  - destruct (Hzero target i) as (r & -> & Halive & Htime). simpl.
    rewrite IH. simpl. now rewrite Halive, Htime.
Qed.

Lemma score_without_stability (m : Metrics num) :
  error m = None -> stability m = Some NaN_ -> calculateRouteScore m = NaN_.
Proof.
  intros He Hs. unfold calculateRouteScore. rewrite He, Hs.
  cbn [truthy ToNumber].
  destruct (latency m) as [ [ | [ | ] | l ] | ];
    destruct (throughput m) as [ [ | [ | ] | t ] | ]; reflexivity.
Qed.

(** X9: when the five pings of [measureStability] are all answered in
    0 ms, the average is 0, the variance is divided by it, and the
    stability is [NaN]; the sample's score is then [NaN] whatever its
    latency and throughput. *)
Theorem zero_ping_times_give_no_score (route : Route num)
    (host : Measure.Host num) (now settled : Z) :
  (forall target i, exists r,
      Measure.stability_ping host target i = Returned r
      /\ PingResult.alive r = true /\ PingResult.time r = Fin 0) ->
  exists sample,
    Probe.measure (Measure.reading route host now settled) = Returned sample
    /\ stability sample = Some NaN_
    /\ calculateRouteScore sample = NaN_.
Proof.
  intros Hzero.
  destruct (shipped_measure_returns route host now settled) as [sample Hm].
  exists sample. split; [ exact Hm | ].
  pose proof (measure_returns_measurement _ _ Hm) as (He & _).
  assert (Hs : stability sample = Some NaN_).
  { unfold Probe.measure, Measure.reading in Hm.
    cbn [Probe.measureLatency Probe.measureThroughput Probe.measureStability
         Probe.measurePacketLoss Probe.measureJitter Probe.Date_settled] in Hm.
    destruct (measureLatency_returns route (Measure.latency_ping host)) as [l0 Hl0].
    destruct (measureThroughput_returns route (Measure.interface_stats host))
      as [t0 Ht0].
    destruct (measurePacketLoss_returns route (Measure.loss_ping host)) as [p0 Hp0].
    destruct (measureJitter_returns route (Measure.jitter_ping host)) as [j0 Hj0].
    unfold Measure.measureStability in Hm.
    rewrite (stability_samples_zero _ _ Hzero) in Hm.
    rewrite Hl0, Ht0, Hp0, Hj0 in Hm. cbn [bind try_catch] in Hm.
    injection Hm as <-. reflexivity. }
  split; [ exact Hs | ].
  now apply score_without_stability.
Qed.

End ZeroTimes.

Lemma zero_ping_times_binary64 :
  Measure.stability_of (repeat (lit 0 : float) 5) = PrimFloat.nan
  /\ Measure.measureStability Scenario.routeA (Fixture.steady_ping 0)
     = Returned PrimFloat.nan.
Proof. split; reflexivity. Qed.

Section JitterFacts.

Lemma fold_Qplus_nonneg (qs : list Q) :
  Forall (fun q => (0 <= q)%Q) qs ->
  forall a, (a <= fold_left (fun total q => (total + q)%Q) qs a)%Q.
Proof.
  induction 1 as [ | q qs Hq Hqs IH ]; intros a; simpl.
  - lra.
  - specialize (IH (a + q)%Q). lra.
Qed.

Lemma Math_abs_Fin (x : Q) :
  exists d, Measure.Math_abs (Fin x) = Fin d /\ (0 <= d)%Q /\ (x == 0 -> d == 0)%Q.
Proof.
  eexists. split; [ reflexivity | ].
  destruct (Q.max_spec x (0 + - x)) as [[Hc E] | [Hc E]]; rewrite E;
    split; intros; lra.
Qed.

Lemma differences_Fin (qs : list Q) :
  exists ds,
    Measure.differences (map Fin qs) = map Fin ds
    /\ Forall (fun d => (0 <= d)%Q) ds.
Proof.
  induction qs as [ | a qs IH ].
  - exists []. split; [ reflexivity | constructor ].
  - destruct qs as [ | b rest ].
    + exists []. split; [ reflexivity | constructor ].
    + destruct IH as (ds & Hds & Hpos).
      destruct (Math_abs_Fin (b + - a)) as (d & Hd & Hd0 & _).
      exists (d :: ds). split; [ | now constructor ].
      change (map Fin (a :: b :: rest)) with (Fin a :: map Fin (b :: rest)).
      change (map Fin (b :: rest)) with (Fin b :: map Fin rest) in *.
      cbn [Measure.differences]. cbn [Measure.differences] in Hds.
      rewrite Hds. cbn [map]. f_equal. exact Hd.
Qed.

Lemma jitter_of_finite_samples (qs : list Q) :
  exists q, Measure.jitter_of (map Fin qs) = Fin q /\ (0 <= q)%Q.
Proof.
  unfold Measure.jitter_of. rewrite length_map.
  destruct (Nat.ltb_spec (length qs) 2) as [Hshort | Hlong].
  - exists 0%Q. split; [ reflexivity | lra ].
  - destruct (differences_Fin qs) as (ds & -> & Hpos).
    rewrite sum_Fin, length_of_Fin.
    set (total := fold_left (fun total q => (total + q)%Q) ds 0%Q).
    assert (Htotal : (0 <= total)%Q) by (apply (fold_Qplus_nonneg ds Hpos 0%Q)).
    assert (Hn : (0 < inject_Z (Z.of_nat (length qs)) + - (1))%Q).
    { assert (H2 : (inject_Z 2 <= inject_Z (Z.of_nat (length qs)))%Q).
      { rewrite <- Zle_Qle. lia. }
      change (inject_Z 2) with 2%Q in H2. lra. }
    cbn [sub lit num_Number num_sub num_add num_opp div].
    rewrite (num_div_by_positive total _ Hn).
    eexists. split; [ reflexivity | ]. now apply Qdiv_nonneg.
Qed.

Lemma jitter_samples_finite (ping : Measure.Ping num) (target : string) :
  (forall target i r,
      ping target i = Returned r ->
      PingResult.alive r = true ->
      exists q, PingResult.time r = Fin q) ->
  forall count i,
    (exists text, Measure.jitter_samples ping target count i = Raised text)
    \/ exists qs,
         Measure.jitter_samples ping target count i = Returned (map Fin qs).
Proof.
  intros Hfinite. induction count as [ | count IH ]; intros i; simpl.
  - right. now exists [].
  - destruct (ping target i) as [ r | text ] eqn:Hping; simpl; [ | left; eauto ].
    destruct (IH (S i)) as [[text ->] | (qs & ->)]; simpl; [ left; eauto | ].
    right. destruct (PingResult.alive r) eqn:Halive.
    + destruct (Hfinite target i r Hping Halive) as (q & ->).
      now exists (q :: qs).
    + now exists qs.
Qed.

Lemma jitter_samples_lost (ping : Measure.Ping num) (target : string) :
  (forall target i, exists r,
      ping target i = Returned r /\ PingResult.alive r = false) ->
  forall count i, Measure.jitter_samples ping target count i = Returned [].
Proof.
  intros Hlost. induction count as [ | count IH ]; intros i; simpl.
  - reflexivity.
  - destruct (Hlost target i) as (r & -> & Hdead). simpl.
    rewrite IH. simpl. now rewrite Hdead.
Qed.

(** X10: with finite ping times [measureJitter] gives a number that is
    never negative, whether pings are lost or the ping library throws;
    and it gives 0 when no ping is answered. *)
Theorem measureJitter_is_nonnegative (route : Route num) (ping : Measure.Ping num) :
  (forall target i r,
      ping target i = Returned r ->
      PingResult.alive r = true ->
      exists q, PingResult.time r = Fin q) ->
  (exists q, Measure.measureJitter route ping = Returned (Fin q) /\ (0 <= q)%Q)
  /\ ((forall target i, exists r,
         ping target i = Returned r /\ PingResult.alive r = false) ->
      Measure.measureJitter route ping = Returned (Fin 0)).
Proof.
  intros Hfinite. split.
  - unfold Measure.measureJitter.
    destruct (jitter_samples_finite ping (Measure.gateway_target route) Hfinite
                10%nat 0%nat) as [[text ->] | (qs & ->)]; cbn [bind try_catch].
    + exists 0%Q. split; [ reflexivity | lra ].
    + destruct (jitter_of_finite_samples qs) as (q & -> & Hq). now exists q.
  - intros Hlost. unfold Measure.measureJitter.
    now rewrite (jitter_samples_lost ping _ Hlost).
Qed.

End JitterFacts.

Lemma measureThroughput_estimate_witness :
  exists q,
    Measure.measureThroughput (Scenario.routeA : Route num)
      (Returned (Some {| InterfaceStats.rx_sec := Some (Fin 13107200) |}))
    = Returned (Fin q)
    /\ (q == Qmax 0 (1000 - 13107200 / 131072))%Q
    /\ ((0 <= 13107200)%Q -> (0 <= q <= 1000)%Q)
    /\ ((13107200 == 0)%Q -> (q == 1000)%Q).
Proof.
  apply (proj1 measureThroughput_estimate Scenario.routeA 1000%Q 13107200%Q).
  left. split; reflexivity.
Defined.

Lemma measureStability_in_unit_interval_witness :
  exists q,
    Measure.measureStability (Scenario.routeA : Route num)
      (Fixture.steady_ping 12) = Returned (Fin q)
    /\ (0 <= q <= 1)%Q.
Proof.
  apply (measureStability_in_unit_interval Scenario.routeA
           (Fixture.steady_ping 12)).
  intros target i r [= <-] _. exists 12%Q.
  split; [ reflexivity | ]. split; [ reflexivity | ].
  vm_compute. discriminate.
Defined.

(** In binary64 the stability of five pings lies between 0 and 1 for
    times small and large, answered or lost; with five times of
    2^1023 ms the sum of the samples overflows and the stability is
    [NaN]. *)
Lemma measureStability_binary64 :
  Measure.measureStability Scenario.routeA (Fixture.steady_ping 12)
  = Returned 1%float
  /\ Measure.measureStability Scenario.routeA
       (fun _ _ => Returned {| PingResult.alive := true;
                               PingResult.time := 0x1p+1000%float |})
     = Returned 1%float
  /\ Measure.measureStability Scenario.routeA Fixture.lost_ping
     = Returned 1%float
  /\ Measure.stability_of [12; 999; 0.5; 0x1p+1000; 30]%float = 0%float
  /\ Measure.stability_of [0x1p-1074; 0x1p-1074; 999; 0x1p-1074; 0x1p-1074]%float
     = 0%float
  /\ PrimFloat.leb 0 (Measure.stability_of [10; 10.5; 10; 10.5; 10]%float) = true
  /\ PrimFloat.leb (Measure.stability_of [10; 10.5; 10; 10.5; 10]%float) 1 = true
  /\ Measure.measureStability Scenario.routeA
       (fun _ _ => Returned {| PingResult.alive := true;
                               PingResult.time := 0x1p+1023%float |})
     = Returned PrimFloat.nan.
Proof. repeat split. Qed.

Lemma score_of_an_unreachable_route_witness :
  exists sample s,
    Probe.measure
      (Measure.reading (Scenario.routeA : Route num)
         (Fixture.host_with Fixture.lost_ping) 1000 1700)
    = Returned sample
    /\ error sample = None
    /\ latency sample = Some (Fin 999)
    /\ stability sample = Some (Fin s)
    /\ (s == 1)%Q
    /\ (forall t,
          throughput sample = Some (Fin t) -> (0 <= t)%Q ->
          exists q,
            calculateRouteScore sample = Fin q
            /\ (q == 0.4 * Qmin 100 (t / 10) + 20)%Q
            /\ (20 <= q <= 60)%Q)
    /\ (throughput sample = Some NaN_ -> calculateRouteScore sample = NaN_)
    /\ (Measure.interface_stats (Fixture.host_with (N := num) Fixture.lost_ping)
        = Returned None
        \/ (exists text,
              Measure.interface_stats (Fixture.host_with (N := num) Fixture.lost_ping)
              = Raised text) ->
        throughput sample = Some (Fin 0)
        /\ exists q, calculateRouteScore sample = Fin q /\ (q == 20)%Q)
    /\ (Measure.interface_stats (Fixture.host_with (N := num) Fixture.lost_ping)
        = Returned (Some {| InterfaceStats.rx_sec := None |}) ->
        throughput sample = Some NaN_
        /\ calculateRouteScore sample = NaN_).
Proof.
  apply (score_of_an_unreachable_route Scenario.routeA
           (Fixture.host_with Fixture.lost_ping) 1000 1700);
    intros target i; eexists; split; reflexivity.
Defined.

Lemma zero_ping_times_give_no_score_witness :
  exists sample,
    Probe.measure
      (Measure.reading (Scenario.routeA : Route num)
         (Fixture.host_with (Fixture.steady_ping 0)) 1000 1700)
    = Returned sample
    /\ stability sample = Some NaN_
    /\ calculateRouteScore sample = NaN_.
Proof.
  apply (zero_ping_times_give_no_score Scenario.routeA
           (Fixture.host_with (Fixture.steady_ping 0)) 1000 1700).
  intros target i. eexists. repeat split; reflexivity.
Defined.

Lemma measureJitter_is_nonnegative_witness :
  (exists q,
      Measure.measureJitter (Scenario.routeA : Route num)
        (Fixture.steady_ping 12) = Returned (Fin q)
      /\ (0 <= q)%Q)
  /\ ((forall target i, exists r,
         (Fixture.steady_ping 12 : Measure.Ping num) target i = Returned r
         /\ PingResult.alive r = false) ->
      Measure.measureJitter (Scenario.routeA : Route num)
        (Fixture.steady_ping 12) = Returned (Fin 0)).
Proof.
  apply (measureJitter_is_nonnegative Scenario.routeA (Fixture.steady_ping 12)).
  intros target i r [= <-] _. now exists 12%Q.
Defined.

(* ===================================================================== *)
(** * The routing-table parsers                                           *)
(* ===================================================================== *)

Section ParsingFacts.

Lemma split_lines_nonempty (s : string) : split_lines s <> [].
Proof.
  induction s as [ | c rest IH ]; simpl; [ discriminate | ].
  destruct (Ascii.eqb c "010"%char); [ discriminate | ].
  destruct (split_lines rest); discriminate.
Qed.

Lemma split_lines_app (a b : string) :
  split_lines (a +:+ Text.line_feed +:+ b) = split_lines a ++ split_lines b.
Proof.
  induction a as [ | c a IH ]; [ reflexivity | ].
  change (String c a +:+ Text.line_feed +:+ b)
    with (String c (a +:+ Text.line_feed +:+ b)).
  cbn [split_lines]. rewrite IH.
  destruct (Ascii.eqb c "010"%char); [ reflexivity | ].
  pose proof (split_lines_nonempty a) as Hne.
  destruct (split_lines a); [ contradiction | reflexivity ].
Qed.

Lemma split_lines_one_line (s : string) :
  Text.all_chars (fun c => negb (Ascii.eqb c "010"%char)) s = true ->
  split_lines s = [s].
Proof.
  induction s as [ | c rest IH ]; simpl; [ reflexivity | ].
  intros [Hc Hrest]%andb_prop.
  destruct (Ascii.eqb c "010"%char); [ discriminate | ].
  now rewrite (IH Hrest).
Qed.

(** X11: both parsers read their input line by line: the routes of two
    texts joined by a line feed are the routes of the first followed by
    the routes of the second. *)
Theorem parsers_read_line_by_line (a b : string) :
  Probe.parseLinuxRoutes (a +:+ Text.line_feed +:+ b)
  = Probe.parseLinuxRoutes a ++ Probe.parseLinuxRoutes b
  /\ Probe.parseWindowsRoutes (a +:+ Text.line_feed +:+ b)
     = Probe.parseWindowsRoutes a ++ Probe.parseWindowsRoutes b.
Proof.
  unfold Probe.parseLinuxRoutes, Probe.parseWindowsRoutes.
  rewrite split_lines_app. split; apply flat_map_app.
Qed.

Lemma all_chars_app (p : ascii -> bool) (a b : string) :
  Text.all_chars p (a +:+ b) = Text.all_chars p a && Text.all_chars p b.
Proof.
  induction a as [ | c a IH ]; [ reflexivity | ].
  change (String c a +:+ b) with (String c (a +:+ b)).
  cbn [Text.all_chars]. rewrite IH. now rewrite andb_assoc.
Qed.

Lemma all_chars_impl (p q : ascii -> bool) (s : string) :
  (forall c, p c = true -> q c = true) ->
  Text.all_chars p s = true -> Text.all_chars q s = true.
Proof.
  intros Hpq. induction s as [ | c s IH ]; simpl; [ reflexivity | ].
  intros [Hc Hs]%andb_prop. now rewrite (Hpq c Hc), (IH Hs).
Qed.

Lemma word_inv (w : string) :
  Text.word w = true ->
  exists c rest,
    w = String c rest /\ is_white c = false
    /\ Text.all_chars (fun c => negb (is_white c)) rest = true.
Proof.
  unfold Text.word. destruct w as [ | c rest ]; [ discriminate | ].
  simpl. intros [Hc Hrest]%andb_prop. exists c, rest.
  apply andb_prop in Hc as [_ Hc].
  repeat split; [ now apply negb_true_iff | ].
  apply (all_chars_impl Text.ascii_black); [ | exact Hrest ].
  now intros x [_ Hx]%andb_prop.
Qed.

Lemma word_white_free (w : string) :
  Text.word w = true -> Text.all_chars (fun c => negb (is_white c)) w = true.
Proof.
  unfold Text.word. intros [_ Hw]%andb_prop.
  apply (all_chars_impl Text.ascii_black); [ | exact Hw ].
  now intros x [_ Hx]%andb_prop.
Qed.

Lemma string_app_assoc (a b c : string) : (a +:+ b) +:+ c = a +:+ b +:+ c.
Proof.
  induction a as [ | x a IH ]; [ reflexivity | ].
  change ((String x a +:+ b) +:+ c) with (String x ((a +:+ b) +:+ c)).
  change (String x a +:+ b +:+ c) with (String x (a +:+ b +:+ c)).
  now rewrite IH.
Qed.

Lemma app_empty_r (s : string) : s +:+ "" = s.
Proof.
  induction s as [ | c s IH ]; [ reflexivity | ].
  change (String c s +:+ "") with (String c (s +:+ "")). now rewrite IH.
Qed.

(** The words of a line joined by single spaces hold no line feed. *)
Lemma concat_one_line (words : list string) :
  Forall (fun w => Text.word w = true) words ->
  Text.all_chars (fun c => negb (Ascii.eqb c "010"%char)) (String.concat " " words)
  = true.
Proof.
  assert (Hfree : forall w, Text.word w = true ->
            Text.all_chars (fun c => negb (Ascii.eqb c "010"%char)) w = true).
  { intros w Hw. apply (all_chars_impl (fun c => negb (is_white c))).
    - intros c. now destruct (Ascii.eqb_spec c "010"%char) as [ -> | ].
    - now apply word_white_free. }
  induction 1 as [ | w rest Hw Hrest IH ]; [ reflexivity | ].
  destruct rest as [ | w' rest ]; [ now apply Hfree | ].
  change (String.concat " " (w :: w' :: rest))
    with (w +:+ " " +:+ String.concat " " (w' :: rest)).
  rewrite !all_chars_app, (Hfree w Hw), IH. reflexivity.
Qed.

Lemma split_white_from_nonempty (in_run : bool) (s : string) :
  split_white_from in_run s <> [].
Proof.
  revert in_run. induction s as [ | c rest IH ]; intros in_run; simpl;
    [ discriminate | ].
  destruct (is_white c).
  - destruct in_run; [ apply IH | discriminate ].
  - destruct (split_white_from false rest); discriminate.
Qed.

(** Characters that are not white space stay with the piece that
    follows them. *)
Lemma split_white_from_prefix (w rest : string) (in_run : bool) :
  Text.all_chars (fun c => negb (is_white c)) w = true ->
  (in_run = true -> w <> "") ->
  exists piece pieces,
    split_white_from false rest = piece :: pieces
    /\ split_white_from in_run (w +:+ rest) = (w +:+ piece) :: pieces.
Proof.
  revert in_run. induction w as [ | c w IH ]; intros in_run Hw Hrun.
  - destruct in_run; [ now destruct Hrun | ].
    pose proof (split_white_from_nonempty false rest) as Hne.
    destruct (split_white_from false rest) as [ | piece pieces ] eqn:E;
      [ contradiction | ].
    exists piece, pieces. split; [ reflexivity | exact E ].
  - simpl in Hw. apply andb_prop in Hw as [Hc Hw].
    apply negb_true_iff in Hc.
    destruct (IH false Hw) as (piece & pieces & E & Hsplit); [ discriminate | ].
    exists piece, pieces. split; [ exact E | ].
    change (String c w +:+ rest) with (String c (w +:+ rest)).
    cbn [split_white_from]. rewrite Hc, Hsplit. reflexivity.
Qed.

(** Splitting at white space gives back the words that single spaces
    join. *)
Lemma split_white_concat (words : list string) :
  Forall (fun w => Text.word w = true) words ->
  words <> [] ->
  forall in_run,
    split_white_from in_run (String.concat " " words) = words.
Proof.
  induction 1 as [ | w rest Hw Hrest IH ]; intros Hne in_run;
    [ contradiction | ].
  assert (Hword : w <> "").
  { destruct (word_inv w Hw) as (c & r & -> & _). discriminate. }
  destruct rest as [ | w' rest ].
  - destruct (split_white_from_prefix w "" in_run (word_white_free w Hw))
      as (piece & pieces & E & Hsplit); [ now intros _ | ].
    simpl in E. injection E as <- <-.
    rewrite app_empty_r in Hsplit. exact Hsplit.
  - change (String.concat " " (w :: w' :: rest))
      with (w +:+ String " " (String.concat " " (w' :: rest))).
    destruct (split_white_from_prefix w
                (String " " (String.concat " " (w' :: rest))) in_run
                (word_white_free w Hw))
      as (piece & pieces & E & Hsplit); [ now intros _ | ].
    rewrite Hsplit.
    cbn [split_white_from] in E.
    change (is_white " ") with true in E. cbv iota in E.
    rewrite (IH ltac:(discriminate) true) in E.
    injection E as <- <-. now rewrite app_empty_r.
Qed.

Lemma trim_start_word_first (s : string) (c : ascii) (rest : string) :
  s = String c rest -> is_white c = false -> trim_start s = s.
Proof. intros -> Hc. simpl. now rewrite Hc. Qed.

Lemma trim_end_word (w : string) :
  Text.word w = true -> trim_end w = w.
Proof.
  intros Hw. destruct (word_inv w Hw) as (c & rest & -> & Hc & Hrest).
  clear Hw. revert c Hc. induction rest as [ | c' rest IH ]; intros c Hc.
  - simpl. now rewrite Hc.
  - simpl in Hrest. apply andb_prop in Hrest as [Hc' Hrest].
    apply negb_true_iff in Hc'.
    specialize (IH Hrest c' Hc').
    change (trim_end (String c (String c' rest)))
      with (match trim_end (String c' rest) with
            | EmptyString => if is_white c then EmptyString else String c EmptyString
            | kept => String c kept
            end).
    now rewrite IH.
Qed.

Lemma trim_end_app (a w : string) :
  w <> "" -> trim_end w = w -> trim_end (a +:+ w) = a +:+ w.
Proof.
  intros Hne Hw. induction a as [ | c a IH ]; [ exact Hw | ].
  change (String c a +:+ w) with (String c (a +:+ w)).
  cbn [trim_end]. rewrite IH.
  destruct (a +:+ w) eqn:E; [ | reflexivity ].
  destruct a; [ | discriminate ]. simpl in E. contradiction.
Qed.

Lemma concat_nonempty_tail (w : string) (rest : list string) :
  Forall (fun w => Text.word w = true) (w :: rest) ->
  String.concat " " (w :: rest) <> ""
  /\ trim_end (String.concat " " (w :: rest)) = String.concat " " (w :: rest).
Proof.
  revert w. induction rest as [ | w' rest IH ]; intros w Hall.
  - apply Forall_inv in Hall. split; [ | now apply trim_end_word ].
    destruct (word_inv w Hall) as (c & r & -> & _). discriminate.
  - pose proof (Forall_inv_tail Hall) as Htail.
    destruct (IH w' Htail) as [Hne Htrim].
    change (String.concat " " (w :: w' :: rest))
      with (w +:+ String " " (String.concat " " (w' :: rest))).
    split.
    + destruct w; discriminate.
    + replace (w +:+ String " " (String.concat " " (w' :: rest)))
        with ((w +:+ " ") +:+ String.concat " " (w' :: rest)).
      * now apply trim_end_app.
      * exact (string_app_assoc w " " (String.concat " " (w' :: rest))).
Qed.

Lemma trim_concat (words : list string) :
  Forall (fun w => Text.word w = true) words ->
  trim (String.concat " " words) = String.concat " " words.
Proof.
  intros Hall. destruct words as [ | w rest ]; [ reflexivity | ].
  unfold trim.
  assert (Hstart : trim_start (String.concat " " (w :: rest))
                   = String.concat " " (w :: rest)).
  { destruct (word_inv w (Forall_inv Hall)) as (c & r & -> & Hc & _).
    destruct rest as [ | w' rest ].
    - simpl. now rewrite Hc.
    - change (String.concat " " (String c r :: w' :: rest))
        with (String c (r +:+ " " +:+ String.concat " " (w' :: rest))).
      simpl. now rewrite Hc. }
  rewrite Hstart. now apply concat_nonempty_tail.
Qed.

(** X12: on a line of words separated by single spaces that contains
    [default], the words being made of characters of the ASCII range
    that are not white space, [parseLinuxRoutes] gives one route whose
    gateway is the third word and whose interface is the fifth word,
    whatever the words are; each is undefined when the line is
    shorter. *)
Theorem parseLinuxRoutes_reads_by_position (words : list string) :
  Forall (fun w => Text.word w = true) words ->
  includes "default" (String.concat " " words) = true ->
  Probe.parseLinuxRoutes (String.concat " " words)
  = [ {| SystemRoute.destination := "0.0.0.0/0";
         SystemRoute.gateway := nth_error words 2;
         SystemRoute.iface := nth_error words 4 |} ].
Proof.
  intros Hwords Hdefault.
  assert (Hne : words <> []) by (intros ->; discriminate).
  unfold Probe.parseLinuxRoutes.
  rewrite (split_lines_one_line _ (concat_one_line words Hwords)).
  cbn [flat_map]. rewrite Hdefault.
  rewrite (trim_concat words Hwords).
  unfold split_white. rewrite (split_white_concat words Hwords Hne false).
  reflexivity.
Qed.

End ParsingFacts.

Lemma parseLinuxRoutes_reads_by_position_witness :
  Probe.parseLinuxRoutes
    (String.concat " " ["default"; "via"; "192.168.1.1"; "dev"; "eth0";
                        "proto"; "dhcp"])
  = [ {| SystemRoute.destination := "0.0.0.0/0";
         SystemRoute.gateway :=
           nth_error ["default"; "via"; "192.168.1.1"; "dev"; "eth0";
                      "proto"; "dhcp"] 2;
         SystemRoute.iface :=
           nth_error ["default"; "via"; "192.168.1.1"; "dev"; "eth0";
                      "proto"; "dhcp"] 4 |} ].
Proof.
  apply parseLinuxRoutes_reads_by_position.
  - repeat constructor.
  - reflexivity.
Defined.

(** A default route of a point-to-point link has no [via]: the third
    word is the device and the fifth is [link]. *)
Lemma parseLinuxRoutes_without_via :
  Probe.parseLinuxRoutes "default dev ppp0 scope link"
  = [ {| SystemRoute.destination := "0.0.0.0/0";
         SystemRoute.gateway := Some "ppp0";
         SystemRoute.iface := Some "link" |} ].
Proof. reflexivity. Qed.

Section WindowsParsing.

Lemma prefix_of_prefix (needle a b : string) :
  String.prefix needle a = true -> String.prefix a b = true ->
  String.prefix needle b = true.
Proof.
  revert a b. induction needle as [ | x needle IH ]; intros a b.
  - intros _ _. now destruct b.
  - destruct a as [ | y a ]; [ discriminate | ]. simpl.
    destruct (ascii_dec x y) as [ <- | ]; [ | discriminate ].
    intros Hneedle. destruct b as [ | z b ]; [ discriminate | ]. simpl.
    destruct (ascii_dec x z) as [ <- | ]; [ | discriminate ].
    intros Hab. exact (IH a b Hneedle Hab).
Qed.

Lemma first_line_is_prefix (s piece : string) (pieces : list string) :
  split_lines s = piece :: pieces -> String.prefix piece s = true.
Proof.
  revert piece pieces. induction s as [ | c s IH ]; intros piece pieces; simpl.
  - now intros [= <- <-].
  - destruct (Ascii.eqb c "010"%char); [ now intros [= <- <-] | ].
    pose proof (split_lines_nonempty s) as Hne.
    destruct (split_lines s) as [ | p ps ] eqn:E; [ contradiction | ].
    intros [= <- <-]; simpl.
    destruct (ascii_dec c c); [ exact (IH p ps eq_refl) | contradiction ].
Qed.

(** What a line includes, the whole text includes. *)
Lemma includes_line (needle s line : string) :
  In line (split_lines s) ->
  includes needle line = true -> includes needle s = true.
Proof.
  revert line. induction s as [ | c s IH ]; intros line.
  - simpl. now intros [ <- | [] ].
  - cbn [split_lines].
    destruct (Ascii.eqb c "010"%char).
    + intros [ <- | Hin ] Hline.
      * simpl in Hline. rewrite orb_false_r in Hline.
        destruct needle; [ reflexivity | discriminate ].
      * cbn [includes]. rewrite (IH line Hin Hline). apply orb_true_r.
    + destruct (split_lines s) as [ | p ps ] eqn:E.
      * now destruct (split_lines_nonempty s).
      * intros [ <- | Hin ] Hline.
        -- cbn [includes] in Hline |- *.
           apply orb_prop in Hline as [Hprefix | Hrest].
           ++ assert (Hline : String.prefix (String c p) (String c s) = true).
              { simpl. destruct (ascii_dec c c); [ | contradiction ].
                exact (first_line_is_prefix s p ps E). }
              now rewrite (prefix_of_prefix needle _ _ Hprefix Hline).
           ++ rewrite (IH p (or_introl eq_refl) Hrest). apply orb_true_r.
        -- cbn [includes]. rewrite (IH line (or_intror Hin) Hline).
           apply orb_true_r.
Qed.

(** X13: every route [parseWindowsRoutes] builds has the destination
    0.0.0.0/0, a gateway, and a non-empty interface name; and a text
    that does not contain the word [Gateway] gives no route. *)
Theorem parseWindowsRoutes_shape (output : string) :
  Forall (fun r => SystemRoute.destination r = "0.0.0.0/0"
                   /\ is_Some (SystemRoute.gateway r)
                   /\ exists i, SystemRoute.iface r = Some i /\ i <> "")
         (Probe.parseWindowsRoutes output)
  /\ (includes "Gateway" output = false -> Probe.parseWindowsRoutes output = []).
Proof.
  unfold Probe.parseWindowsRoutes. split.
  - apply Forall_flat_map, List.Forall_forall. intros line _.
    destruct (includes "0.0.0.0" line && includes "Gateway" line);
      [ | constructor ].
    destruct (Nat.leb_spec 3 (length (split_white (trim line)))) as [Hlen | ];
      [ | constructor ].
    constructor; [ | constructor ]. cbn. split; [ reflexivity | ]. split.
    + unfold at_index.
      destruct (nth_error (split_white (trim line)) 2) eqn:E; [ eauto | ].
      apply nth_error_None in E. lia.
    + eexists. split; [ reflexivity | ].
      match goal with
      | |- context [or_else ?v _] => destruct v as [ [ | c s ] | ]
      end; cbn; discriminate.
  - intros Hword.
    assert (Hlines : forall line, In line (split_lines output) ->
                                  includes "Gateway" line = false).
    { intros line Hin. destruct (includes "Gateway" line) eqn:E; [ | reflexivity ].
      rewrite (includes_line "Gateway" output line Hin E) in Hword.
      discriminate. }
    induction (split_lines output) as [ | line lines IH ]; [ reflexivity | ].
    cbn [flat_map]. rewrite (Hlines line (or_introl eq_refl)), andb_false_r.
    apply IH. intros l Hl. apply Hlines. now right.
Qed.

End WindowsParsing.

(** The table [route print] shows has the word [Gateway] in its header
    and the address 0.0.0.0 in its rows, never both on one line. *)
Lemma parseWindowsRoutes_of_a_route_table :
  Probe.parseWindowsRoutes
    ("Network Destination        Netmask          Gateway       Interface  Metric"
     +:+ Text.line_feed
     +:+ "          0.0.0.0          0.0.0.0      192.168.1.1     192.168.1.10     25")
  = [].
Proof. reflexivity. Qed.

(* ===================================================================== *)
(** * What [discoverRoutes] hands to the rest of the program              *)
(* ===================================================================== *)

Section DiscoveredRoutes.
Context {N : Type} `{Number N}.

(** The result of [discoverRoutes] is made of the three loops, the
    wireless networks being those with a name. *)
Lemma discoverRoutes_parts (host : Probe.Host N) :
  exists interfaces networks system,
    Probe.discoverRoutes host
    = Returned (Probe.routes_of_interfaces interfaces
                ++ Probe.routes_of_wifi networks
                ++ Probe.routes_of_system system)
    /\ Forall (fun network => truthy (WifiNetwork.ssid network) = true) networks.
Proof.
  unfold Probe.discoverRoutes.
  rewrite (getWifiNetworks_returns host), (getSystemRoutes_returns host).
  destruct (Probe.si_networkInterfaces host) as [interfaces | message]; simpl.
  - do 3 eexists. split; [ reflexivity | ].
    apply List.Forall_forall. intros network Hin.
    now apply List.filter_In in Hin.
  - exists [], [], []. split; [ reflexivity | constructor ].
Qed.

Lemma Forall_routes_of_interfaces (Q : Route N -> Prop)
    (interfaces : list (NetIface.t N)) :
  (forall r, gateway r = None -> ssid r = None -> metrics r = None ->
             lastAnalyzed r = None -> type r <> "loopback" -> Q r) ->
  Forall Q (Probe.routes_of_interfaces interfaces).
Proof.
  intros HQ. unfold Probe.routes_of_interfaces.
  apply Forall_flat_map, List.Forall_forall. intros i _.
  destruct (String.eqb (NetIface.operstate i) "up"); [ | constructor ].
  destruct (String.eqb_spec (NetIface.type i) "loopback") as [ | Hup ];
    [ constructor | ].
  constructor; [ | constructor ]. now apply HQ.
Qed.

(** X14: [discoverRoutes] never fails, and every route it returns is
    unanalysed ([metrics] and [lastAnalyzed] null) and is not a loopback
    interface; the list therefore shows each of them with the score 0. *)
Theorem discovered_routes_are_unanalysed (host : Probe.Host N) :
  exists routes,
    Probe.discoverRoutes host = Returned routes
    /\ Forall (fun r => metrics r = None
                        /\ lastAnalyzed r = None
                        /\ type r <> "loopback"
                        /\ Renderer.shown_score r = lit 0) routes.
Proof.
  destruct (discoverRoutes_parts host)
    as (interfaces & networks & system & -> & _).
  eexists. split; [ reflexivity | ].
  rewrite !Forall_app. repeat split.
  - apply Forall_routes_of_interfaces. intros r _ _ Hm Hl Ht.
    unfold Renderer.shown_score. now rewrite Hm.
  - unfold Probe.routes_of_wifi. apply List.Forall_map, List.Forall_forall.
    intros network _. cbn. repeat split. discriminate.
  - unfold Probe.routes_of_system. apply List.Forall_map, List.Forall_forall.
    intros route _. cbn. repeat split. discriminate.
Qed.

(** X15: a route that [discoverRoutes] returns with an [ssid] comes from
    the wireless scan: its name is not empty, its id is [wifi-] followed
    by the name, its interface is [wlan0], and, having neither gateway
    nor address, the tunnel endpoint generated for it is
    127.0.0.1:51820. *)
Theorem endpoint_of_a_wireless_route (host : Probe.Host N) :
  exists routes,
    Probe.discoverRoutes host = Returned routes
    /\ Forall (fun r =>
                 forall network, ssid r = Some network ->
                   network <> ""
                   /\ id r = "wifi-" +:+ network
                   /\ iface r = Some "wlan0"
                   /\ Tunnel.generateEndpoint r = "127.0.0.1:51820") routes.
Proof.
  destruct (discoverRoutes_parts host)
    as (interfaces & networks & system & -> & Hnamed).
  eexists. split; [ reflexivity | ].
  rewrite !Forall_app. repeat split.
  - apply Forall_routes_of_interfaces. intros r _ Hssid _ _ _ network.
    rewrite Hssid. discriminate.
  - unfold Probe.routes_of_wifi. apply List.Forall_map.
    apply (List.Forall_impl _ (P := fun network =>
                                 truthy (WifiNetwork.ssid network) = true));
      [ | exact Hnamed ].
    intros network Hname name. cbn. intros Hssid. rewrite Hssid in *.
    repeat split. intros ->. discriminate.
  - unfold Probe.routes_of_system. apply List.Forall_map, List.Forall_forall.
    intros route _ network. cbn. discriminate.
Qed.

End DiscoveredRoutes.

(* ===================================================================== *)
(** * The analysis timer                                                  *)
(* ===================================================================== *)

Section TimerFacts.
Context {N : Type} `{Number N}.
Context {P D E W X Y : Type}.
Variable probe_discoverRoutes : D -> outcome (list (Route N)).
Variable probe_analyzeRoute : P -> Route N -> E -> P * outcome (Metrics N).
Variable wgController_connect : W -> Route N -> X -> W * outcome bool.
Variable wgController_disconnect : W -> Y -> W * outcome bool.

#[local] Abbreviation Process := (Main.Process N P W).
#[local] Abbreviation startNetworkAnalysis :=
  (Main.startNetworkAnalysis (P := P) (W := W) probe_discoverRoutes).
#[local] Abbreviation stopNetworkAnalysis :=
  (Main.stopNetworkAnalysis (N := N) (P := P) (W := W)).
#[local] Abbreviation perform :=
  (Main.perform probe_discoverRoutes probe_analyzeRoute
                wgController_connect wgController_disconnect).
#[local] Abbreviation perform_all :=
  (Main.perform_all probe_discoverRoutes probe_analyzeRoute
                    wgController_connect wgController_disconnect).
#[local] Abbreviation on_before_quit :=
  (Quit.on_before_quit (N := N) (P := P) wgController_disconnect).

(** What an operation does to the timers: nothing, or it arms a new
    timer of 5000 ms under a new handle and records it, or it disarms the
    recorded timer and forgets it. *)
Lemma perform_timers (s : Process) (o : Main.operation N D E X Y) :
  let s' := fst (perform s o) in
  (Main.timers s' = Main.timers s
   /\ Main.next_timer s' = Main.next_timer s
   /\ Main.analysisInterval (Main.app s') = Main.analysisInterval (Main.app s))
  \/ (Main.timers s' = <[ Main.next_timer s := 5000 ]> (Main.timers s)
      /\ Main.next_timer s' = S (Main.next_timer s)
      /\ Main.analysisInterval (Main.app s') = Some (Main.next_timer s))
  \/ (exists handle,
        Main.analysisInterval (Main.app s) = Some handle
        /\ Main.timers s' = delete handle (Main.timers s)
        /\ Main.next_timer s' = Main.next_timer s
        /\ Main.analysisInterval (Main.app s') = None).
Proof.
  destruct o as [ d | | env | r x | x | y ]; simpl.
  - unfold Main.startNetworkAnalysis.
    destruct (probe_discoverRoutes d); simpl; [ right; left | left ]; easy.
  - unfold Main.stopNetworkAnalysis.
    destruct (Main.analysisInterval (Main.app s)) as [ handle | ] eqn:Hrec; simpl.
    + right; right. now exists handle.
    + left. now rewrite Hrec.
  - unfold Main.analyzeRoutes.
    destruct (Main.analyze_each probe_analyzeRoute (Main.probe s)
                (Main.routes (Main.app s)) env 0); simpl; now left.
  - unfold Main.connectToRoute. destruct r as [ r | ]; [ | now left ].
    destruct (wgController_connect (Main.wgController s) r x) as [w1 [ok | text]];
      simpl; now left.
  - unfold Main.on_connect_best_route, Main.findBestRoute.
    destruct (Main.routes (Main.app s)) as [ | first rest ]; [ now left | ].
    unfold Main.connectToRoute.
    destruct (wgController_connect (Main.wgController s) first x) as [w1 [ok | text]];
      simpl; now left.
  - unfold Main.disconnect.
    destruct (wgController_disconnect (Main.wgController s) y) as [w1 [ok | text]];
      simpl; now left.
Qed.

(** Every armed timer has the period 5000 ms and a handle already handed
    out, and the recorded handle is armed. *)
#[local] Abbreviation accounted s :=
  ((forall handle period,
       Main.timers s !! handle = Some period ->
       period = 5000 /\ Nat.lt handle (Main.next_timer s))
   /\ (forall handle,
         Main.analysisInterval (Main.app s) = Some handle ->
         Main.timers s !! handle = Some 5000)).

Lemma perform_accounted (s : Process) (o : Main.operation N D E X Y) :
  accounted s -> accounted (fst (perform s o)).
Proof.
  intros [Harmed Hrecorded].
  destruct (perform_timers s o)
    as [(-> & -> & ->) | [(-> & -> & ->) | (h & Hh & -> & -> & ->)]].
  - now split.
  - split.
    + intros handle period.
      destruct (decide (handle = Main.next_timer s)) as [ -> | Hne ].
      * rewrite lookup_insert_eq. intros [= <-]. split; [ reflexivity | lia ].
      * rewrite lookup_insert_ne by congruence. intros Hk.
        destruct (Harmed handle period Hk). split; [ assumption | lia ].
    + intros handle [= <-]. apply lookup_insert_eq.
  - split; [ | discriminate ].
    intros handle period [_ Hk]%lookup_delete_Some. exact (Harmed handle period Hk).
Qed.

Lemma perform_all_accounted (os : list (Main.operation N D E X Y)) :
  forall s, accounted s -> accounted (perform_all s os).
Proof.
  induction os as [ | o os IH ]; intros s Hs; [ exact Hs | ].
  apply (IH (fst (perform s o))). now apply perform_accounted.
Qed.

(** X16: from the initial state, after any sequence of operations,
    every armed timer has the period 5000 ms, the handle recorded in
    [analysisInterval] is armed, and a start followed by a stop leaves
    the armed timers as they were. *)
Theorem timers_are_accounted_for (p : P) (w : W)
    (os : list (Main.operation N D E X Y)) :
  let s := perform_all (Main.start_process p w) os in
  (forall handle period, Main.timers s !! handle = Some period -> period = 5000)
  /\ (forall handle,
        Main.analysisInterval (Main.app s) = Some handle ->
        Main.timers s !! handle = Some 5000)
  /\ (forall d found,
        probe_discoverRoutes d = Returned found ->
        let started := fst (startNetworkAnalysis s d) in
        let stopped := fst (stopNetworkAnalysis started) in
        Main.analysisInterval (Main.app started) = Some (Main.next_timer s)
        /\ Main.analysisInterval (Main.app stopped) = None
        /\ Main.timers stopped = Main.timers s).
Proof.
  intros s.
  assert (Hs : accounted s).
  { apply perform_all_accounted. split; [ | discriminate ].
    intros handle period. simpl. now rewrite lookup_empty. }
  destruct Hs as [Harmed Hrecorded]. split; [ | split ].
  - intros handle period Hk. now destruct (Harmed handle period Hk).
  - exact Hrecorded.
  - intros d found Hfound. unfold Main.startNetworkAnalysis. rewrite Hfound.
    simpl. repeat split. apply delete_insert_id.
    destruct (Main.timers s !! Main.next_timer s) as [ period | ] eqn:Hnext;
      [ | reflexivity ].
    destruct (Harmed _ _ Hnext). lia.
Qed.

(** A timer that is armed and not recorded stays armed. *)
#[local] Abbreviation leaked :=
  (fun (handle : nat) (s : Process) =>
     Main.timers s !! handle = Some 5000
     /\ (handle < Main.next_timer s)%nat
     /\ Main.analysisInterval (Main.app s) <> Some handle).

Lemma perform_leaked (handle : nat) (s : Process) (o : Main.operation N D E X Y) :
  leaked handle s -> leaked handle (fst (perform s o)).
Proof.
  intros (Harmed & Hold & Hother).
  destruct (perform_timers s o)
    as [(-> & -> & ->) | [(-> & -> & ->) | (h & Hh & -> & -> & ->)]].
  - easy.
  - repeat split; [ | lia | intros [= Heq]; lia ].
    rewrite lookup_insert_ne by lia. exact Harmed.
  - repeat split; [ | exact Hold | discriminate ].
    rewrite lookup_delete_ne by congruence. exact Harmed.
Qed.

Lemma perform_all_leaked (handle : nat) (os : list (Main.operation N D E X Y)) :
  forall s, leaked handle s -> leaked handle (perform_all s os).
Proof.
  induction os as [ | o os IH ]; intros s Hs; [ exact Hs | ].
  apply (IH (fst (perform s o))). now apply perform_leaked.
Qed.

(** X17: a second start without a stop in between loses the first
    timer: [analysisInterval] moves to the second handle, and the first
    timer stays armed through every later sequence of operations and
    through the [before-quit] handler. *)
Theorem second_start_loses_the_first_timer (s : Process) (d d' : D)
    (found found' : list (Route N)) :
  probe_discoverRoutes d = Returned found ->
  probe_discoverRoutes d' = Returned found' ->
  let first := Main.next_timer s in
  let s2 := perform_all s [Main.StartAnalysis d; Main.StartAnalysis d'] in
  Main.analysisInterval (Main.app s2) = Some (S first)
  /\ forall os y,
       Main.timers (perform_all s2 os) !! first = Some 5000
       /\ Main.timers (fst (on_before_quit (perform_all s2 os) y)) !! first
          = Some 5000.
Proof.
  intros Hfound Hfound' first s2.
  assert (Hs2 : Main.analysisInterval (Main.app s2) = Some (S first)
                /\ leaked first s2).
  { subst s2 first. simpl. unfold Main.startNetworkAnalysis.
    rewrite Hfound. simpl. rewrite Hfound'. simpl.
    repeat split; [ | lia | intros [= Heq]; lia ].
    rewrite lookup_insert_ne by lia. apply lookup_insert_eq. }
  destruct Hs2 as [Hsecond Hleak]. split; [ exact Hsecond | ].
  intros os y.
  destruct (perform_all_leaked first os s2 Hleak) as (Harmed & _ & Hother).
  split; [ exact Harmed | ].
  unfold Quit.on_before_quit.
  set (s3 := perform_all s2 os) in *.
  destruct (Main.isConnected (Main.app s3)).
  - unfold Main.disconnect.
    destruct (wgController_disconnect (Main.wgController s3) y)
      as [w1 [ok | text]]; simpl; [ | exact Harmed ].
    destruct (Main.analysisInterval (Main.app s3)) as [ handle | ]; simpl;
      [ rewrite lookup_delete_ne by congruence | ]; exact Harmed.
  - destruct (Main.analysisInterval (Main.app s3)) as [ handle | ]; simpl;
      [ rewrite lookup_delete_ne by congruence | ]; exact Harmed.
Qed.

(** X18: until a start has filled the catalog it stays empty, analysis
    cycles included; [connect-best-route] then answers with the failure
    [Nenhuma rota disponível], leaves the process as it is and does not
    reach the tunnel controller. *)
Theorem connect_best_route_needs_a_start (p : P) (w : W)
    (os : list (Main.operation N D E X Y)) (x : X) :
  Forall (fun o => match o with Main.StartAnalysis _ => False | _ => True end) os ->
  let s := perform_all (Main.start_process p w) os in
  Main.routes (Main.app s) = []
  /\ Main.on_connect_best_route wgController_connect s x
     = (s, Main.failed "Nenhuma rota disponível").
Proof.
  intros Hos s.
  assert (Hs : Main.routes (Main.app s) = []).
  { subst s.
    assert (Hstart : Main.routes (Main.app (Main.start_process p w : Process)) = [])
      by reflexivity.
    revert Hstart. generalize (Main.start_process p w : Process).
    induction Hos as [ | o os Ho Hos IH ]; intros s Hroutes; [ exact Hroutes | ].
    apply (IH (fst (perform s o))).
    destruct o as [ d | | env | r x' | x' | y ]; simpl; [ contradiction | .. ].
    - unfold Main.stopNetworkAnalysis.
      now destruct (Main.analysisInterval (Main.app s)).
    - unfold Main.analyzeRoutes. now rewrite Hroutes.
    - unfold Main.connectToRoute. destruct r as [ r | ]; [ | assumption ].
      now destruct (wgController_connect (Main.wgController s) r x')
        as [w1 [ok | text]].
    - unfold Main.on_connect_best_route, Main.findBestRoute.
      now rewrite Hroutes.
    - unfold Main.disconnect.
      now destruct (wgController_disconnect (Main.wgController s) y)
        as [w1 [ok | text]]. }
  split; [ exact Hs | ].
  unfold Main.on_connect_best_route, Main.findBestRoute. now rewrite Hs.
Qed.

End TimerFacts.

Lemma second_start_loses_the_first_timer_witness :
  Main.analysisInterval
    (Main.app
       (Main.perform_all Probe.discoverRoutes Probe.analyzeRoute
          WireGuard.connect WireGuard.disconnect
          (App.start_process (N := float))
          [Main.StartAnalysis Scenario.host; Main.StartAnalysis Scenario.host]))
  = Some 1%nat
  /\ forall os y,
       Main.timers
         (Main.perform_all Probe.discoverRoutes Probe.analyzeRoute
            WireGuard.connect WireGuard.disconnect
            (Main.perform_all Probe.discoverRoutes Probe.analyzeRoute
               WireGuard.connect WireGuard.disconnect
               (App.start_process (N := float))
               [Main.StartAnalysis Scenario.host; Main.StartAnalysis Scenario.host])
            os) !! 0%nat = Some 5000
       /\ Main.timers
            (fst (Quit.on_before_quit WireGuard.disconnect
                    (Main.perform_all Probe.discoverRoutes Probe.analyzeRoute
                       WireGuard.connect WireGuard.disconnect
                       (Main.perform_all Probe.discoverRoutes Probe.analyzeRoute
                          WireGuard.connect WireGuard.disconnect
                          (App.start_process (N := float))
                          [Main.StartAnalysis Scenario.host;
                           Main.StartAnalysis Scenario.host])
                       os) y)) !! 0%nat = Some 5000.
Proof.
  exact (second_start_loses_the_first_timer
           Probe.discoverRoutes Probe.analyzeRoute
           WireGuard.connect WireGuard.disconnect
           App.start_process Scenario.host Scenario.host _ _ eq_refl eq_refl).
Defined.

Lemma connect_best_route_needs_a_start_witness :
  Main.routes
    (Main.app
       (Main.perform_all Probe.discoverRoutes Probe.analyzeRoute
          WireGuard.connect WireGuard.disconnect
          (App.start_process (N := float))
          [Main.StopAnalysis; Main.ConnectBestRoute Scenario.bringup_ok;
           Main.Disconnect (Returned "")]))
  = []
  /\ Main.on_connect_best_route WireGuard.connect
       (Main.perform_all Probe.discoverRoutes Probe.analyzeRoute
          WireGuard.connect WireGuard.disconnect
          (App.start_process (N := float))
          [Main.StopAnalysis; Main.ConnectBestRoute Scenario.bringup_ok;
           Main.Disconnect (Returned "")])
       Scenario.bringup_ok
     = (Main.perform_all Probe.discoverRoutes Probe.analyzeRoute
          WireGuard.connect WireGuard.disconnect
          (App.start_process (N := float))
          [Main.StopAnalysis; Main.ConnectBestRoute Scenario.bringup_ok;
           Main.Disconnect (Returned "")],
        Main.failed "Nenhuma rota disponível").
Proof.
  apply (connect_best_route_needs_a_start
           Probe.discoverRoutes Probe.analyzeRoute
           WireGuard.connect WireGuard.disconnect
           Probe.new_NetworkProbe WireGuard.new_WireGuardController
           [Main.StopAnalysis; Main.ConnectBestRoute Scenario.bringup_ok;
            Main.Disconnect (Returned "")]
           Scenario.bringup_ok).
  repeat constructor.
Defined.

(* ===================================================================== *)
(** * The tunnel controller                                               *)
(* ===================================================================== *)

Section TunnelFacts.
Context {N : Type}.

#[local] Abbreviation Controller := (WireGuard.WireGuardController N).

(** The two ways [connect] ends. *)
Lemma connect_cases (this : Controller) (route : Route N)
    (env : WireGuard.Bringup) :
  let permitted :=
    (exists done, WireGuard.fs_writeFileSync env = Returned done)
    /\ (WireGuard.development env = true
        \/ exists stderr,
             WireGuard.exec_up env = Returned stderr
             /\ (stderr = "" \/ includes "Warning" stderr = true)) in
  (permitted
   /\ WireGuard.connect this route env
      = ({| WireGuard.isConnected := true;
            WireGuard.currentConfig := Some route |}, Returned true))
  \/ (~ permitted
      /\ exists text, WireGuard.connect this route env = (this, Raised text)).
Proof.
  unfold WireGuard.connect, WireGuard.startWireGuard.
  destruct (WireGuard.fs_writeFileSync env) as [ done | failure ];
    cbn [bind try_catch].
  - destruct (WireGuard.development env) eqn:Hdev.
    + left. split; [ eauto | ].
      destruct (WireGuard.exec_up env) as [ stderr | failure ];
        cbn [bind try_catch]; [ | reflexivity ].
      now destruct (truthy (Some stderr) && negb (includes "Warning" stderr)).
    + destruct (WireGuard.exec_up env) as [ stderr | failure ];
        cbn [bind try_catch].
      * destruct stderr as [ | c stderr ]; cbn [truthy andb negb try_catch].
        -- left. split; [ | reflexivity ]. split; eauto.
        -- destruct (includes "Warning" (String c stderr)) eqn:Hwarning;
             cbn [negb try_catch].
           ++ left. split; [ | reflexivity ]. split; eauto.
           ++ right. split; [ | eauto ].
              intros [_ [Hd | (stderr' & Hrun & [Hempty | Hw])]];
                congruence.
      * right. split; [ | eauto ].
        intros [_ [Hd | (stderr' & Hrun & _)]]; congruence.
  - right. split; [ | eauto ]. intros [[done Hdone] _]. congruence.
Qed.

(** X19: [connect] succeeds exactly when the configuration file was
    written and either the process runs in development mode or the
    [wg-quick up] command exited normally with a standard error that is
    empty or contains [Warning].  In development mode a refused standard
    error is swallowed as well: the error thrown inside the [try] of
    [startWireGuard] is caught by its own [catch].  A failed [connect]
    leaves the controller as it was. *)
Theorem connect_succeeds_exactly_when (this : Controller) (route : Route N)
    (env : WireGuard.Bringup) :
  ((exists this', WireGuard.connect this route env = (this', Returned true))
   <-> (exists done, WireGuard.fs_writeFileSync env = Returned done)
       /\ (WireGuard.development env = true
           \/ exists stderr,
                WireGuard.exec_up env = Returned stderr
                /\ (stderr = "" \/ includes "Warning" stderr = true)))
  /\ (forall this' text,
        WireGuard.connect this route env = (this', Raised text) -> this' = this)
  /\ (forall this' result,
        WireGuard.connect this route env = (this', Returned result) ->
        result = true
        /\ WireGuard.isConnected this' = true
        /\ WireGuard.currentConfig this' = Some route).
Proof.
  destruct (connect_cases this route env)
    as [[Hpermitted ->] | [Hrefused [text ->]]].
  - split; [ split; [ intros _; exact Hpermitted | eauto ] | ].
    split; [ intros this' text [=] | ].
    intros this' result [= <- <-]. now repeat split.
  - split; [ split; [ intros [this' [=]] | intros Hp; now destruct Hrefused ] | ].
    split; [ now intros this' text' [= <- _] | intros this' result [=] ].
Qed.

Lemma stopAllWireGuard_returns (exec_down : outcome string) :
  WireGuard.stopAllWireGuard exec_down = Returned true.
Proof. unfold WireGuard.stopAllWireGuard. now destruct exec_down. Qed.

Lemma WireGuard_disconnect_returns (this : Controller) (exec_down : outcome string) :
  WireGuard.disconnect this exec_down
  = (if WireGuard.isConnected this
     then {| WireGuard.isConnected := false; WireGuard.currentConfig := None |}
     else this,
     Returned true).
Proof.
  unfold WireGuard.disconnect. rewrite stopAllWireGuard_returns.
  now destruct (WireGuard.isConnected this).
Qed.

End TunnelFacts.

(* ===================================================================== *)
(** * The application and its tunnel controller                          *)
(* ===================================================================== *)

Section ShippedFacts.
Context {N : Type} `{Number N}.

#[local] Abbreviation shipped_all :=
  (Main.perform_all (N := N) Probe.discoverRoutes Probe.analyzeRoute
                    WireGuard.connect WireGuard.disconnect).

(** The application and the controller tell the same about the
    connection. *)
#[local] Abbreviation agree :=
  (fun s : App.Process =>
     Main.isConnected (Main.app s) = WireGuard.isConnected (Main.wgController s)
     /\ Main.currentRoute (Main.app s)
        = WireGuard.currentConfig (Main.wgController s)
     /\ (WireGuard.isConnected (Main.wgController s) = false ->
         WireGuard.currentConfig (Main.wgController s) = None)).

Lemma connectToRoute_agrees (s : App.Process) (r : option (Route N))
    (x : WireGuard.Bringup) :
  agree s -> agree (fst (Main.connectToRoute WireGuard.connect s r x)).
Proof.
  intros Hs. unfold Main.connectToRoute. destruct r as [ r | ]; [ | exact Hs ].
  destruct (connect_cases (Main.wgController s) r x)
    as [[_ ->] | [_ [text ->]]]; simpl; [ now repeat split | exact Hs ].
Qed.

Lemma perform_agrees (s : App.Process) (o : App.operation) :
  agree s -> agree (fst (App.perform s o)).
Proof.
  intros Hs. destruct o as [ d | | env | r x | x | y ]; unfold App.perform; simpl.
  - unfold Main.startNetworkAnalysis.
    now destruct (Probe.discoverRoutes d).
  - unfold Main.stopNetworkAnalysis.
    now destruct (Main.analysisInterval (Main.app s)).
  - unfold Main.analyzeRoutes.
    now destruct (Main.analyze_each Probe.analyzeRoute (Main.probe s)
                    (Main.routes (Main.app s)) env 0).
  - pose proof (connectToRoute_agrees s r x Hs) as Hr.
    now destruct (Main.connectToRoute WireGuard.connect s r x) as [s1 [ok | text]].
  - unfold Main.on_connect_best_route, Main.findBestRoute.
    destruct (Main.routes (Main.app s)) as [ | first rest ]; [ exact Hs | ].
    pose proof (connectToRoute_agrees s (Some first) x Hs) as Hr.
    now destruct (Main.connectToRoute WireGuard.connect s (Some first) x)
      as [s1 [ok | text]].
  - unfold Main.disconnect. rewrite WireGuard_disconnect_returns. simpl.
    destruct Hs as (Hi & Hr & Hw).
    destruct (WireGuard.isConnected (Main.wgController s)) eqn:Hc; simpl.
    + now repeat split.
    + rewrite Hc. repeat split; [ now rewrite Hw | exact Hw ].
Qed.

Lemma shipped_all_agrees (os : list App.operation) :
  forall s : App.Process, agree s -> agree (shipped_all s os).
Proof.
  induction os as [ | o os IH ]; intros s Hs; [ exact Hs | ].
  apply (IH (fst (App.perform s o))). now apply perform_agrees.
Qed.

(** X20: the application object and the tunnel controller never
    disagree: from the initial state, after any sequence of operations,
    each successful or failed, [hiraishin.isConnected] equals
    [wgController.isConnected] and [hiraishin.currentRoute] equals
    [wgController.currentConfig]. *)
Theorem application_and_controller_agree (os : list App.operation) :
  let s := shipped_all App.start_process os in
  Main.isConnected (Main.app s) = WireGuard.isConnected (Main.wgController s)
  /\ Main.currentRoute (Main.app s)
     = WireGuard.currentConfig (Main.wgController s).
Proof.
  intros s.
  destruct (shipped_all_agrees os App.start_process) as (Hi & Hr & _).
  - repeat split.
  - split; [ exact Hi | exact Hr ].
Qed.

(** X21: the [disconnect] handler always answers success, whatever the
    [wg-quick down] command did: [stopAllWireGuard] drops the command's
    failure, so neither [catch] that rethrows is ever entered.
    Afterwards the application and the controller are both disconnected
    and the timers and the catalog are as before. *)
Theorem disconnect_always_succeeds (s : App.Process) (y : outcome string) :
  exists s' : App.Process,
    Main.on_disconnect WireGuard.disconnect s y
    = (s', Main.succeeded "Desconectado com sucesso")
    /\ Main.isConnected (Main.app s') = false
    /\ Main.currentRoute (Main.app s') = None
    /\ (WireGuard.isConnected (Main.wgController s) = true ->
        Main.wgController s' = WireGuard.new_WireGuardController)
    /\ (WireGuard.isConnected (Main.wgController s) = false ->
        Main.wgController s' = Main.wgController s)
    /\ Main.timers s' = Main.timers s
    /\ Main.routes (N := N) (Main.app s') = Main.routes (N := N) (Main.app s).
Proof.
  unfold Main.on_disconnect, Main.disconnect.
  rewrite WireGuard_disconnect_returns. cbn.
  eexists. split; [ reflexivity | ]. cbn.
  destruct (WireGuard.isConnected (Main.wgController s));
    repeat split; intros; congruence.
Qed.

(** X22: on quitting, from any state the program can reach, the
    [before-quit] handler does not fail; it leaves the application and
    the controller disconnected and the recorded analysis timer
    disarmed. *)
Theorem quitting_disconnects_and_disarms (os : list App.operation)
    (y : outcome string) :
  let s := shipped_all App.start_process os in
  exists s' : App.Process,
    Quit.on_before_quit WireGuard.disconnect s y = (s', Returned tt)
    /\ Main.isConnected (Main.app s') = false
    /\ WireGuard.isConnected (Main.wgController s') = false
    /\ WireGuard.currentConfig (Main.wgController s') = None
    /\ forall handle,
         Main.analysisInterval (Main.app s) = Some handle ->
         Main.timers s' !! handle = None.
Proof.
  intros s.
  destruct (shipped_all_agrees os App.start_process) as (Hi & Hr & Hw);
    [ repeat split | ].
  fold s in Hi, Hr, Hw. unfold Quit.on_before_quit.
  destruct (Main.isConnected (Main.app s)) eqn:Hc.
  - unfold Main.disconnect. rewrite WireGuard_disconnect_returns.
    rewrite <- Hi. cbn.
    destruct (Main.analysisInterval (Main.app s)) as [ handle | ]; cbn;
      eexists; (split; [ reflexivity | ]); cbn; repeat split;
      try discriminate.
    intros h [= <-]. apply lookup_delete_eq.
  - destruct (Main.analysisInterval (Main.app s)) as [ handle | ]; cbn;
      eexists; (split; [ reflexivity | ]); cbn; repeat split;
      try discriminate; try exact Hc; try (now rewrite <- Hi);
      try (apply Hw; now rewrite <- Hi).
    intros h [= <-]. apply lookup_delete_eq.
Qed.

End ShippedFacts.

(* ===================================================================== *)
(** * The best route                                                      *)
(* ===================================================================== *)

Section BestRoute.
Context {P E W X : Type}.
Variable probe_analyzeRoute :
  P -> Route num -> E -> P * outcome (Metrics num).
Variable wgController_connect : W -> Route num -> X -> W * outcome bool.

(** X23: when every route has a number for its score after an analysis
    cycle, the catalog is ranked, [findBestRoute] returns a route whose
    score no route of the catalog exceeds, and a successful
    [connect-best-route] connects to that route. *)
Theorem best_route_has_the_highest_score (s : Main.Process num P W)
    (env : Main.Cycle E) :
  let s' := fst (Main.analyzeRoutes probe_analyzeRoute s env) in
  Forall Main.scored (Main.routes (Main.app s')) ->
  Main.ranked (Main.routes (Main.app s')) = true
  /\ (forall best,
        Main.findBestRoute s' = Returned best ->
        forall r, r ∈ Main.routes (Main.app s') ->
                  le (Main.score_of r) (Main.score_of best) = true)
  /\ (forall x s'' reply,
        Main.on_connect_best_route wgController_connect s' x = (s'', reply) ->
        Main.success reply = true ->
        exists best,
          Main.route reply = Some best
          /\ Main.currentRoute (Main.app s'') = Some best
          /\ Main.isConnected (Main.app s'') = true
          /\ forall r, r ∈ Main.routes (Main.app s') ->
                       le (Main.score_of r) (Main.score_of best) = true).
Proof.
  intros s'. subst s'. unfold Main.analyzeRoutes.
  destruct (Main.analyze_each probe_analyzeRoute (Main.probe s)
              (Main.routes (Main.app s)) env 0) as [p1 analyzed].
  cbn [fst Main.app Main.routes]. intros Hscored.
  assert (Hanalyzed : Forall Main.scored analyzed).
  { now rewrite (Array_sort_Permutation Main.compare_routes analyzed) in Hscored. }
  assert (Hbest : forall best rest,
            Array_sort Main.compare_routes analyzed = best :: rest ->
            forall r, r ∈ Array_sort Main.compare_routes analyzed ->
                      le (Main.score_of r) (Main.score_of best) = true).
  { intros best rest Hsorted r Hr.
    apply (Array_sort_best_first analyzed best rest Hanalyzed Hsorted).
    now rewrite (Array_sort_Permutation Main.compare_routes analyzed) in Hr. }
  split; [ now apply Array_sort_ranked | ]. split.
  - unfold Main.findBestRoute. cbn [Main.app Main.routes].
    destruct (Array_sort Main.compare_routes analyzed) as [ | first rest ] eqn:Hsorted;
      intros best [= <-]. exact (Hbest first rest eq_refl).
  - unfold Main.on_connect_best_route, Main.findBestRoute, Main.connectToRoute.
    cbn [Main.app Main.routes Main.wgController].
    destruct (Array_sort Main.compare_routes analyzed) as [ | first rest ] eqn:Hsorted.
    + intros x s'' reply [= <- <-]. discriminate.
    + intros x s'' reply.
      destruct (wgController_connect (Main.wgController s) first x)
        as [w1 [ok | text]]; intros [= <- <-]; [ | discriminate ].
      intros _. exists first. repeat split. exact (Hbest first rest eq_refl).
Qed.

End BestRoute.

Lemma best_route_has_the_highest_score_witness :
  Main.ranked
    (Main.routes
       (Main.app
          (fst (App.analyzeRoutes
                  (Scenario.with_catalog
                     [Scenario.routeA; Scenario.routeB; Scenario.routeC])
                  (Scenario.cycle_second_fails (N := num)))))) = true
  /\ (forall best,
        Main.findBestRoute
          (fst (App.analyzeRoutes
                  (Scenario.with_catalog
                     [Scenario.routeA; Scenario.routeB; Scenario.routeC])
                  (Scenario.cycle_second_fails (N := num)))) = Returned best ->
        forall r,
          r ∈ Main.routes
                (Main.app
                   (fst (App.analyzeRoutes
                           (Scenario.with_catalog
                              [Scenario.routeA; Scenario.routeB; Scenario.routeC])
                           (Scenario.cycle_second_fails (N := num))))) ->
          le (Main.score_of r) (Main.score_of best) = true)
  /\ (forall x s'' reply,
        Main.on_connect_best_route WireGuard.connect
          (fst (App.analyzeRoutes
                  (Scenario.with_catalog
                     [Scenario.routeA; Scenario.routeB; Scenario.routeC])
                  (Scenario.cycle_second_fails (N := num)))) x = (s'', reply) ->
        Main.success reply = true ->
        exists best,
          Main.route reply = Some best
          /\ Main.currentRoute (Main.app s'') = Some best
          /\ Main.isConnected (Main.app s'') = true
          /\ forall r,
               r ∈ Main.routes
                     (Main.app
                        (fst (App.analyzeRoutes
                                (Scenario.with_catalog
                                   [Scenario.routeA; Scenario.routeB;
                                    Scenario.routeC])
                                (Scenario.cycle_second_fails (N := num))))) ->
               le (Main.score_of r) (Main.score_of best) = true).
Proof.
  apply (best_route_has_the_highest_score Probe.analyzeRoute WireGuard.connect
           (Scenario.with_catalog
              [Scenario.routeA; Scenario.routeB; Scenario.routeC])
           (Scenario.cycle_second_fails (N := num))).
  repeat constructor; vm_compute; discriminate.
Defined.
